(** * The flow studio of frappe_pywce: a shallow embedding

    The editor page (studio/src/pages/Index.tsx) keeps a graph of template
    nodes and route edges, an undo history and a save flag in React state and
    moves a JSON flow document in and out of it.  The settings tab of the
    property sidebar toggles the start / report markers of one template.

    The JSON documents are untyped at run time ([JSON.parse] returns [any]
    and the TypeScript interfaces are erased), so templates, routes and
    documents are modelled as JavaScript values and every property access,
    truthiness test and method call is written out with the error it can
    raise. *)

From Stdlib Require Import List String Ascii ZArith Bool Lia DecimalString.
Import ListNotations.

Local Open Scope string_scope.
Local Open Scope list_scope.
Local Open Scope Z_scope.

(** ** JavaScript values *)

Module JS.

(** Values that can sit in the editor state or in a parsed document.
    Numbers are integers here: the program only stores, compares and prints
    them.  An object is its own properties in insertion order. *)
#[warnings="-register-all"]
Inductive value : Type :=
| VUndefined
| VNull
| VBool (b : bool)
| VNum (n : Z)
| VStr (s : string)
| VArr (items : list value)
| VObj (fields : list (string * value)).

Definition fields_of := list (string * value).

Inductive exn : Type :=
| TypeError
| SyntaxError (msg : string).

(** The outcome of an expression that may raise. *)
Inductive result (A : Type) : Type :=
| Ok (a : A)
| Throw (e : exn).
Arguments Ok {A} a.
Arguments Throw {A} e.

Definition bind {A B} (r : result A) (k : A -> result B) : result B :=
  match r with
  | Ok a => k a
  | Throw e => Throw e
  end.

Notation "x <- e ;; k" := (bind e (fun x => k))
  (at level 61, e at next level, right associativity).

(** [xs.map(f)] and [xs.forEach(f)] with a callback that may raise: the
    first exception stops the loop. *)
Fixpoint mapM {A B} (f : A -> result B) (xs : list A) : result (list B) :=
  match xs with
  | [] => Ok []
  | x :: rest =>
      y <- f x ;;
      ys <- mapM f rest ;;
      Ok (y :: ys)
  end.

(** ToBoolean. *)
Definition truthy (v : value) : bool :=
  match v with
  | VUndefined | VNull => false
  | VBool b => b
  | VNum n => negb (n =? 0)
  | VStr s => negb (s =? "")%string
  | VArr _ | VObj _ => true
  end.

(** [a || b] and [a ?? b]. *)
Definition or_else (a b : value) : value := if truthy a then a else b.

Definition nullish (v : value) : bool :=
  match v with
  | VUndefined | VNull => true
  | _ => false
  end.

Definition coalesce (a b : value) : value := if nullish a then b else a.

Definition isArray (v : value) : bool :=
  match v with
  | VArr _ => true
  | _ => false
  end.

(** Own properties of an object. *)
Fixpoint lookup (k : string) (fs : fields_of) : option value :=
  match fs with
  | [] => None
  | (k', v) :: rest => if (k' =? k)%string then Some v else lookup k rest
  end.

(** [obj[k] = v] on the property list: an existing key keeps its place, a
    new one goes last. *)
Fixpoint set_field (k : string) (v : value) (fs : fields_of) : fields_of :=
  match fs with
  | [] => [(k, v)]
  | (k', v') :: rest =>
      if (k' =? k)%string then (k, v) :: rest else (k', v') :: set_field k v rest
  end.

(** [v.k] for the property names this program reads (none of them is a
    built-in property of a string, number, boolean or array): reading from
    [undefined] or [null] raises, every other non-object has no such
    property. *)
Definition prop (v : value) (k : string) : result value :=
  match v with
  | VUndefined | VNull => Throw TypeError
  | VObj fs =>
      match lookup k fs with
      | Some x => Ok x
      | None => Ok VUndefined
      end
  | _ => Ok VUndefined
  end.

(** [v?.k]. *)
Definition opt_prop (v : value) (k : string) : value :=
  match prop v k with
  | Ok x => x
  | Throw _ => VUndefined
  end.

Definition string_of_Z (n : Z) : string := NilZero.string_of_int (Z.to_int n).

Fixpoint index_from (i : nat) (xs : list value) : fields_of :=
  match xs with
  | [] => []
  | x :: rest => (string_of_Z (Z.of_nat i), x) :: index_from (S i) rest
  end.

Fixpoint chars_from (i : nat) (s : string) : fields_of :=
  match s with
  | EmptyString => []
  | String c rest =>
      (string_of_Z (Z.of_nat i), VStr (String c EmptyString)) :: chars_from (S i) rest
  end.

(** The properties copied by [{...v}]: the own enumerable ones.  An array
    spreads its indices, a string its characters, other primitives
    nothing. *)
Definition spread (v : value) : fields_of :=
  match v with
  | VObj fs => fs
  | VArr xs => index_from 0 xs
  | VStr s => chars_from 0 s
  | _ => []
  end.

Fixpoint join (sep : string) (parts : list string) : string :=
  match parts with
  | [] => ""
  | [p] => p
  | p :: rest => (p ++ sep ++ join sep rest)%string
  end.

(** ToString, as used by template literals. *)
Fixpoint toString (v : value) : string :=
  match v with
  | VUndefined => "undefined"
  | VNull => "null"
  | VBool true => "true"
  | VBool false => "false"
  | VNum n => string_of_Z n
  | VStr s => s
  | VArr xs =>
      join "," (map (fun x => match x with
                              | VUndefined | VNull => ""
                              | _ => toString x
                              end) xs)
  | VObj _ => "[object Object]"
  end.

(** [a === b].  Primitives compare by value.  JavaScript compares arrays
    and objects by identity, which this value model does not carry; they
    are compared by structure here.  Template, route and node ids are
    strings in every document the editor writes. *)
Fixpoint strict_eq (a b : value) : bool :=
  match a, b with
  | VUndefined, VUndefined => true
  | VNull, VNull => true
  | VBool x, VBool y => Bool.eqb x y
  | VNum x, VNum y => (x =? y)%Z
  | VStr x, VStr y => (x =? y)%string
  | VArr xs, VArr ys =>
      (fix all2 (xs ys : list value) {struct xs} : bool :=
         match xs, ys with
         | [], [] => true
         | x :: xs', y :: ys' => strict_eq x y && all2 xs' ys'
         | _, _ => false
         end) xs ys
  | VObj fs, VObj gs =>
      (fix all2 (fs gs : fields_of) {struct fs} : bool :=
         match fs, gs with
         | [], [] => true
         | (k, x) :: fs', (k', y) :: gs' =>
             (k =? k')%string && strict_eq x y && all2 fs' gs'
         | _, _ => false
         end) fs gs
  | _, _ => false
  end.

(** [String.prototype.toLowerCase] belongs to the engine: it lowers every
    cased letter of the Unicode tables, which are no part of this program.
    The functions that call it take it as [lower], as [onConnect] takes
    React Flow's [addEdge], and nothing is assumed of it.

    [v.toLowerCase()]: only a string has the method. *)
Definition toLowerCase (lower : string -> string) (v : value) : result string :=
  match v with
  | VStr s => Ok (lower s)
  | _ => Throw TypeError
  end.

(** A stand-in for the engine's function where a concrete run needs one:
    on a string of ASCII characters [toLowerCase] lowers the letters A to Z
    and keeps every other character, which is what this function does byte
    by byte.  The concrete runs of this file hold ASCII names only. *)
Definition lower_ascii (c : ascii) : ascii :=
  let n := nat_of_ascii c in
  if andb (Nat.leb 65 n) (Nat.leb n 90) then ascii_of_nat (n + 32) else c.

Fixpoint lowerASCII (s : string) : string :=
  match s with
  | EmptyString => EmptyString
  | String c rest => String (lower_ascii c) (lowerASCII rest)
  end.

(** *** JSON texts

    What [JSON.stringify] followed by [JSON.parse] keeps of a value: a
    property holding [undefined] is left out, an [undefined] array element
    becomes [null]. *)
Fixpoint jsonify (v : value) : value :=
  match v with
  | VArr xs =>
      VArr (map (fun x => match x with
                          | VUndefined => VNull
                          | _ => jsonify x
                          end) xs)
  | VObj fs =>
      VObj (flat_map (fun kv => match kv with
                                | (_, VUndefined) => []
                                | (k, x) => [(k, jsonify x)]
                                end) fs)
  | _ => v
  end.

(** A string handed to [JSON.parse], described by what the parser makes of
    it: the empty string, a non-empty string that is not JSON (with the
    message of the engine's SyntaxError), or the text of a document. *)
Inductive text : Type :=
| Blank
| Garbled (msg : string)
| Json (doc : value).

Definition JSON_parse (t : text) : result value :=
  match t with
  | Blank => Throw (SyntaxError "Unexpected end of JSON input")
  | Garbled msg => Throw (SyntaxError msg)
  | Json doc => Ok doc
  end.

(** [JSON.stringify] writes the text that parses back to what the trip
    keeps of the value. *)
Definition JSON_stringify (v : value) : text := Json (jsonify v).

(** A string is truthy unless empty. *)
Definition text_truthy (t : text) : bool :=
  match t with
  | Blank => false
  | _ => true
  end.

End JS.

(** ** React Flow's nodes and edges *)

Import JS.

Inductive EdgeType : Type := Default | Straight | Step | Smoothstep.

(** [Node<ChatbotTemplate>]: the fields the page reads and writes. *)
Module Node.
Record t : Type := mk {
  id : value;
  type : string;
  position : value;
  data : value;
}.

(** [{...node, data: d}] *)
Definition with_data (d : value) (n : t) : t :=
  {| id := id n; type := type n; position := position n; data := d |}.

(** [{...node, position: p}] *)
Definition with_position (p : value) (n : t) : t :=
  {| id := id n; type := type n; position := p; data := data n |}.
End Node.

Module Edge.
Record t : Type := mk {
  id : string;
  source : value;
  sourceHandle : value;
  target : value;
  targetHandle : value;
  type : EdgeType;
  animated : bool;
  label : value;
  isRegex : value;        (* data.isRegex *)
  edgeType : EdgeType;    (* data.edgeType *)
}.

(** [{...edge, type: ty, data: {...edge.data, edgeType: ty}}] *)
Definition with_type (ty : EdgeType) (e : t) : t :=
  {| id := id e; source := source e; sourceHandle := sourceHandle e;
     target := target e; targetHandle := targetHandle e; type := ty;
     animated := animated e; label := label e; isRegex := isRegex e;
     edgeType := ty |}.
End Edge.

(** React Flow's [Connection], the argument of [onConnect]. *)
Record Connection : Type := {
  conn_source : value;
  conn_sourceHandle : value;
  conn_target : value;
  conn_targetHandle : value;
}.

(** ** The editor page, studio/src/pages/Index.tsx *)

Module Index.

Inductive ToastKind : Type := success | error | info | warning.

Record Toast : Type := { kind : ToastKind; message : string }.

(** The record fetched by [useFrappeGetDoc<ChatBotConfig>]; [flow_json] is
    declared a string, so the [typeof] test before [JSON.parse] holds. *)
Record ChatBotConfig : Type := {
  chatbot_name : option string;
  flow_json : option text;
  env : option string;
}.

(** What a render receives from outside the component: the fetched record,
    the loading flag, [urlParams.get("flow")], and the engine's
    [String.prototype.toLowerCase] on strings ([lower]), of which nothing is
    assumed. *)
Record Props : Type := {
  data : option ChatBotConfig;
  isLoading : bool;
  flowParam : option string;
  lower : string -> string;
}.

Record Snapshot : Type := {
  snap_nodes : list Node.t;
  snap_edges : list Edge.t;
}.

(** One [updateDoc] call that has not settled yet, with the [flowName] its
    callbacks closed over. *)
Record Request : Type := {
  payload : text;
  flowName : string;
}.

(** The React state of the page, the toasts shown so far (oldest first) and
    the backend updates in flight.  The minimap and dialog switches play no
    part in the operations below and are left out. *)
Record State : Type := mkState {
  nodes : list Node.t;
  edges : list Edge.t;
  selectedTemplate : value;
  edgeType : EdgeType;
  history : list Snapshot;
  historyIndex : Z;
  isFlowLoaded : bool;
  isSaving : bool;
  toasts : list Toast;
  inFlight : list Request;
}.

Definition initial : State :=
  {| nodes := []; edges := []; selectedTemplate := VNull; edgeType := Default;
     history := []; historyIndex := -1; isFlowLoaded := false;
     isSaving := false; toasts := []; inFlight := [] |}.

(** *** State setters *)

Definition setNodes (f : list Node.t -> list Node.t) (s : State) : State :=
  mkState (f (nodes s)) (edges s) (selectedTemplate s) (edgeType s) (history s)
    (historyIndex s) (isFlowLoaded s) (isSaving s) (toasts s) (inFlight s).

Definition setEdges (f : list Edge.t -> list Edge.t) (s : State) : State :=
  mkState (nodes s) (f (edges s)) (selectedTemplate s) (edgeType s) (history s)
    (historyIndex s) (isFlowLoaded s) (isSaving s) (toasts s) (inFlight s).

Definition setSelectedTemplate (v : value) (s : State) : State :=
  mkState (nodes s) (edges s) v (edgeType s) (history s)
    (historyIndex s) (isFlowLoaded s) (isSaving s) (toasts s) (inFlight s).

Definition setEdgeType (ty : EdgeType) (s : State) : State :=
  mkState (nodes s) (edges s) (selectedTemplate s) ty (history s)
    (historyIndex s) (isFlowLoaded s) (isSaving s) (toasts s) (inFlight s).

Definition setHistory (h : list Snapshot) (s : State) : State :=
  mkState (nodes s) (edges s) (selectedTemplate s) (edgeType s) h
    (historyIndex s) (isFlowLoaded s) (isSaving s) (toasts s) (inFlight s).

Definition setHistoryIndex (i : Z) (s : State) : State :=
  mkState (nodes s) (edges s) (selectedTemplate s) (edgeType s) (history s)
    i (isFlowLoaded s) (isSaving s) (toasts s) (inFlight s).

Definition setIsFlowLoaded (b : bool) (s : State) : State :=
  mkState (nodes s) (edges s) (selectedTemplate s) (edgeType s) (history s)
    (historyIndex s) b (isSaving s) (toasts s) (inFlight s).

Definition setIsSaving (b : bool) (s : State) : State :=
  mkState (nodes s) (edges s) (selectedTemplate s) (edgeType s) (history s)
    (historyIndex s) (isFlowLoaded s) b (toasts s) (inFlight s).

Definition toast (k : ToastKind) (msg : string) (s : State) : State :=
  mkState (nodes s) (edges s) (selectedTemplate s) (edgeType s) (history s)
    (historyIndex s) (isFlowLoaded s) (isSaving s)
    (toasts s ++ [{| kind := k; message := msg |}]) (inFlight s).

Definition setInFlight (rs : list Request) (s : State) : State :=
  mkState (nodes s) (edges s) (selectedTemplate s) (edgeType s) (history s)
    (historyIndex s) (isFlowLoaded s) (isSaving s) (toasts s) rs.

(** *** Arrays indexed by a JavaScript number *)

(** [xs[i]]: [undefined] (here [None]) outside the array. *)
Definition at_index {A} (xs : list A) (i : Z) : option A :=
  if i <? 0 then None else nth_error xs (Z.to_nat i).

(** [xs.slice(0, e)]: a negative end counts from the back. *)
Definition slice0 {A} (xs : list A) (e : Z) : list A :=
  if e <? 0
  then firstn (Z.to_nat (Z.max (Z.of_nat (List.length xs) + e) 0)) xs
  else firstn (Z.to_nat e) xs.

(** The receiver of [.map], [.forEach] and [.find]: anything but an array
    has no such method ([undefined] and [null] raise on the access). *)
Definition items_of (v : value) : result (list value) :=
  match v with
  | VArr xs => Ok xs
  | _ => Throw TypeError
  end.

(** The double quote, for the messages that quote a name. *)
Definition dq : string := String (ascii_of_nat 34) EmptyString.

(** *** saveToHistory

    The callback closes over the [nodes], [edges], [history] and
    [historyIndex] of the render that created it ([render]) and queues the
    new stack and pointer on the pending state ([s]). *)
Definition saveToHistory (render : State) (s : State) : State :=
  let newHistory :=
    slice0 (history render) (historyIndex render + 1)
      ++ [{| snap_nodes := nodes render; snap_edges := edges render |}] in
  setHistoryIndex (Z.of_nat (List.length newHistory) - 1)
    (setHistory newHistory s).

(** *** Nodes and edges of a list of templates

    The same reconstruction is written out in the load effect and in
    [handleFileImport]. *)

Definition origin : value := VObj [("x", VNum 0); ("y", VNum 0)].

Definition nodeOfTemplate (template : value) : result Node.t :=
  id <- prop template "id" ;;
  position <- prop template "position" ;;
  Ok {| Node.id := id; Node.type := "template";
        Node.position := or_else position origin; Node.data := template |}.

(** [pattern ? (isRegex && pattern === ".*" ? "any" : pattern) : ""] *)
Definition edgeLabel (pattern isRegex : value) : value :=
  if truthy pattern
  then if truthy isRegex && strict_eq pattern (VStr ".*")
       then VStr "any" else pattern
  else VStr "".

(** [`e${source}-${handle}-${target}`] *)
Definition edgeId (source handle target : value) : string :=
  ("e" ++ toString source ++ "-" ++ toString handle ++ "-" ++ toString target)%string.

(** The body of the inner [forEach]: the edges pushed for one route. *)
Definition edgesOfRoute (et : EdgeType) (template route : value)
  : result (list Edge.t) :=
  connectedTo <- prop route "connectedTo" ;;
  if truthy connectedTo then
    pattern <- prop route "pattern" ;;
    isRegex <- prop route "isRegex" ;;
    tid <- prop template "id" ;;
    rid <- prop route "id" ;;
    Ok [{| Edge.id := edgeId tid rid connectedTo;
           Edge.source := tid;
           Edge.sourceHandle := rid;
           Edge.target := connectedTo;
           Edge.targetHandle := VUndefined;
           Edge.type := et;
           Edge.animated := true;
           Edge.label := edgeLabel pattern isRegex;
           Edge.isRegex := isRegex;
           Edge.edgeType := et |}]
  else Ok [].

(** [template.routes?.forEach(...)] *)
Definition edgesOfTemplate (et : EdgeType) (template : value)
  : result (list Edge.t) :=
  routes <- prop template "routes" ;;
  if nullish routes then Ok []
  else
    rs <- items_of routes ;;
    ess <- mapM (edgesOfRoute et template) rs ;;
    Ok (List.concat ess).

Definition edgesOfTemplates (et : EdgeType) (templates : list value)
  : result (list Edge.t) :=
  ess <- mapM (edgesOfTemplate et) templates ;;
  Ok (List.concat ess).

(** *** The load effect *)

Definition name_or (d : string) (n : option string) : string :=
  match n with
  | Some s => s
  | None => d
  end.

(** [a || b] on strings that may be missing. *)
Definition str_or (a : option string) (b : string) : string :=
  match a with
  | Some s => if (s =? "")%string then b else s
  | None => b
  end.

Definition str_truthy (a : option string) : bool :=
  match a with
  | Some s => negb (s =? "")%string
  | None => false
  end.

(** [bots.find(bot => bot.name.toLowerCase() === flowParam.toLowerCase())],
    [undefined] when no bot matches. *)
Fixpoint findBot (lower : string -> string) (flowParam : string)
  (bots : list value) : result value :=
  match bots with
  | [] => Ok VUndefined
  | bot :: rest =>
      name <- prop bot "name" ;;
      lname <- toLowerCase lower name ;;
      if (lname =? lower flowParam)%string then Ok bot
      else findBot lower flowParam rest
  end.

(** [{ templates: bot.templates, version: flowData.version || "1.0" }] and
    [bot.name]. *)
Definition flowOfBot (flowData bot : value) : result (value * value) :=
  templates <- prop bot "templates" ;;
  version <- prop flowData "version" ;;
  name <- prop bot "name" ;;
  Ok (VObj [("templates", templates);
            ("version", or_else version (VStr "1.0"))], name).

(** [xs[0]] *)
Definition first_item (xs : list value) : value :=
  match xs with
  | x :: _ => x
  | [] => VUndefined
  end.

(** The flow picked from the parsed [flow_json], the name shown in the
    toast and whether the "not found" warning is raised. *)
Definition pickFlow (p : Props) (cfg : ChatBotConfig) (flowData : value)
  : result (value * value * bool) :=
  chatbots <- prop flowData "chatbots" ;;
  if truthy chatbots && isArray chatbots then
    bots <- items_of chatbots ;;
    if str_truthy (flowParam p) then
      foundBot <- findBot (lower p) (name_or "" (flowParam p)) bots ;;
      if truthy foundBot then
        r <- flowOfBot flowData foundBot ;;
        Ok (fst r, snd r, false)
      else
        r <- flowOfBot flowData (first_item bots) ;;
        Ok (fst r, snd r, true)
    else
      r <- flowOfBot flowData (first_item bots) ;;
      Ok (fst r, snd r, false)
  else
    Ok (flowData, VStr (name_or "untitled" (chatbot_name cfg)), false).

(** The effect that runs when the fetched record changes.  [Throw] is an
    exception that leaves the effect uncaught. *)
Definition loadFlow (p : Props) (s : State) : result State :=
  match data p with
  | Some cfg =>
      if negb (isFlowLoaded s) then
        let s1 := setIsFlowLoaded true s in
        let fresh :=
          Ok (saveToHistory s
                (setEdges (fun _ => [])
                   (setNodes (fun _ => [])
                      (toast info
                         ("New flow for " ++ dq
                          ++ name_or "untitled" (chatbot_name cfg) ++ dq
                          ++ ". Start building!")%string s1)))) in
        match flow_json cfg with
        | None => fresh
        | Some t =>
            if text_truthy t then
              match JSON_parse t with
              | Throw e =>
                  let msg := match e with
                             | SyntaxError m => m
                             | TypeError => "TypeError"
                             end in
                  Ok (toast error ("Failed to parse flow_json: " ++ msg)%string s1)
              | Ok flowData =>
                  picked <- pickFlow p cfg flowData ;;
                  let '(flow, selectedBotName, warn) := picked in
                  let s2 :=
                    if warn
                    then toast warning
                           ("Chatbot " ++ dq ++ name_or "" (flowParam p) ++ dq
                            ++ " not found. Loading first chatbot.")%string s1
                    else s1 in
                  templates <- (if truthy flow then prop flow "templates"
                                else Ok VUndefined) ;;
                  if truthy flow && truthy templates then
                    ts <- items_of templates ;;
                    newNodes <- mapM nodeOfTemplate ts ;;
                    newEdges <- edgesOfTemplates (edgeType s) ts ;;
                    Ok (toast success
                          ("ChatBot flow " ++ dq ++ toString selectedBotName
                           ++ dq ++ " loaded")%string
                          (saveToHistory s
                             (setEdges (fun _ => newEdges)
                                (setNodes (fun _ => newNodes) s2))))
                  else
                    Ok (toast error "Invalid flow structure" s2)
              end
            else fresh
        end
      else Ok s
  | None =>
      if negb (isLoading p) && negb (isFlowLoaded s) then
        Ok (saveToHistory s
              (setEdges (fun _ => [])
                 (setNodes (fun _ => [])
                    (toast info "Create a new chatbot to continue"
                       (setIsFlowLoaded true s)))))
      else Ok s
  end.

(** *** Connecting and disconnecting routes *)

(** [routes.find(r => r.id === handle)], [undefined] when none matches. *)
Fixpoint findRoute (handle : value) (routes : list value) : result value :=
  match routes with
  | [] => Ok VUndefined
  | r :: rest =>
      rid <- prop r "id" ;;
      if strict_eq rid handle then Ok r else findRoute handle rest
  end.

(** [nodes.find(n => n.id === id)], [None] for [undefined]. *)
Definition findNode (id : value) (ns : list Node.t) : option Node.t :=
  find (fun n => strict_eq (Node.id n) id) ns.

(** [route.id === handle ? { ...route, connectedTo } : route], the callback
    of [routes.map] in [onConnect] and [onEdgesDelete]. *)
Definition connectRoute (handle connectedTo route : value) : result value :=
  rid <- prop route "id" ;;
  if strict_eq rid handle
  then Ok (VObj (set_field "connectedTo" connectedTo (spread route)))
  else Ok route.

(** [routes.length === 0] for a truthy [routes]. *)
Definition length_is_zero (routes : value) : bool :=
  match routes with
  | VArr [] => true
  | VObj fs =>
      match lookup "length" fs with
      | Some (VNum 0) => true
      | _ => false
      end
  | _ => false
  end.

Definition newRoute (now : Z) (target : value) : value :=
  VObj [("id", VStr ("route-" ++ string_of_Z now)%string);
        ("pattern", VStr "");
        ("isRegex", VBool false);
        ("connectedTo", target);
        ("sourcePosition", VStr "bottom");
        ("targetPosition", VStr "top")].

(** [{ ...node, data: { ...template, routes } }] *)
Definition with_routes (routes : value) (node : Node.t) : Node.t :=
  Node.with_data
    (VObj (set_field "routes" routes (spread (Node.data node)))) node.

(** The callback of [nds.map] in [onConnect]. *)
Definition connectNode (now : Z) (source sourceHandle target : value)
  (node : Node.t) : result Node.t :=
  if strict_eq (Node.id node) source then
    r <- prop (Node.data node) "routes" ;;
    let routes := or_else r (VArr []) in
    if strict_eq sourceHandle (VStr "default") && length_is_zero routes then
      Ok (with_routes (VArr [newRoute now target]) node)
    else
      rs <- items_of routes ;;
      updatedRoutes <- mapM (connectRoute sourceHandle target) rs ;;
      Ok (with_routes (VArr updatedRoutes) node)
  else Ok node.

(** The callback of [nds.map] in [onEdgesDelete]. *)
Definition disconnectNode (edge : Edge.t) (node : Node.t) : result Node.t :=
  if strict_eq (Node.id node) (Edge.source edge) then
    r <- prop (Node.data node) "routes" ;;
    rs <- items_of (or_else r (VArr [])) ;;
    updatedRoutes <- mapM (connectRoute (Edge.sourceHandle edge) VUndefined) rs ;;
    Ok (with_routes (VArr updatedRoutes) node)
  else Ok node.

Section WithReactFlow.

(** React Flow's [addEdge(edge, edges)], a library function. *)
Variable addEdge : Edge.t -> list Edge.t -> list Edge.t.

(** [now] is [Date.now()].  The handle orientations computed at the top of
    the callback are not used afterwards and are left out. *)
Definition onConnect (now : Z) (params : Connection) (s : State) : result State :=
  let sourceHandle := or_else (conn_sourceHandle params) (VStr "default") in
  route <- match findNode (conn_source params) (nodes s) with
           | Some sourceNode =>
               routes <- prop (Node.data sourceNode) "routes" ;;
               if nullish routes then Ok VUndefined
               else rs <- items_of routes ;; findRoute sourceHandle rs
           | None => Ok VUndefined
           end ;;
  routePattern <- (if truthy route then prop route "pattern" else Ok (VStr "")) ;;
  isRegex <- (if truthy route then prop route "isRegex" else Ok (VBool false)) ;;
  let edge :=
    {| Edge.id := edgeId (conn_source params) sourceHandle (conn_target params);
       Edge.source := conn_source params;
       Edge.sourceHandle := sourceHandle;
       Edge.target := conn_target params;
       Edge.targetHandle := conn_targetHandle params;
       Edge.type := edgeType s;
       Edge.animated := true;
       Edge.label := edgeLabel routePattern isRegex;
       Edge.isRegex := isRegex;
       Edge.edgeType := edgeType s |} in
  let s1 := setEdges (fun eds => addEdge edge eds) s in
  s2 <- (if truthy (conn_source params) && truthy (conn_target params) then
           nds <- mapM (connectNode now (conn_source params) sourceHandle
                          (conn_target params)) (nodes s1) ;;
           Ok (setNodes (fun _ => nds) s1)
         else Ok s1) ;;
  Ok (saveToHistory s s2).

End WithReactFlow.

(** Each deleted edge queues one update of the nodes; the history entry is
    taken once, after the loop. *)
Fixpoint disconnectAll (edgesToDelete : list Edge.t) (nds : list Node.t)
  : result (list Node.t) :=
  match edgesToDelete with
  | [] => Ok nds
  | edge :: rest =>
      nds' <- mapM (disconnectNode edge) nds ;;
      disconnectAll rest nds'
  end.

Definition onEdgesDelete (edgesToDelete : list Edge.t) (s : State) : result State :=
  nds <- disconnectAll edgesToDelete (nodes s) ;;
  Ok (saveToHistory s (setNodes (fun _ => nds) s)).

Definition onNodeClick (node : Node.t) (s : State) : State :=
  setSelectedTemplate (Node.data node) s.

(** *** Templates *)

(** [now] is [Date.now()], [x] and [y] are the two [Math.random() * 500]. *)
Definition addTemplate (type : string) (now x y : Z) (s : State) : State :=
  let id := VStr (type ++ "-" ++ string_of_Z now)%string in
  let newTemplate :=
    VObj [("id", id);
          ("name", id);
          ("type", VStr type);
          ("message",
           if (type =? "text")%string then VStr ""
           else VObj [("body", VStr ""); ("title", VStr ""); ("footer", VStr "")]);
          ("routes", VArr [])] in
  let newNode :=
    {| Node.id := id; Node.type := "template";
       Node.position := VObj [("x", VNum x); ("y", VNum y)];
       Node.data := newTemplate |} in
  toast success ("Added " ++ type ++ " template")%string
    (saveToHistory s (setNodes (fun nds => nds ++ [newNode]) s)).

Definition updateTemplate (template : value) (s : State) : result State :=
  nds <- mapM (fun node =>
                 tid <- prop template "id" ;;
                 Ok (if strict_eq (Node.id node) tid
                     then Node.with_data template node else node))
              (nodes s) ;;
  Ok (saveToHistory s
        (setSelectedTemplate template (setNodes (fun _ => nds) s))).

Definition deleteTemplate (s : State) : result State :=
  if negb (truthy (selectedTemplate s)) then Ok s
  else
    sid <- prop (selectedTemplate s) "id" ;;
    Ok (toast success "Template deleted"
          (saveToHistory s
             (setSelectedTemplate VNull
                (setEdges
                   (filter (fun edge =>
                              negb (strict_eq (Edge.source edge) sid)
                              && negb (strict_eq (Edge.target edge) sid)))
                   (setNodes
                      (filter (fun node => negb (strict_eq (Node.id node) sid)))
                      s))))).

(** *** Undo and redo *)

Definition handleUndo (s : State) : result State :=
  if historyIndex s >? 0 then
    match at_index (history s) (historyIndex s - 1) with
    | Some prevState =>
        Ok (setHistoryIndex (historyIndex s - 1)
              (setEdges (fun _ => snap_edges prevState)
                 (setNodes (fun _ => snap_nodes prevState) s)))
    | None => Throw TypeError
    end
  else Ok s.

Definition handleRedo (s : State) : result State :=
  if historyIndex s <? Z.of_nat (List.length (history s)) - 1 then
    match at_index (history s) (historyIndex s + 1) with
    | Some nextState =>
        Ok (setHistoryIndex (historyIndex s + 1)
              (setEdges (fun _ => snap_edges nextState)
                 (setNodes (fun _ => snap_nodes nextState) s)))
    | None => Throw TypeError
    end
  else Ok s.

(** *** Export and import *)

(** [{ ...node.data, position: node.position }] *)
Definition templateOfNode (node : Node.t) : value :=
  VObj (set_field "position" (Node.position node) (spread (Node.data node))).

Definition currentTemplates (s : State) : value :=
  VArr (map templateOfNode (nodes s)).

(** The text of the downloaded file and the state after the toast. *)
Definition exportFlow (s : State) : text * State :=
  let flow := VObj [("templates", currentTemplates s); ("version", VStr "1.0")] in
  (JSON_stringify flow, toast success "Flow exported successfully" s).

(** The body of the [try] block of [reader.onload]. *)
Definition importedGraph (et : EdgeType) (content : text)
  : result (list Node.t * list Edge.t) :=
  flow <- JSON_parse content ;;
  templates <- prop flow "templates" ;;
  ts <- items_of templates ;;
  newNodes <- mapM nodeOfTemplate ts ;;
  newEdges <- edgesOfTemplates et ts ;;
  Ok (newNodes, newEdges).

(** [file] is the content of the chosen file, [None] when the dialog gave
    no file.  [render] is the render whose callback reads the file, [s] the
    state when the reader delivers it. *)
Definition handleFileImport (file : option text) (render s : State) : State :=
  match file with
  | None => s
  | Some content =>
      match importedGraph (edgeType render) content with
      | Ok (newNodes, newEdges) =>
          toast success "Flow imported successfully"
            (saveToHistory render
               (setEdges (fun _ => newEdges) (setNodes (fun _ => newNodes) s)))
      | Throw _ => toast error "Failed to import flow" s
      end
  end.

(** *** Layout and edge style *)

Fixpoint layout_from (index : nat) (ns : list Node.t) : list Node.t :=
  match ns with
  | [] => []
  | node :: rest =>
      Node.with_position
        (VObj [("x", VNum ((Z.of_nat index mod 3) * 300));
               ("y", VNum ((Z.of_nat index / 3) * 200))]) node
      :: layout_from (S index) rest
  end.

Definition autoLayout (s : State) : State :=
  toast success "Auto-layout applied"
    (saveToHistory s (setNodes (fun _ => layout_from 0 (nodes s)) s)).

Definition nextEdgeType (ty : EdgeType) : EdgeType :=
  match ty with
  | Default => Straight
  | Straight => Step
  | Step => Smoothstep
  | Smoothstep => Default
  end.

Definition edgeTypeName (ty : EdgeType) : string :=
  match ty with
  | Default => "default"
  | Straight => "straight"
  | Step => "step"
  | Smoothstep => "smoothstep"
  end.

Definition toggleEdgeType (s : State) : State :=
  let newType := nextEdgeType (edgeType s) in
  toast success ("Switched to " ++ edgeTypeName newType ++ " edges")%string
    (setEdges (map (Edge.with_type newType)) (setEdgeType newType s)).

(** *** Serializing the canvas *)

Definition chatbot_name_of (p : Props) : option string :=
  match data p with
  | Some cfg => chatbot_name cfg
  | None => None
  end.

(** [flowParam || data?.chatbot_name || "Default Bot"] *)
Definition botName (p : Props) : string :=
  str_or (flowParam p) (str_or (chatbot_name_of p) "Default Bot").

(** [{ name, templates }] *)
Definition botEntry (name : string) (templates : value) : value :=
  VObj [("name", VStr name); ("templates", templates)].

(** [bots.findIndex(bot => bot.name.toLowerCase() === flowParam.toLowerCase())],
    [None] for -1. *)
Fixpoint findBotIndex (lower : string -> string) (flowParam : string)
  (bots : list value) : result (option nat) :=
  match bots with
  | [] => Ok None
  | bot :: rest =>
      name <- prop bot "name" ;;
      lname <- toLowerCase lower name ;;
      if (lname =? lower flowParam)%string then Ok (Some 0%nat)
      else
        r <- findBotIndex lower flowParam rest ;;
        Ok (option_map S r)
  end.

(** [bot.templates = templates] in module (strict) code: [undefined] and
    [null] raise, a primitive raises as well, and a property put on an array
    is not printed by [JSON.stringify]. *)
Definition assignTemplates (templates bot : value) : result value :=
  match bot with
  | VObj fs => Ok (VObj (set_field "templates" templates fs))
  | VArr xs => Ok (VArr xs)
  | _ => Throw TypeError
  end.

(** [bots[i].templates = templates] *)
Fixpoint assignTemplatesAt (i : nat) (templates : value) (bots : list value)
  : result (list value) :=
  match bots, i with
  | [], _ => Throw TypeError
  | bot :: rest, O =>
      bot' <- assignTemplates templates bot ;;
      Ok (bot' :: rest)
  | bot :: rest, S j =>
      rest' <- assignTemplatesAt j templates rest ;;
      Ok (bot :: rest')
  end.

(** The part of [getCurrentFlowJson] after the existing document has been
    brought to the multi-chatbot form: [multi] is the wrapper object and
    [bots] its [chatbots] array. *)
Definition storeCurrentFlow (p : Props) (templates : value)
  (multi : fields_of) (bots : list value) : result text :=
  bots' <-
    (if str_truthy (flowParam p) then
       let flowParam := name_or "" (flowParam p) in
       botIndex <- findBotIndex (lower p) flowParam bots ;;
       match botIndex with
       | Some i => assignTemplatesAt i templates bots
       | None => Ok (bots ++ [botEntry flowParam templates])
       end
     else
       match bots with
       | _ :: _ => assignTemplatesAt 0 templates bots
       | [] =>
           Ok (bots ++ [botEntry (str_or (chatbot_name_of p) "Default Bot")
                          templates])
       end) ;;
  Ok (JSON_stringify (VObj (set_field "chatbots" (VArr bots') multi))).

Definition getCurrentFlowJson (p : Props) (s : State) : result text :=
  let templates := currentTemplates s in
  let fresh :=
    Ok (JSON_stringify
          (VObj [("chatbots", VArr [botEntry (botName p) templates]);
                 ("version", VStr "1.0")])) in
  match match data p with
        | Some cfg => flow_json cfg
        | None => None
        end with
  | None => fresh
  | Some t =>
      if text_truthy t then
        match JSON_parse t with
        | Throw _ => fresh
        | Ok flowData =>
            chatbots <- prop flowData "chatbots" ;;
            if truthy chatbots && isArray chatbots then
              bots <- items_of chatbots ;;
              storeCurrentFlow p templates (spread flowData) bots
            else
              old <- prop flowData "templates" ;;
              if truthy old && isArray old then
                version <- prop flowData "version" ;;
                let existingBotName := str_or (chatbot_name_of p) "Default Bot" in
                let bots := [botEntry existingBotName old] in
                storeCurrentFlow p templates
                  [("chatbots", VArr bots);
                   ("version", or_else version (VStr "1.0"))]
                  bots
              else fresh
        end
      else fresh
  end.

(** *** Saving *)

(** [updateDoc] is called whatever [isSaving] holds; the request joins the
    ones in flight. *)
Definition saveCurrentFlowJson (p : Props) (s : State) : result State :=
  let s1 := setIsSaving true s in
  flowJson <- getCurrentFlowJson p s ;;
  let request := {| payload := flowJson; flowName := botName p |} in
  Ok (setInFlight (inFlight s1 ++ [request]) s1).

(** [data?.env != "local"] *)
Definition not_local (p : Props) : bool :=
  match data p with
  | Some cfg =>
      match env cfg with
      | Some e => negb (e =? "local")%string
      | None => true
      end
  | None => true
  end.

(** The preview saves first; the emulator window it opens otherwise is not
    part of the state. *)
Definition previewCurrentFlowJson (p : Props) (s : State) : result State :=
  s1 <- saveCurrentFlowJson p (toast info "Saving flow before preview..." s) ;;
  if not_local p
  then Ok (toast warning "Only local environment can run on Emulator" s1)
  else Ok s1.

(** How an [updateDoc] promise settles: the update and the [mutate] after
    it succeed, the update succeeds and [mutate] fails, or the update
    fails. *)
Inductive Settlement : Type := Saved | SavedNotRefreshed | UpdateFailed.

(** The [then], [catch] and [finally] callbacks of one request. *)
Definition settled (how : Settlement) (r : Request) (s : State) : State :=
  let saved := toast success ("Flow " ++ dq ++ flowName r ++ dq ++ " saved!")%string in
  let failed :=
    toast error ("Failed to save flow " ++ dq ++ flowName r ++ dq ++ ".")%string in
  setIsSaving false
    match how with
    | Saved => saved s
    | SavedNotRefreshed => failed (saved s)
    | UpdateFailed => failed s
    end.

Fixpoint remove_nth {A} (i : nat) (xs : list A) : list A :=
  match xs, i with
  | [], _ => []
  | _ :: rest, O => rest
  | x :: rest, S j => x :: remove_nth j rest
  end.

(** The [i]-th request in flight settles; [None] when there is none. *)
Definition settle (i : nat) (how : Settlement) (s : State) : option State :=
  match nth_error (inFlight s) i with
  | Some r => Some (settled how r (setInFlight (remove_nth i (inFlight s)) s))
  | None => None
  end.

End Index.

(** ** The settings tab of the property sidebar *)

Module SettingsTab.

(** [const settings = template.settings || {}] *)
Definition settings_of (template : value) : result value :=
  st <- prop template "settings" ;;
  Ok (or_else st (VObj [])).

(** The template handed to [onUpdate] by [handleStartToggle]. *)
Definition handleStartToggle (template : value) (checked : bool) : result value :=
  settings <- settings_of template ;;
  own <- prop template "settings" ;;
  isReport <- prop settings "isReport" ;;
  Ok (VObj
        (set_field "settings"
           (VObj
              (set_field "isReport"
                 (if checked then VBool false else coalesce isReport (VBool false))
                 (set_field "isStart" (VBool checked)
                    (spread (or_else own (VObj []))))))
           (spread template))).

(** The template handed to [onUpdate] by [handleReportToggle]. *)
Definition handleReportToggle (template : value) (checked : bool) : result value :=
  settings <- settings_of template ;;
  own <- prop template "settings" ;;
  isStart <- prop settings "isStart" ;;
  Ok (VObj
        (set_field "settings"
           (VObj
              (set_field "isStart"
                 (if checked then VBool false else coalesce isStart (VBool false))
                 (set_field "isReport" (VBool checked)
                    (spread (or_else own (VObj []))))))
           (spread template))).

(** [updateSetting(key, value)] *)
Definition updateSetting (template : value) (key : string) (v : value)
  : result value :=
  own <- prop template "settings" ;;
  Ok (VObj
        (set_field "settings" (VObj (set_field key v (spread own)))
           (spread template))).

End SettingsTab.

(** ** Properties stated about values, nodes and states *)

Module Shape.

Fixpoint distinct (ks : list string) : bool :=
  match ks with
  | [] => true
  | k :: rest => negb (existsb (String.eqb k) rest) && distinct rest
  end.

(** Every object inside the value has each property name once, as every
    JavaScript object has. *)
Fixpoint keys_unique (v : value) : bool :=
  match v with
  | VArr xs => forallb keys_unique xs
  | VObj fs =>
      distinct (map fst fs) && forallb (fun kv => keys_unique (snd kv)) fs
  | _ => true
  end.

(** No [undefined] anywhere inside: the value is what a JSON text can
    hold. *)
Fixpoint json_clean (v : value) : bool :=
  match v with
  | VUndefined => false
  | VArr xs => forallb json_clean xs
  | VObj fs => forallb (fun kv => json_clean (snd kv)) fs
  | _ => true
  end.

Definition is_object (v : value) : bool :=
  match v with
  | VObj _ => true
  | _ => false
  end.

(** The routes of a template, [template.routes || []], when the template is
    an object and its routes are an array of objects or missing. *)
Definition routes_of (template : value) : option (list value) :=
  match template with
  | VObj fs =>
      match lookup "routes" fs with
      | Some (VArr rs) => if forallb is_object rs then Some rs else None
      | Some VUndefined | Some VNull | None => Some []
      | Some _ => None
      end
  | _ => None
  end.

(** A template shaped as [ChatbotTemplate] declares it, as far as the
    routes go. *)
Definition is_template (v : value) : bool :=
  match routes_of v with
  | Some _ => true
  | None => false
  end.

(** A node as the operations of the page build it: type "template", the
    id of its template, a position object, and a template object; no
    [undefined] in id or position. *)
Definition node_ok (n : Node.t) : Prop :=
  Node.type n = "template" /\
  is_object (Node.data n) = true /\
  keys_unique (Node.data n) = true /\
  opt_prop (Node.data n) "id" = Node.id n /\
  json_clean (Node.id n) = true /\
  is_object (Node.position n) = true /\
  keys_unique (Node.position n) = true /\
  json_clean (Node.position n) = true.

(** The value fields of an edge after a trip through a JSON text. *)
Definition edge_jsonified (e : Edge.t) : Edge.t :=
  {| Edge.id := Edge.id e;
     Edge.source := jsonify (Edge.source e);
     Edge.sourceHandle := jsonify (Edge.sourceHandle e);
     Edge.target := jsonify (Edge.target e);
     Edge.targetHandle := Edge.targetHandle e;
     Edge.type := Edge.type e;
     Edge.animated := Edge.animated e;
     Edge.label := jsonify (Edge.label e);
     Edge.isRegex := jsonify (Edge.isRegex e);
     Edge.edgeType := Edge.edgeType e |}.

Definition primitive (v : value) : bool :=
  match v with
  | VArr _ | VObj _ => false
  | _ => true
  end.

(** An edge whose endpoints, handle, label and regex flag are primitives,
    as they are when ids and patterns are strings. *)
Definition edge_plain (e : Edge.t) : bool :=
  primitive (Edge.source e) && primitive (Edge.sourceHandle e)
  && primitive (Edge.target e) && primitive (Edge.label e)
  && primitive (Edge.isRegex e).

End Shape.

(** ** Undo and redo *)

Module UndoRedo.
Import Index.

(** Undo followed by redo gives back the canvas and the pointer. *)
Definition undo_redo_restores (s : State) : Prop :=
  exists s1 s2,
    handleUndo s = Ok s1 /\ handleRedo s1 = Ok s2 /\
    nodes s2 = nodes s /\ edges s2 = edges s /\
    historyIndex s2 = historyIndex s.

(** The page after the record was found missing and one text template was
    added. *)
Definition no_record : Props :=
  {| data := None; isLoading := false; flowParam := None;
     lower := lowerASCII |}.

Definition started : State :=
  match loadFlow no_record initial with
  | Ok s => s
  | Throw _ => initial
  end.

Definition one_added : State := addTemplate "text" 1700000000000 120 80 started.

End UndoRedo.

(** ** Documents handed to the import *)

Module FileImport.
Import Index.

(** The text parses and the parsed value carries a [templates] array. *)
Definition flow_document (content : text) : bool :=
  match JSON_parse content with
  | Ok flow => negb (nullish flow) && isArray (opt_prop flow "templates")
  | Throw _ => false
  end.

Definition import_failed : Toast :=
  {| kind := error; message := "Failed to import flow" |}.

End FileImport.

(** ** Saves in flight *)

Module Saving.
Import Index.

(** The reading of the saving flag as a guard: with the flag up, a call of
    [saveCurrentFlowJson] starts no further update. *)
Definition flag_guards (p : Props) (s : State) : Prop :=
  isSaving s = true ->
  forall s', saveCurrentFlowJson p s = Ok s' -> inFlight s' = inFlight s.

Definition save_failed (r : Request) : Toast :=
  {| kind := error;
     message := ("Failed to save flow " ++ dq ++ flowName r ++ dq ++ ".")%string |}.

(** An empty page whose record has been found missing, after one and after
    two clicks on Save. *)
Definition saving_once : State :=
  match saveCurrentFlowJson UndoRedo.no_record UndoRedo.started with
  | Ok s => s
  | Throw _ => UndoRedo.started
  end.

Definition saving_twice : State :=
  match saveCurrentFlowJson UndoRedo.no_record saving_once with
  | Ok s => s
  | Throw _ => saving_once
  end.

End Saving.

(** ** A sample flow *)

Module Examples.
Import Index.

Definition welcome : value :=
  VObj [("id", VStr "welcome");
        ("name", VStr "Welcome");
        ("type", VStr "button");
        ("message", VObj [("body", VStr "Hi"); ("buttons", VArr [VStr "Menu"])]);
        ("routes",
         VArr [VObj [("id", VStr "r1"); ("pattern", VStr "menu");
                     ("isRegex", VBool false); ("connectedTo", VStr "menu")];
               VObj [("id", VStr "r2"); ("pattern", VStr ".*");
                     ("isRegex", VBool true)]]);
        ("settings", VObj [("isStart", VBool true); ("typing", VBool true)]);
        ("position", VObj [("x", VNum 40); ("y", VNum 60)])].

Definition menu : value :=
  VObj [("id", VStr "menu");
        ("name", VStr "Menu");
        ("type", VStr "text");
        ("message", VStr "Pick one");
        ("routes", VArr []);
        ("position", VObj [("x", VNum 340); ("y", VNum 60)])].

Definition sample_flow : value :=
  VObj [("templates", VArr [welcome; menu]); ("version", VStr "1.0")].

(** The record holds the sample flow in the single-flow shape. *)
Definition sample_props : Props :=
  {| data := Some {| chatbot_name := Some "Shop";
                     flow_json := Some (Json sample_flow);
                     env := Some "local" |};
     isLoading := false;
     flowParam := None;
     lower := lowerASCII |}.

Definition or_initial (r : result State) : State :=
  match r with
  | Ok s => s
  | Throw _ => initial
  end.

(** The page after the sample flow was loaded. *)
Definition loaded : State := or_initial (loadFlow sample_props initial).

(** ... and after a click on the first node. *)
Definition welcome_selected : State :=
  match nodes loaded with
  | n :: _ => onNodeClick n loaded
  | [] => loaded
  end.

End Examples.

(** ** How connecting and disconnecting may change the nodes *)

Module Routes.
Import Index Shape.

(** The route with id [h] gets [connectedTo = t] and keeps its other
    properties; a route with another id is left as it is. *)
Definition route_step (h t : value) (r r' : value) : Prop :=
  if strict_eq (opt_prop r "id") h
  then prop r' "connectedTo" = Ok t /\
       forall k, k <> "connectedTo" -> prop r' k = prop r k
  else r' = r.

(** A node with id [source] keeps its id, type and position and every
    property of its template but [routes], and its routes change as [R]
    says; a node with another id is left as it is. *)
Definition node_step (source : value)
  (R : list value -> list value -> Prop) (n n' : Node.t) : Prop :=
  if strict_eq (Node.id n) source
  then Node.id n' = Node.id n /\ Node.type n' = Node.type n /\
       Node.position n' = Node.position n /\
       (forall k, k <> "routes" ->
                  prop (Node.data n') k = prop (Node.data n) k) /\
       exists rs rs',
         routes_of (Node.data n) = Some rs /\
         prop (Node.data n') "routes" = Ok (VArr rs') /\ R rs rs'
  else n' = n.

(** Only the route named by the handle changes. *)
Definition only_route (h t : value) : list value -> list value -> Prop :=
  Forall2 (route_step h t).

(** As [only_route], but a template without routes that is connected from
    the "default" handle gets a new route to the target. *)
Definition route_or_new (now : Z) (h t : value) (rs rs' : list value) : Prop :=
  match rs with
  | [] => if strict_eq h (VStr "default")
          then rs' = [newRoute now t] else rs' = []
  | _ :: _ => only_route h t rs rs'
  end.

(** Every template on the canvas carries a route array of objects, or
    none. *)
Definition templates_ok (s : State) : Prop :=
  Forall (fun n => is_template (Node.data n) = true) (nodes s).

(** The handle [onConnect] works with: [params.sourceHandle || "default"]. *)
Definition handle_of (params : Connection) : value :=
  or_else (conn_sourceHandle params) (VStr "default").

(** The reading of "connecting sets that route's [connectedTo] and leaves
    everything else unchanged". *)
Definition connect_touches_one_route
  (addEdge : Edge.t -> list Edge.t -> list Edge.t)
  (now : Z) (params : Connection) (s : State) : Prop :=
  exists s',
    onConnect addEdge now params s = Ok s' /\
    Forall2 (node_step (conn_source params)
               (only_route (handle_of params) (conn_target params)))
      (nodes s) (nodes s').

(** A stand-in for React Flow's [addEdge] where a concrete run needs one. *)
Definition appendEdge (e : Edge.t) (es : list Edge.t) : list Edge.t := es ++ [e].

(** A second template is added to the page of [UndoRedo.one_added], and the
    first is connected to it from its "default" handle. *)
Definition two_added : State :=
  addTemplate "button" 1700000000500 300 80 UndoRedo.one_added.

Definition first_to_second : Connection :=
  {| conn_source := VStr "text-1700000000000";
     conn_sourceHandle := VStr "default";
     conn_target := VStr "button-1700000000500";
     conn_targetHandle := VNull |}.

(** In the sample flow: the edge of route r1, and a connection from route
    r2 of the first template to the second. *)
Definition r1_edge : Edge.t :=
  {| Edge.id := "ewelcome-r1-menu";
     Edge.source := VStr "welcome";
     Edge.sourceHandle := VStr "r1";
     Edge.target := VStr "menu";
     Edge.targetHandle := VUndefined;
     Edge.type := Default;
     Edge.animated := true;
     Edge.label := VStr "menu";
     Edge.isRegex := VBool false;
     Edge.edgeType := Default |}.

Definition r2_to_menu : Connection :=
  {| conn_source := VStr "welcome";
     conn_sourceHandle := VStr "r2";
     conn_target := VStr "menu";
     conn_targetHandle := VNull |}.

End Routes.

(** ** Shapes of the stored document *)

Module Stored.
Import Index.

(** [v.k] is an array ([v.k && Array.isArray(v.k)]). *)
Definition has_array (k : string) (v : value) : bool := isArray (opt_prop v k).

(** Neither the multi-chatbot shape nor the single-flow shape. *)
Definition unknown_shape (v : value) : bool :=
  negb (has_array "chatbots" v) && negb (has_array "templates" v).

(** The record [p] brings holds a [flow_json] that parses to [v]. *)
Definition holds (p : Props) (v : value) : Prop :=
  exists cfg, data p = Some cfg /\ flow_json cfg = Some (Json v).

(** The wrapper built around the current canvas when nothing usable is
    stored. *)
Definition fresh_document (p : Props) (s : State) : text :=
  JSON_stringify
    (VObj [("chatbots", VArr [botEntry (botName p) (currentTemplates s)]);
           ("version", VStr "1.0")]).

(** The record [p] brings, without its [flow_json]: the case in which the
    load effect starts a new flow. *)
Definition without_flow_json (p : Props) : Props :=
  {| data := match data p with
             | Some cfg => Some {| chatbot_name := chatbot_name cfg;
                                   flow_json := None;
                                   env := env cfg |}
             | None => None
             end;
     isLoading := isLoading p;
     flowParam := flowParam p;
     lower := lower p |}.

(** The reading of "falls back to a fresh default document" for the load:
    canvas and history end up as they do when the effect starts a new flow
    (an empty canvas and one history entry). *)
Definition load_starts_fresh (p : Props) (s : State) : Prop :=
  exists s' fresh,
    loadFlow p s = Ok s' /\ loadFlow (without_flow_json p) s = Ok fresh /\
    nodes s' = nodes fresh /\ edges s' = edges fresh /\
    history s' = history fresh /\ historyIndex s' = historyIndex fresh.

Definition invalid_structure : Toast :=
  {| kind := error; message := "Invalid flow structure" |}.

(** A record whose [flow_json] is the text of the empty object, and a page
    on which a template was added while the record was still loading. *)
Definition empty_object_props : Props :=
  {| data := Some {| chatbot_name := Some "Shop";
                     flow_json := Some (Json (VObj []));
                     env := None |};
     isLoading := false;
     flowParam := None;
     lower := lowerASCII |}.

Definition added_early : State := addTemplate "text" 1700000000000 120 80 initial.

End Stored.

(** ** The serialized wrapper *)

Module Wrapper.
Import Index.

(** What a trip through a JSON text makes of an array element and of a
    property list. *)
Definition json_item (x : value) : value :=
  match x with
  | VUndefined => VNull
  | _ => jsonify x
  end.

Definition json_fields (fs : fields_of) : fields_of :=
  match jsonify (VObj fs) with
  | VObj gs => gs
  | _ => []
  end.

(** The bot's name is [fp], letter case aside: the engine's [lower]
    gives the same string for both. *)
Definition named (lower : string -> string) (fp : string) (bot : value) : bool :=
  match opt_prop bot "name" with
  | VStr n => (lower n =? lower fp)%string
  | _ => false
  end.

(** [i] is the first entry of [bots] named [fp]. *)
Definition first_named (lower : string -> string) (fp : string)
  (bots : list value) (i : nat) : Prop :=
  (exists bot, nth_error bots i = Some bot /\ named lower fp bot = true) /\
  forall j bot,
    (j < i)%nat -> nth_error bots j = Some bot -> named lower fp bot = false.

(** The entry the URL asks for: the first one named by the flow parameter,
    or the first one when there is no parameter. *)
Definition picked (p : Props) (bots : list value) (i : nat) : Prop :=
  if str_truthy (flowParam p)
  then first_named (lower p) (name_or "" (flowParam p)) bots i
  else i = 0%nat.




(** An entry of [chatbots] as the editor writes it: an object with a string
    for a name. *)
Definition bot_ok (bot : value) : bool :=
  match bot with
  | VObj fs =>
      match lookup "name" fs with
      | Some (VStr _) => true
      | _ => false
      end
  | _ => false
  end.

(** The stored text, if it parses, is not [null], and if it has a
    [chatbots] array its entries are as the editor writes them. *)
Definition doc_ok (t : text) : bool :=
  match t with
  | Json v =>
      negb (nullish v)
      && match opt_prop v "chatbots" with
         | VArr bots => forallb bot_ok bots
         | _ => true
         end
  | _ => true
  end.

Definition stored_ok (p : Props) : bool :=
  match data p with
  | Some cfg =>
      match flow_json cfg with
      | Some t => doc_ok t
      | None => true
      end
  | None => true
  end.


Definition with_flow_json (t : text) (fp : option string) : Props :=
  {| data := Some {| chatbot_name := Some "Shop"; flow_json := Some t;
                     env := None |};
     isLoading := false;
     flowParam := fp;
     lower := lowerASCII |}.



Definition two_bots : value :=
  VObj [("chatbots",
         VArr [VObj [("name", VStr "Shop"); ("templates", VArr [])];
               VObj [("name", VStr "Support"); ("templates", VArr [])]]);
        ("version", VStr "1.0")].

Definition support_props : Props := with_flow_json (Json two_bots) (Some "support").

End Wrapper.

(** ** Export followed by import *)

Module RoundTrip.
Import Index Shape.

(** A node after its template went through the exported file: the template
    carries the node's position and has lost the properties that held
    [undefined]. *)
Definition reimported (n : Node.t) : Node.t :=
  {| Node.id := Node.id n; Node.type := Node.type n;
     Node.position := Node.position n;
     Node.data := jsonify (templateOfNode n) |}.

(** The page [s], seen from the render [render], after it imported the file
    that [exportFlow] wrote for the page [s0]. *)
Definition round_trip (s0 render s : State) : State :=
  handleFileImport (Some (fst (exportFlow s0))) render s.

(** What the claim compares of an edge: source, source handle, target and
    label. *)
Definition edge_ends (e : Edge.t) : value * value * value * value :=
  (Edge.source e, Edge.sourceHandle e, Edge.target e, Edge.label e).

(** The reading of "yields an equivalent node set and edge set": the nodes
    have the ids, types, positions and template data of the exported ones,
    and the edges are, in source, handle, target and label, the ones the
    routes of the exported nodes give. *)
Definition round_trip_is_identity (s0 render s : State) : Prop :=
  nodes (round_trip s0 render s) = nodes s0 /\
  exists es,
    edgesOfTemplates (edgeType render) (map Node.data (nodes s0)) = Ok es /\
    map edge_ends (edges (round_trip s0 render s)) = map edge_ends es.

Definition imported : Toast :=
  {| kind := success; message := "Flow imported successfully" |}.

End RoundTrip.

(** ** Runs of the page *)

Module Run.
Import Index.

(** What can happen to the page: the effect, the handlers, a promise that
    settles, and React Flow's own changes of nodes and edges (drags,
    selections), which reach the state through [onNodesChange] and
    [onEdgesChange]. *)
Inductive Event : Type :=
| Loaded (p : Props)
| Connected (addEdge : Edge.t -> list Edge.t -> list Edge.t) (now : Z)
    (params : Connection)
| EdgesDeleted (edgesToDelete : list Edge.t)
| NodeClicked (node : Node.t)
| TemplateAdded (type : string) (now x y : Z)
| TemplateUpdated (template : value)
| TemplateDeleted
| Undone
| Redone
| Exported
| FileRead (file : option text) (render : State)
| LaidOut
| EdgeTypeToggled
| SaveClicked (p : Props)
| PreviewClicked (p : Props)
| Settled (i : nat) (how : Settlement)
| NodesChanged (f : list Node.t -> list Node.t)
| EdgesChanged (f : list Edge.t -> list Edge.t).

Definition after (e : Event) (s : State) : result State :=
  match e with
  | Loaded p => loadFlow p s
  | Connected addEdge now params => onConnect addEdge now params s
  | EdgesDeleted edgesToDelete => onEdgesDelete edgesToDelete s
  | NodeClicked node => Ok (onNodeClick node s)
  | TemplateAdded type now x y => Ok (addTemplate type now x y s)
  | TemplateUpdated template => updateTemplate template s
  | TemplateDeleted => deleteTemplate s
  | Undone => handleUndo s
  | Redone => handleRedo s
  | Exported => Ok (snd (exportFlow s))
  | FileRead file render => Ok (handleFileImport file render s)
  | LaidOut => Ok (autoLayout s)
  | EdgeTypeToggled => Ok (toggleEdgeType s)
  | SaveClicked p => saveCurrentFlowJson p s
  | PreviewClicked p => previewCurrentFlowJson p s
  | Settled i how =>
      match settle i how s with
      | Some s' => Ok s'
      | None => Ok s
      end
  | NodesChanged f => Ok (setNodes f s)
  | EdgesChanged f => Ok (setEdges f s)
  end.

(** The states the page can be in, as long as no handler raised. *)
Inductive reachable : State -> Prop :=
| reachable_initial : reachable initial
| reachable_after e s s' :
    reachable s -> after e s = Ok s' -> reachable s'.

(** The pointer is -1 and the stack is empty, or the pointer is the index of
    an entry of the stack. *)
Definition pointer_ok (s : State) : Prop :=
  (historyIndex s = -1 /\ history s = [])
  \/ 0 <= historyIndex s < Z.of_nat (List.length (history s)).

(** The canvas a render shows, as a history entry. *)
Definition canvas_of (s : State) : Snapshot :=
  {| snap_nodes := nodes s; snap_edges := edges s |}.

End Run.

(** ** The grid of the auto-layout and the style of the edges *)

Module Layout.

(** The place [autoLayout] gives to the node at [index]:
    [{ x: (index % 3) * 300, y: Math.floor(index / 3) * 200 }]. *)
Definition cell (index : nat) : value :=
  VObj [("x", VNum ((Z.of_nat index mod 3) * 300));
        ("y", VNum ((Z.of_nat index / 3) * 200))].

(** The edge is drawn in the style [ty]: its [type] and its
    [data.edgeType] both say so. *)
Definition styled (ty : EdgeType) (e : Edge.t) : Prop :=
  Edge.type e = ty /\ Edge.edgeType e = ty.

End Layout.

(** ** What the settings tab shows *)

Module SettingsView.
Import SettingsTab.

(** An entry of [settingItems]; [defaultValue] is [undefined] where the
    entry has none. *)
Record SettingItem : Type := {
  key : string;
  defaultValue : value;
}.

Definition settingItems : list SettingItem :=
  [ {| key := "authenticated"; defaultValue := VUndefined |};
    {| key := "checkpoint"; defaultValue := VUndefined |};
    {| key := "typing"; defaultValue := VUndefined |};
    {| key := "ack"; defaultValue := VUndefined |};
    {| key := "session"; defaultValue := VBool true |} ].

(** [settings[k]], with [settings = template.settings || {}]. *)
Definition setting (template : value) (k : string) : result value :=
  settings <- settings_of template ;;
  prop settings k.

(** [Boolean(settings[item.key] ?? item.defaultValue ?? false)], the state
    of the switch of one entry. *)
Definition switchChecked (template : value) (item : SettingItem) : result bool :=
  x <- setting template (key item) ;;
  Ok (truthy (coalesce (coalesce x (defaultValue item)) (VBool false))).

(** [settings.isStart === true] and [settings.isReport === true]. *)
Definition startChecked (template : value) : result bool :=
  x <- setting template "isStart" ;;
  Ok (strict_eq x (VBool true)).

Definition reportChecked (template : value) : result bool :=
  x <- setting template "isReport" ;;
  Ok (strict_eq x (VBool true)).

(** [settings.trigger || ''] and the other text inputs. *)
Definition inputValue (template : value) (k : string) : result value :=
  x <- setting template k ;;
  Ok (or_else x (VStr "")).

(** [template.settings] is an object or is missing, as [TemplateSettings]
    declares it; in particular it is no string and no array, whose
    characters and items a spread would copy. *)
Definition settings_declared (template : value) : bool :=
  match opt_prop template "settings" with
  | VObj _ | VUndefined | VNull => true
  | _ => false
  end.

End SettingsView.

(** ** The sidebar and the canvas *)

Module Sidebar.
Import Index.

(** The first node of the sample flow, and the page after that node was
    clicked and its route r2 was connected to the second node. *)
Definition welcome_node : Node.t :=
  {| Node.id := VStr "welcome"; Node.type := "template";
     Node.position := VObj [("x", VNum 40); ("y", VNum 60)];
     Node.data := Examples.welcome |}.

Definition connected : State :=
  Examples.or_initial
    (onConnect Routes.appendEdge 5 Routes.r2_to_menu
       (onNodeClick welcome_node Examples.loaded)).

End Sidebar.

(** ** Templates that can be connected *)

Module Editing.
Import Index.

Definition defined (v : value) : bool := negb (nullish v).

(** What [onConnect] and [onEdgesDelete] need of a template not to raise:
    it is not [null] or [undefined], its [routes] are an array or are
    missing, and no route is [null] or [undefined]. *)
Definition routes_safe (template : value) : bool :=
  defined template
  && match opt_prop template "routes" with
     | VUndefined | VNull => true
     | VArr rs => forallb defined rs
     | _ => false
     end.

Definition nodes_safe (ns : list Node.t) : Prop :=
  Forall (fun n => routes_safe (Node.data n) = true) ns.

(** The canvas and every canvas kept in the history can be connected. *)
Definition safe (s : State) : Prop :=
  nodes_safe (nodes s) /\
  Forall (fun h => nodes_safe (snap_nodes h)) (history s).

(** The events that bring templates from outside the page: the sidebar
    hands on a template that can be connected, the render whose callback
    reads a file showed such templates, and React Flow's own node changes
    (drags, selections, removals) keep them so.  Documents that are loaded
    or imported are not restricted. *)
Definition gentle (e : Run.Event) : Prop :=
  match e with
  | Run.TemplateUpdated template => routes_safe template = true
  | Run.FileRead _ render => safe render
  | Run.NodesChanged f => forall ns, nodes_safe ns -> nodes_safe (f ns)
  | _ => True
  end.

(** The states of a session of such events in which no handler raised. *)
Inductive session : State -> Prop :=
| session_initial : session initial
| session_after e s s' :
    session s -> gentle e -> Run.after e s = Ok s' -> session s'.

(** [s'] is reached from [s] by events none of which raised. *)
Inductive reaches (s : State) : State -> Prop :=
| reaches_here : reaches s s
| reaches_after e s' s'' :
    reaches s s' -> Run.after e s' = Ok s'' -> reaches s s''.

End Editing.

(** ** Connections made from the "default" handle *)

Module Connections.
Import Index.

(** The template of [n2] holds the one route that a connection from the
    "default" handle created at time [now], still leading to [t], and the
    edges derived from the template (as the load effect and the import
    derive them) are one edge to [t]. *)
Definition still_connected (now : Z) (t : value) (n2 : Node.t) : Prop :=
  prop (Node.data n2) "routes" = Ok (VArr [newRoute now t]) /\
  forall et, exists e',
    edgesOfTemplate et (Node.data n2) = Ok [e'] /\ Edge.target e' = t.

(** The edge as the load effect and the import derive it from a route:
    without a target handle. *)
Definition as_derived (e : Edge.t) : Edge.t :=
  {| Edge.id := Edge.id e; Edge.source := Edge.source e;
     Edge.sourceHandle := Edge.sourceHandle e; Edge.target := Edge.target e;
     Edge.targetHandle := VUndefined; Edge.type := Edge.type e;
     Edge.animated := Edge.animated e; Edge.label := Edge.label e;
     Edge.isRegex := Edge.isRegex e; Edge.edgeType := Edge.edgeType e |}.

(** The page of [Routes.two_added] after its first template was connected
    to the second from the "default" handle, and the edge that connection
    drew. *)
Definition first_connected : State :=
  Examples.or_initial
    (onConnect Routes.appendEdge 1700000000900 Routes.first_to_second
       Routes.two_added).

(** The sample page after a click on its second node, the template that
    route r1 of the first node leads to. *)
Definition menu_selected : State :=
  match nodes Examples.loaded with
  | _ :: n :: _ => onNodeClick n Examples.loaded
  | _ => Examples.loaded
  end.

Definition default_edge : Edge.t :=
  {| Edge.id := "etext-1700000000000-default-button-1700000000500";
     Edge.source := VStr "text-1700000000000";
     Edge.sourceHandle := VStr "default";
     Edge.target := VStr "button-1700000000500";
     Edge.targetHandle := VNull;
     Edge.type := Default;
     Edge.animated := true;
     Edge.label := VStr "";
     Edge.isRegex := VBool false;
     Edge.edgeType := Default |}.

End Connections.

(** ** Actions that write a history entry *)

Module History.
Import Index.

(** The events whose handler calls [saveToHistory] whenever it returns. *)
Definition recording (e : Run.Event) : bool :=
  match e with
  | Run.Connected _ _ _ | Run.EdgesDeleted _ | Run.TemplateAdded _ _ _ _
  | Run.TemplateUpdated _ | Run.LaidOut => true
  | _ => false
  end.

(** The page of [Routes.two_added] after React Flow moved its nodes (a
    drag, which writes no history), and a third template added then. *)
Definition dragged : State :=
  setNodes (map (Node.with_position origin)) Routes.two_added.

Definition three_added : State :=
  addTemplate "list" 1700000000800 20 400 dragged.

End History.

(** ** The record after a save *)

Module Reload.
Import Index.

(** The fetch has ended: the record is there, or is known to be missing. *)
Definition fetched (p : Props) : bool :=
  match data p with
  | Some _ => true
  | None => negb (isLoading p)
  end.

(** The record as it is fetched once [t] has been written to its
    [flow_json], under the same URL: what [mutate()] brings after a save,
    and what a reload of the page starts from. *)
Definition refetched (p : Props) (t : text) : Props :=
  {| data := Some {| chatbot_name := chatbot_name_of p;
                     flow_json := Some t;
                     env := match data p with
                            | Some cfg => env cfg
                            | None => None
                            end |};
     isLoading := false;
     flowParam := flowParam p;
     lower := lower p |}.

(** The page shows no flow yet: the state of a page that was just opened,
    whatever style of edges it draws. *)
Definition just_opened (s : State) : Prop :=
  isFlowLoaded s = false.

(** The record [p] brings, holding the single flow [flow] in place of its
    document. *)
Definition single (p : Props) (flow : value) : Props :=
  {| data := match data p with
             | Some cfg => Some {| chatbot_name := chatbot_name cfg;
                                   flow_json := Some (Json flow);
                                   env := env cfg |}
             | None => None
             end;
     isLoading := isLoading p;
     flowParam := flowParam p;
     lower := lower p |}.

(** Two pages show the same canvas over the same history. *)
Definition same_canvas (a b : State) : Prop :=
  nodes a = nodes b /\ edges a = edges b /\
  history a = history b /\ historyIndex a = historyIndex b /\
  isFlowLoaded a = isFlowLoaded b.

(** Two runs of the load effect from the page [s] end alike: both raise
    the same exception, or both return with the same canvas, the second
    after showing the toasts [first] and then one more toast, as the first
    run shows one. *)
Definition load_alike (s : State) (first : list Toast) (ra rb : result State)
  : Prop :=
  match ra, rb with
  | Ok a, Ok b =>
      same_canvas a b /\
      exists ta tb,
        toasts a = toasts s ++ [ta] /\ toasts b = toasts s ++ first ++ [tb] /\
        kind ta = kind tb
  | Throw e, Throw e' => e = e'
  | _, _ => False
  end.

Definition not_found (fp : string) : Toast :=
  {| kind := warning;
     message := ("Chatbot " ++ dq ++ fp ++ dq
                 ++ " not found. Loading first chatbot.")%string |}.

(** The name of an entry as the editor compares names: lowered by the
    engine's [lower]. *)
Definition name_key (lower : string -> string) (bot : value) : string :=
  match opt_prop bot "name" with
  | VStr n => lower n
  | _ => ""
  end.

(** No two entries have the same name, letter case aside. *)
Definition names_distinct (lower : string -> string) (bots : list value) : Prop :=
  NoDup (map (name_key lower) bots).

(** The stored document, if it has a [chatbots] array, names no chatbot
    twice. *)
Definition stored_distinct (p : Props) : Prop :=
  forall v bots,
    Stored.holds p v -> prop v "chatbots" = Ok (VArr bots) ->
    names_distinct (lower p) bots.

(** A record with the two sample chatbots and a URL that names neither. *)
Definition unknown_props : Props :=
  Wrapper.with_flow_json (Json Wrapper.two_bots) (Some "sales").

End Reload.

(** ** A chatbot name with an accented letter

    The theorems about names hold for whatever function the engine's
    [toLowerCase] is.  This run is one with a name outside ASCII.  A string
    is a sequence of bytes here, so the capital E with an acute accent is
    the two bytes C3 89 of its UTF-8 form and the small one is C3 A9. *)

Module Accented.
Import Index.

(** The second byte of a capital letter of the Latin-1 supplement: C3 80 to
    C3 9E, the multiplication sign C3 97 apart. *)
Definition upper_latin (n : nat) : bool :=
  (Nat.leb 128 n && Nat.leb n 158 && negb (Nat.eqb n 151))%bool.

(** What the engine's [toLowerCase] does on a string of ASCII and Latin-1
    letters: the small letter of each capital one is 32 places further. *)
Fixpoint lowerLatin (s : string) : string :=
  match s with
  | EmptyString => EmptyString
  | String c rest =>
      if Nat.eqb (nat_of_ascii c) 195
      then match rest with
           | String d rest' =>
               String c
                 (String (if upper_latin (nat_of_ascii d)
                          then ascii_of_nat (nat_of_ascii d + 32) else d)
                    (lowerLatin rest'))
           | EmptyString => String c EmptyString
           end
      else String (lower_ascii c) (lowerLatin rest)
  end.

(** The URL parameter, in capitals, and the stored name, in small letters. *)
Definition ECOLE : string :=
  String (ascii_of_nat 195) (String (ascii_of_nat 137) "COLE").

Definition ecole : string :=
  String (ascii_of_nat 195) (String (ascii_of_nat 169) "cole").

Definition shop_and_ecole : value :=
  VObj [("chatbots",
         VArr [VObj [("name", VStr "Shop"); ("templates", VArr [])];
               VObj [("name", VStr ecole);
                     ("templates", VArr [Examples.menu])]]);
        ("version", VStr "1.0")].

Definition ecole_props : Props :=
  {| data := Some {| chatbot_name := Some "Shop";
                     flow_json := Some (Json shop_and_ecole);
                     env := None |};
     isLoading := false;
     flowParam := Some ECOLE;
     lower := lowerLatin |}.

End Accented.

(** ** Facts about the value operations *)

Module JSFacts.

Lemma lookup_set_field_same k v fs : lookup k (set_field k v fs) = Some v.
Proof.
  induction fs as [|[k' v'] fs IH]; simpl.
  - now rewrite String.eqb_refl.
  - destruct (k' =? k)%string eqn:E; simpl.
    + now rewrite String.eqb_refl.
    + now rewrite E.
Qed.

Lemma lookup_set_field_other k k' v fs :
  k' <> k -> lookup k' (set_field k v fs) = lookup k' fs.
Proof.
  intros Hne.
  induction fs as [|[k0 v0] fs IH]; simpl.
  - destruct (k =? k')%string eqn:E; [|reflexivity].
    apply String.eqb_eq in E. congruence.
  - destruct (k0 =? k)%string eqn:E; simpl.
    + apply String.eqb_eq in E. subst k0.
      destruct (k =? k')%string eqn:E'; [|reflexivity].
      apply String.eqb_eq in E'. congruence.
    + now rewrite IH.
Qed.

Lemma prop_set_same k v fs : prop (VObj (set_field k v fs)) k = Ok v.
Proof. simpl. now rewrite lookup_set_field_same. Qed.

Lemma prop_set_other k k' v fs :
  k' <> k -> prop (VObj (set_field k v fs)) k' = prop (VObj fs) k'.
Proof. intros H. simpl. now rewrite lookup_set_field_other. Qed.

Lemma truthy_not_nullish v : truthy v = true -> nullish v = false.
Proof. now destruct v. Qed.

Lemma prop_total v k : nullish v = false -> exists x, prop v k = Ok x.
Proof.
  destruct v; simpl; try discriminate; eauto.
  destruct (lookup k fields); eauto.
Qed.

End JSFacts.

(** ** The value operations on small inputs *)

Module Checks.
Import Index.

Example toString_of_array :
  toString (VArr [VNum 1; VNull; VStr "a"; VArr [VBool true; VUndefined]])
  = "1,,a,true,".
Proof. reflexivity. Qed.

Example toString_of_negative : toString (VNum (-42)) = "-42".
Proof. reflexivity. Qed.

Example jsonify_drops_undefined :
  jsonify (VObj [("id", VStr "r1"); ("connectedTo", VUndefined);
                 ("tags", VArr [VUndefined; VNum 2])])
  = VObj [("id", VStr "r1"); ("tags", VArr [VNull; VNum 2])].
Proof. reflexivity. Qed.

Example spread_then_set_keeps_the_place :
  set_field "b" (VNum 9) (spread (VObj [("a", VNum 1); ("b", VNum 2); ("c", VNum 3)]))
  = [("a", VNum 1); ("b", VNum 9); ("c", VNum 3)].
Proof. reflexivity. Qed.

Example spread_of_array :
  spread (VArr [VStr "x"; VStr "y"]) = [("0", VStr "x"); ("1", VStr "y")].
Proof. reflexivity. Qed.

Example label_of_catch_all : edgeLabel (VStr ".*") (VBool true) = VStr "any".
Proof. reflexivity. Qed.

Example label_of_plain_dot_star : edgeLabel (VStr ".*") (VBool false) = VStr ".*".
Proof. reflexivity. Qed.

Example label_without_pattern : edgeLabel (VStr "") (VBool true) = VStr "".
Proof. reflexivity. Qed.

Example edge_id_of_strings :
  edgeId (VStr "welcome") (VStr "r1") (VStr "menu") = "ewelcome-r1-menu".
Proof. reflexivity. Qed.

Example lower_of_mixed_case : lowerASCII "Shop Bot-2" = "shop bot-2".
Proof. reflexivity. Qed.

Example slice_keeps_up_to_the_pointer :
  slice0 [1; 2; 3; 4]%nat 2 = [1; 2]%nat /\ slice0 [1; 2; 3]%nat 0 = []
  /\ slice0 [1; 2; 3]%nat 7 = [1; 2; 3]%nat /\ slice0 [1; 2; 3]%nat (-1) = [1; 2]%nat.
Proof. repeat split. Qed.

Example index_outside_the_array :
  at_index [1; 2]%nat (-1) = None /\ at_index [1; 2]%nat 2 = None
  /\ at_index [1; 2]%nat 1 = Some 2%nat.
Proof. repeat split. Qed.

Example layout_of_four :
  map Node.position
    (layout_from 0 (map (fun i => Node.mk (VNum i) "template" VNull VNull)
                      [0; 1; 2; 3]))
  = [VObj [("x", VNum 0); ("y", VNum 0)]; VObj [("x", VNum 300); ("y", VNum 0)];
     VObj [("x", VNum 600); ("y", VNum 0)]; VObj [("x", VNum 0); ("y", VNum 200)]].
Proof. reflexivity. Qed.

End Checks.

(** ** Undo and redo: theorems *)

Module UndoRedoFacts.
Import Index UndoRedo.

Lemma at_index_pred {A} (xs : list A) i x :
  0 < i -> at_index xs i = Some x -> exists y, at_index xs (i - 1) = Some y.
Proof.
  unfold at_index. intros Hpos H.
  destruct (i <? 0) eqn:E; [discriminate|].
  replace (i - 1 <? 0) with false by (symmetry; apply Z.ltb_ge; lia).
  assert (Hlt : (Z.to_nat (i - 1) < List.length xs)%nat).
  { assert (Z.to_nat i < List.length xs)%nat
      by (apply nth_error_Some; congruence).
    lia. }
  apply nth_error_Some in Hlt.
  destruct (nth_error xs (Z.to_nat (i - 1))); [eauto|congruence].
Qed.

Lemma at_index_in_range {A} (xs : list A) i x :
  at_index xs i = Some x -> 0 <= i < Z.of_nat (List.length xs).
Proof.
  unfold at_index. destruct (i <? 0) eqn:E; [discriminate|].
  intros H. apply Z.ltb_ge in E.
  assert (Z.to_nat i < List.length xs)%nat by (apply nth_error_Some; congruence).
  lia.
Qed.

(** C3, as amended.  With the pointer above 0 and on an entry of the stack,
    undo followed by redo leaves the stack alone, puts the pointer back and
    shows the snapshot stored at the pointer; the canvas is the one from
    before the undo exactly when it was that snapshot. *)
Theorem undo_redo_returns_to_pointer (s : State) (snap : Snapshot) :
  0 < historyIndex s ->
  at_index (history s) (historyIndex s) = Some snap ->
  exists s1 s2,
    handleUndo s = Ok s1 /\ handleRedo s1 = Ok s2 /\
    history s2 = history s /\
    historyIndex s2 = historyIndex s /\
    nodes s2 = snap_nodes snap /\ edges s2 = snap_edges snap /\
    (nodes s = snap_nodes snap -> edges s = snap_edges snap ->
     undo_redo_restores s).
Proof.
  intros Hpos Hsnap.
  destruct (at_index_pred _ _ _ Hpos Hsnap) as [prev Hprev].
  pose proof (at_index_in_range _ _ _ Hsnap) as Hrange.
  assert (Hundo : handleUndo s =
                  Ok (setHistoryIndex (historyIndex s - 1)
                        (setEdges (fun _ => snap_edges prev)
                           (setNodes (fun _ => snap_nodes prev) s)))).
  { unfold handleUndo. rewrite Hprev.
    replace (historyIndex s >? 0) with true; [reflexivity|].
    symmetry. apply Z.gtb_lt. lia. }
  set (s1 := setHistoryIndex (historyIndex s - 1)
               (setEdges (fun _ => snap_edges prev)
                  (setNodes (fun _ => snap_nodes prev) s))) in *.
  assert (Hredo : handleRedo s1 =
                  Ok (setHistoryIndex (historyIndex s)
                        (setEdges (fun _ => snap_edges snap)
                           (setNodes (fun _ => snap_nodes snap) s1)))).
  { unfold handleRedo. simpl.
    replace (historyIndex s - 1 + 1) with (historyIndex s) by lia.
    rewrite Hsnap.
    replace (historyIndex s - 1 <? Z.of_nat (List.length (history s)) - 1)
      with true; [reflexivity|].
    symmetry. apply Z.ltb_lt. lia. }
  exists s1, (setHistoryIndex (historyIndex s)
                (setEdges (fun _ => snap_edges snap)
                   (setNodes (fun _ => snap_nodes snap) s1))).
  repeat split; try assumption.
  intros Hn He. unfold undo_redo_restores.
  exists s1. eexists. split; [exact Hundo|]. split; [exact Hredo|].
  simpl. repeat split; congruence.
Qed.

Lemma undo_redo_returns_to_pointer_witness :
  exists s1 s2,
    handleUndo one_added = Ok s1 /\ handleRedo s1 = Ok s2 /\
    history s2 = history one_added /\
    historyIndex s2 = historyIndex one_added /\
    nodes s2 = [] /\ edges s2 = [] /\
    (nodes one_added = [] -> edges one_added = [] ->
     undo_redo_restores one_added).
Proof.
  apply (undo_redo_returns_to_pointer one_added
           {| snap_nodes := []; snap_edges := [] |}).
  - vm_compute. reflexivity.
  - vm_compute. reflexivity.
Defined.

(** C3 fails as stated: after the first template is added the pointer is at
    1, and undo followed by redo shows an empty canvas, not the canvas with
    the template. *)
Lemma undo_redo_loses_added_template :
  0 < historyIndex one_added /\ ~ undo_redo_restores one_added.
Proof.
  split; [vm_compute; reflexivity|].
  intros (s1 & s2 & Hu & Hr & Hn & _).
  vm_compute in Hu. injection Hu as <-.
  vm_compute in Hr. injection Hr as <-.
  vm_compute in Hn. discriminate.
Qed.

End UndoRedoFacts.

(** ** Deleting a template *)

Module DeleteFacts.
Import Index Examples JSFacts.

(** C10.  With a template selected, [deleteTemplate] keeps exactly the
    nodes whose id differs from the selected template's id and exactly the
    edges that neither start nor end at that id, and clears the
    selection. *)
Theorem deleteTemplate_removes_node_and_edges (s : State) :
  truthy (selectedTemplate s) = true ->
  exists sid s',
    prop (selectedTemplate s) "id" = Ok sid /\
    deleteTemplate s = Ok s' /\
    nodes s' = filter (fun n => negb (strict_eq (Node.id n) sid)) (nodes s) /\
    (forall n, In n (nodes s') <->
               In n (nodes s) /\ strict_eq (Node.id n) sid = false) /\
    (forall e, In e (edges s') <->
               In e (edges s) /\ strict_eq (Edge.source e) sid = false
               /\ strict_eq (Edge.target e) sid = false) /\
    selectedTemplate s' = VNull.
Proof.
  intros Hsel.
  destruct (prop_total (selectedTemplate s) "id" (truthy_not_nullish _ Hsel))
    as [sid Hsid].
  exists sid. eexists. split; [exact Hsid|].
  split.
  { unfold deleteTemplate. rewrite Hsel, Hsid. simpl. reflexivity. }
  simpl. split; [reflexivity|]. split; [|split; [|reflexivity]].
  - intros n. rewrite filter_In, negb_true_iff. reflexivity.
  - intros e. rewrite filter_In, andb_true_iff, !negb_true_iff. tauto.
Qed.

Lemma deleteTemplate_removes_node_and_edges_witness :
  truthy (selectedTemplate welcome_selected) = true /\
  exists sid s',
    prop (selectedTemplate welcome_selected) "id" = Ok sid /\
    deleteTemplate welcome_selected = Ok s' /\
    nodes s' = filter (fun n => negb (strict_eq (Node.id n) sid))
                 (nodes welcome_selected) /\
    (forall n, In n (nodes s') <->
               In n (nodes welcome_selected) /\ strict_eq (Node.id n) sid = false) /\
    (forall e, In e (edges s') <->
               In e (edges welcome_selected)
               /\ strict_eq (Edge.source e) sid = false
               /\ strict_eq (Edge.target e) sid = false) /\
    selectedTemplate s' = VNull.
Proof.
  split; [reflexivity|].
  apply (deleteTemplate_removes_node_and_edges welcome_selected).
  reflexivity.
Defined.
End DeleteFacts.

(** ** The start and report toggles *)

Module SettingsFacts.
Import SettingsTab JSFacts.

Lemma start_toggle_settings fs checked :
  exists own isReport,
    handleStartToggle (VObj fs) checked =
    Ok (VObj
          (set_field "settings"
             (VObj
                (set_field "isReport"
                   (if checked then VBool false else coalesce isReport (VBool false))
                   (set_field "isStart" (VBool checked) own)))
             fs)).
Proof.
  unfold handleStartToggle, settings_of. simpl.
  destruct (lookup "settings" fs) as [st|]; simpl.
  - destruct (prop_total (or_else st (VObj [])) "isReport") as [r Hr].
    { unfold or_else. destruct (truthy st) eqn:E; [|reflexivity].
      now apply truthy_not_nullish. }
    rewrite Hr. exists (spread (or_else st (VObj []))), r. reflexivity.
  - exists [], VUndefined. reflexivity.
Qed.

Lemma report_toggle_settings fs checked :
  exists own isStart,
    handleReportToggle (VObj fs) checked =
    Ok (VObj
          (set_field "settings"
             (VObj
                (set_field "isStart"
                   (if checked then VBool false else coalesce isStart (VBool false))
                   (set_field "isReport" (VBool checked) own)))
             fs)).
Proof.
  unfold handleReportToggle, settings_of. simpl.
  destruct (lookup "settings" fs) as [st|]; simpl.
  - destruct (prop_total (or_else st (VObj [])) "isStart") as [r Hr].
    { unfold or_else. destruct (truthy st) eqn:E; [|reflexivity].
      now apply truthy_not_nullish. }
    rewrite Hr. exists (spread (or_else st (VObj []))), r. reflexivity.
  - exists [], VUndefined. reflexivity.
Qed.

(** C4.  On every template object, switching "start" on gives settings with
    [isStart] true and [isReport] false, switching "report" on gives
    [isReport] true and [isStart] false, and whatever the argument neither
    toggle hands on a template with both markers true; the properties of the
    template other than [settings] are the ones it had. *)
Theorem toggles_keep_start_and_report_apart (fs : fields_of) :
  (exists t st,
     handleStartToggle (VObj fs) true = Ok t /\ prop t "settings" = Ok st /\
     prop st "isStart" = Ok (VBool true) /\ prop st "isReport" = Ok (VBool false)) /\
  (exists t st,
     handleReportToggle (VObj fs) true = Ok t /\ prop t "settings" = Ok st /\
     prop st "isReport" = Ok (VBool true) /\ prop st "isStart" = Ok (VBool false)) /\
  (forall checked, exists t st,
     handleStartToggle (VObj fs) checked = Ok t /\ prop t "settings" = Ok st /\
     prop st "isStart" = Ok (VBool checked) /\
     ~ (prop st "isStart" = Ok (VBool true) /\ prop st "isReport" = Ok (VBool true)) /\
     forall k, k <> "settings" -> prop t k = prop (VObj fs) k) /\
  (forall checked, exists t st,
     handleReportToggle (VObj fs) checked = Ok t /\ prop t "settings" = Ok st /\
     prop st "isReport" = Ok (VBool checked) /\
     ~ (prop st "isStart" = Ok (VBool true) /\ prop st "isReport" = Ok (VBool true)) /\
     forall k, k <> "settings" -> prop t k = prop (VObj fs) k).
Proof.
  assert (Hne : "isStart" <> "isReport") by discriminate.
  assert (Hne' : "isReport" <> "isStart") by discriminate.
  repeat split.
  - destruct (start_toggle_settings fs true) as (own & r & H).
    eexists _, _. split; [exact H|]. split; [apply prop_set_same|].
    split; [|apply prop_set_same].
    rewrite prop_set_other by assumption. apply prop_set_same.
  - destruct (report_toggle_settings fs true) as (own & r & H).
    eexists _, _. split; [exact H|]. split; [apply prop_set_same|].
    split; [|apply prop_set_same].
    rewrite prop_set_other by assumption. apply prop_set_same.
  - intros checked.
    destruct (start_toggle_settings fs checked) as (own & r & H).
    eexists _, _. split; [exact H|]. split; [apply prop_set_same|].
    assert (Hs : forall x, prop (VObj (set_field "isReport" x
                  (set_field "isStart" (VBool checked) own))) "isStart"
                 = Ok (VBool checked)).
    { intros x. rewrite prop_set_other by assumption. apply prop_set_same. }
    split; [apply Hs|]. split.
    + rewrite Hs, prop_set_same. intros [H1 H2].
      destruct checked; [discriminate H2|discriminate H1].
    + intros k Hk. now apply prop_set_other.
  - intros checked.
    destruct (report_toggle_settings fs checked) as (own & r & H).
    eexists _, _. split; [exact H|]. split; [apply prop_set_same|].
    assert (Hs : forall x, prop (VObj (set_field "isStart" x
                  (set_field "isReport" (VBool checked) own))) "isReport"
                 = Ok (VBool checked)).
    { intros x. rewrite prop_set_other by assumption. apply prop_set_same. }
    split; [apply Hs|]. split.
    + rewrite Hs, prop_set_same. intros [H1 H2].
      destruct checked; [discriminate H1|discriminate H2].
    + intros k Hk. now apply prop_set_other.
Qed.

End SettingsFacts.

(** ** Import of a file that is not a flow document *)

Module FileImportFacts.
Import Index FileImport.

Lemma importedGraph_throws et content :
  flow_document content = false -> exists e, importedGraph et content = Throw e.
Proof.
  unfold flow_document, importedGraph.
  destruct (JSON_parse content) as [flow|e]; simpl; [|eauto].
  destruct flow; simpl; eauto; try discriminate.
  unfold opt_prop. simpl.
  destruct (lookup "templates" fields) as [[]|]; simpl; eauto; discriminate.
Qed.

(** C2.  When the file's text does not parse, or parses to a value without
    a [templates] array, [handleFileImport] leaves nodes, edges, history and
    pointer as they were and shows the error toast. *)
Theorem import_of_malformed_file_keeps_state
  (content : text) (render s : State) :
  flow_document content = false ->
  let s' := handleFileImport (Some content) render s in
  nodes s' = nodes s /\ edges s' = edges s /\
  history s' = history s /\ historyIndex s' = historyIndex s /\
  toasts s' = toasts s ++ [import_failed].
Proof.
  intros H. destruct (importedGraph_throws (edgeType render) content H) as [e He].
  unfold handleFileImport. rewrite He. simpl. repeat split.
Qed.

Lemma import_of_malformed_file_keeps_state_witness :
  flow_document (Garbled "Unexpected token h in JSON at position 0") = false /\
  let s' := handleFileImport
              (Some (Garbled "Unexpected token h in JSON at position 0"))
              Examples.loaded Examples.loaded in
  nodes s' = nodes Examples.loaded /\ edges s' = edges Examples.loaded /\
  history s' = history Examples.loaded /\
  historyIndex s' = historyIndex Examples.loaded /\
  toasts s' = toasts Examples.loaded ++ [import_failed].
Proof.
  split; [reflexivity|].
  apply (import_of_malformed_file_keeps_state
           (Garbled "Unexpected token h in JSON at position 0")
           Examples.loaded Examples.loaded).
  reflexivity.
Defined.

End FileImportFacts.

(** ** Saving *)

Module SavingFacts.
Import Index Saving.

(** C6.  A call of [saveCurrentFlowJson] that gets its JSON leaves nodes,
    edges, history and pointer alone and puts one request in flight; and in
    whatever state that request later fails, nodes, edges, history and
    pointer stay as they are, the error toast for that flow is shown and
    [isSaving] is false. *)
Theorem failed_save_keeps_state (p : Props) (s s1 : State) :
  saveCurrentFlowJson p s = Ok s1 ->
  nodes s1 = nodes s /\ edges s1 = edges s /\
  history s1 = history s /\ historyIndex s1 = historyIndex s /\
  exists r,
    nth_error (inFlight s1) (List.length (inFlight s)) = Some r /\
    forall i s2,
      nth_error (inFlight s2) i = Some r ->
      exists s3,
        settle i UpdateFailed s2 = Some s3 /\
        nodes s3 = nodes s2 /\ edges s3 = edges s2 /\
        history s3 = history s2 /\ historyIndex s3 = historyIndex s2 /\
        toasts s3 = toasts s2 ++ [save_failed r] /\
        isSaving s3 = false.
Proof.
  unfold saveCurrentFlowJson. intros H.
  destruct (getCurrentFlowJson p s) as [flowJson|]; [|discriminate].
  injection H as <-. cbn.
  repeat (split; [reflexivity|]).
  exists {| payload := flowJson; flowName := botName p |}. split.
  - rewrite nth_error_app2 by lia. now rewrite Nat.sub_diag.
  - intros i s2 Hr. unfold settle. rewrite Hr.
    eexists. split; [reflexivity|]. cbn. repeat split.
Qed.

Lemma failed_save_keeps_state_witness :
  saveCurrentFlowJson UndoRedo.no_record UndoRedo.started = Ok saving_once /\
  nodes saving_once = nodes UndoRedo.started /\
  edges saving_once = edges UndoRedo.started /\
  history saving_once = history UndoRedo.started /\
  historyIndex saving_once = historyIndex UndoRedo.started /\
  exists r,
    nth_error (inFlight saving_once) (List.length (inFlight UndoRedo.started))
    = Some r /\
    forall i s2,
      nth_error (inFlight s2) i = Some r ->
      exists s3,
        settle i UpdateFailed s2 = Some s3 /\
        nodes s3 = nodes s2 /\ edges s3 = edges s2 /\
        history s3 = history s2 /\ historyIndex s3 = historyIndex s2 /\
        toasts s3 = toasts s2 ++ [save_failed r] /\
        isSaving s3 = false.
Proof.
  split; [reflexivity|].
  apply (failed_save_keeps_state UndoRedo.no_record UndoRedo.started saving_once).
  reflexivity.
Defined.

(** C8, as amended.  Every call of [saveCurrentFlowJson] that gets its JSON
    raises the flag and adds one update to those in flight, whatever the
    flag held before; and when any one update settles the flag drops, with
    the other updates still in flight. *)
Theorem save_starts_an_update_whatever_the_flag
  (p : Props) (s : State) (flowJson : text) :
  getCurrentFlowJson p s = Ok flowJson ->
  (exists s',
     saveCurrentFlowJson p s = Ok s' /\
     isSaving s' = true /\
     inFlight s' = inFlight s ++ [{| payload := flowJson; flowName := botName p |}] /\
     nodes s' = nodes s /\ edges s' = edges s /\
     history s' = history s /\ historyIndex s' = historyIndex s) /\
  (forall b, saveCurrentFlowJson p (setIsSaving b s) = saveCurrentFlowJson p s) /\
  (forall i how s', settle i how s = Some s' ->
     isSaving s' = false /\ inFlight s' = remove_nth i (inFlight s)).
Proof.
  intros H. split; [|split].
  - unfold saveCurrentFlowJson. rewrite H. simpl.
    eexists. split; [reflexivity|]. simpl. repeat split.
  - intros b. reflexivity.
  - intros i how s'. unfold settle.
    destruct (nth_error (inFlight s) i); [|discriminate].
    intros [= <-]. destruct how; split; reflexivity.
Qed.

Lemma save_starts_an_update_whatever_the_flag_witness :
  (exists s',
     saveCurrentFlowJson UndoRedo.no_record saving_once = Ok s' /\
     isSaving s' = true /\
     inFlight s' = inFlight saving_once
                   ++ [{| payload := Stored.fresh_document UndoRedo.no_record
                                        saving_once;
                          flowName := "Default Bot" |}] /\
     nodes s' = nodes saving_once /\ edges s' = edges saving_once /\
     history s' = history saving_once /\
     historyIndex s' = historyIndex saving_once) /\
  (forall b, saveCurrentFlowJson UndoRedo.no_record (setIsSaving b saving_once)
             = saveCurrentFlowJson UndoRedo.no_record saving_once) /\
  (forall i how s', settle i how saving_once = Some s' ->
     isSaving s' = false /\ inFlight s' = remove_nth i (inFlight saving_once)).
Proof.
  apply (save_starts_an_update_whatever_the_flag UndoRedo.no_record saving_once).
  reflexivity.
Defined.

(** C8 fails as stated: with one update in flight and the flag up, a second
    call starts a second update. *)
Lemma second_save_starts_a_second_update :
  isSaving saving_once = true /\
  List.length (inFlight saving_once) = 1%nat /\
  List.length (inFlight saving_twice) = 2%nat /\
  ~ flag_guards UndoRedo.no_record saving_once.
Proof.
  split; [reflexivity|]. split; [reflexivity|]. split; [reflexivity|].
  intros H. specialize (H eq_refl saving_twice eq_refl).
  vm_compute in H. discriminate H.
Qed.
End SavingFacts.

(** ** Connecting and disconnecting: theorems *)

Module RoutesFacts.
Import Index Shape Routes JSFacts.

Lemma mapM_Forall2 {A B} (f : A -> result B) (P : A -> Prop)
  (R : A -> B -> Prop) (xs : list A) :
  (forall x, P x -> exists y, f x = Ok y /\ R x y) ->
  Forall P xs -> exists ys, mapM f xs = Ok ys /\ Forall2 R xs ys.
Proof.
  intros Hf. induction 1 as [|x xs Hx _ IH]; simpl.
  - exists []. split; [reflexivity|constructor].
  - destruct (Hf x Hx) as (y & Hy & Hr). destruct IH as (ys & Hys & Hrs).
    rewrite Hy, Hys. simpl. exists (y :: ys). split; [reflexivity|].
    now constructor.
Qed.

Lemma forallb_Forall {A} (f : A -> bool) xs :
  forallb f xs = true -> Forall (fun x => f x = true) xs.
Proof. intros H. apply Forall_forall. now apply forallb_forall. Qed.

Lemma connectRoute_step h t r :
  is_object r = true ->
  exists r', connectRoute h t r = Ok r' /\ route_step h t r r'.
Proof.
  destruct r; try discriminate. intros _.
  destruct (prop_total (VObj fields) "id" eq_refl) as [rid Hrid].
  unfold connectRoute, route_step, opt_prop. rewrite Hrid.
  unfold bind. destruct (strict_eq rid h); eexists; (split; [reflexivity|]).
  - split; [apply prop_set_same|]. intros k Hk. now apply prop_set_other.
  - reflexivity.
Qed.

Lemma connectRoutes_step h t rs :
  forallb is_object rs = true ->
  exists rs', mapM (connectRoute h t) rs = Ok rs' /\ only_route h t rs rs'.
Proof.
  intros H. apply mapM_Forall2 with (P := fun r => is_object r = true).
  - intros r. apply connectRoute_step.
  - now apply forallb_Forall.
Qed.

(** What [routes_of] says about [template.routes || []]. *)
Lemma routes_of_inv d rs :
  routes_of d = Some rs ->
  exists fs r,
    d = VObj fs /\ prop d "routes" = Ok r /\
    or_else r (VArr []) = VArr rs /\ forallb is_object rs = true /\
    (nullish r = true -> rs = []) /\
    (nullish r = false -> r = VArr rs).
Proof.
  destruct d; try discriminate. simpl.
  destruct (lookup "routes" fields) as [r|] eqn:E.
  - destruct r; try discriminate.
    + intros [= <-]. exists fields, VUndefined. repeat split; try reflexivity.
      discriminate.
    + intros [= <-]. exists fields, VNull. repeat split; try reflexivity.
      discriminate.
    + destruct (forallb is_object items) eqn:F; [|discriminate].
      intros [= <-]. exists fields, (VArr items). repeat split; try assumption.
      discriminate.
  - intros [= <-]. exists fields, VUndefined. repeat split; try reflexivity.
    discriminate.
Qed.

Lemma is_template_routes d :
  is_template d = true -> exists rs, routes_of d = Some rs.
Proof. unfold is_template. destruct (routes_of d); [eauto|discriminate]. Qed.

Lemma with_routes_frame rs' n fs :
  Node.data n = VObj fs ->
  let n' := with_routes (VArr rs') n in
  Node.id n' = Node.id n /\ Node.type n' = Node.type n /\
  Node.position n' = Node.position n /\
  (forall k, k <> "routes" -> prop (Node.data n') k = prop (Node.data n) k) /\
  prop (Node.data n') "routes" = Ok (VArr rs').
Proof.
  intros Hd. unfold with_routes. simpl. rewrite Hd. simpl.
  repeat split.
  - intros k Hk. now rewrite lookup_set_field_other.
  - now rewrite lookup_set_field_same.
Qed.

Lemma disconnectNode_step e n :
  is_template (Node.data n) = true ->
  exists n',
    disconnectNode e n = Ok n' /\
    node_step (Edge.source e) (only_route (Edge.sourceHandle e) VUndefined) n n'.
Proof.
  intros Ht. destruct (is_template_routes _ Ht) as [rs Hrs].
  destruct (routes_of_inv _ _ Hrs) as (fs & r & Hd & Hr & Hor & Hobj & _).
  unfold disconnectNode, node_step.
  destruct (strict_eq (Node.id n) (Edge.source e)); [|eauto].
  rewrite Hr. simpl. rewrite Hor. simpl.
  destruct (connectRoutes_step (Edge.sourceHandle e) VUndefined rs Hobj)
    as (rs' & Hm & Hstep).
  rewrite Hm. simpl. eexists. split; [reflexivity|].
  destruct (with_routes_frame rs' n fs Hd) as (H1 & H2 & H3 & H4 & H5).
  repeat (split; [assumption|]). exists rs, rs'. auto.
Qed.

Lemma connectNode_step now source h t n :
  is_template (Node.data n) = true ->
  exists n',
    connectNode now source h t n = Ok n' /\
    node_step source (route_or_new now h t) n n'.
Proof.
  intros Ht. destruct (is_template_routes _ Ht) as [rs Hrs].
  destruct (routes_of_inv _ _ Hrs) as (fs & r & Hd & Hr & Hor & Hobj & _).
  unfold connectNode, node_step.
  destruct (strict_eq (Node.id n) source); [|eauto].
  rewrite Hr. simpl. rewrite Hor.
  destruct (strict_eq h (VStr "default")) eqn:Hdef; simpl.
  - destruct rs as [|r0 rs0]; simpl.
    + eexists. split; [reflexivity|].
      destruct (with_routes_frame [newRoute now t] n fs Hd)
        as (H1 & H2 & H3 & H4 & H5).
      repeat (split; [assumption|]). exists [], [newRoute now t].
      repeat split; try assumption. simpl. now rewrite Hdef.
    + destruct (connectRoutes_step h t (r0 :: rs0) Hobj) as (rs' & Hm & Hstep).
      simpl in Hm. rewrite Hm. simpl. eexists. split; [reflexivity|].
      destruct (with_routes_frame rs' n fs Hd) as (H1 & H2 & H3 & H4 & H5).
      repeat (split; [assumption|]). exists (r0 :: rs0), rs'. auto.
  - destruct (connectRoutes_step h t rs Hobj) as (rs' & Hm & Hstep).
    rewrite Hm. simpl. eexists. split; [reflexivity|].
    destruct (with_routes_frame rs' n fs Hd) as (H1 & H2 & H3 & H4 & H5).
    repeat (split; [assumption|]). exists rs, rs'.
    repeat split; try assumption.
    destruct rs; [|exact Hstep]. simpl. rewrite Hdef.
    now inversion Hstep.
Qed.

Lemma findRoute_object h rs :
  forallb is_object rs = true ->
  exists r, findRoute h rs = Ok r /\ (nullish r = false \/ r = VUndefined).
Proof.
  induction rs as [|r rs IH]; simpl.
  - intros _. exists VUndefined. auto.
  - intros H. apply andb_prop in H as [Hr Hrs].
    destruct r; try discriminate.
    destruct (prop_total (VObj fields) "id" eq_refl) as [rid Hrid].
    rewrite Hrid. unfold bind. destruct (strict_eq rid h); [|auto].
    eexists. split; [reflexivity|]. now left.
Qed.

Lemma source_route_found h source ns :
  Forall (fun n => is_template (Node.data n) = true) ns ->
  exists route,
    match findNode source ns with
    | Some sourceNode =>
        routes <- prop (Node.data sourceNode) "routes" ;;
        if nullish routes then Ok VUndefined
        else rs <- items_of routes ;; findRoute h rs
    | None => Ok VUndefined
    end = Ok route /\ (nullish route = false \/ route = VUndefined).
Proof.
  intros Hok. unfold findNode.
  destruct (find _ ns) as [n|] eqn:E; [|exists VUndefined; auto].
  apply find_some in E as [Hin _].
  rewrite Forall_forall in Hok. specialize (Hok n Hin).
  destruct (is_template_routes _ Hok) as [rs Hrs].
  destruct (routes_of_inv _ _ Hrs) as (fs & r & Hd & Hr & Hor & Hobj & Hnull & Harr).
  rewrite Hr. unfold bind at 1.
  destruct (nullish r) eqn:N; [exists VUndefined; auto|].
  rewrite (Harr eq_refl). simpl. now apply findRoute_object.
Qed.

Lemma route_field route k (d : value) :
  nullish route = false \/ route = VUndefined ->
  exists x, (if truthy route then prop route k else Ok d) = Ok x.
Proof.
  intros [H| ->]; [|simpl; eauto].
  destruct (truthy route); [|eauto]. now apply prop_total.
Qed.

(** C5, as amended.  On nodes whose templates carry a route array of
    objects (or none): deleting an edge sets [connectedTo] to [undefined] on
    the routes named by the edge's handle in the nodes named by its source,
    and leaves every other route, every other property of those templates
    and every other node as it was; connecting, with a source and a target,
    does the same with the target in place of [undefined], except that a
    template without routes connected from the "default" handle gets one new
    route to the target; without a source or a target it leaves the nodes
    alone. *)
Theorem connect_and_disconnect_touch_one_route
  (addEdge : Edge.t -> list Edge.t -> list Edge.t)
  (now : Z) (params : Connection) (e : Edge.t) (s : State) :
  templates_ok s ->
  (exists s',
     onEdgesDelete [e] s = Ok s' /\
     Forall2 (node_step (Edge.source e)
                (only_route (Edge.sourceHandle e) VUndefined))
       (nodes s) (nodes s') /\
     edges s' = edges s) /\
  (exists s',
     onConnect addEdge now params s = Ok s' /\
     if truthy (conn_source params) && truthy (conn_target params)
     then Forall2 (node_step (conn_source params)
                     (route_or_new now (handle_of params) (conn_target params)))
            (nodes s) (nodes s')
     else nodes s' = nodes s).
Proof.
  intros Hok. split.
  - destruct (mapM_Forall2 (disconnectNode e)
                (fun n => is_template (Node.data n) = true)
                (node_step (Edge.source e)
                   (only_route (Edge.sourceHandle e) VUndefined))
                (nodes s) (fun n => disconnectNode_step e n) Hok)
      as (nds & Hm & Hstep).
    unfold onEdgesDelete. simpl. rewrite Hm. simpl.
    eexists. split; [reflexivity|]. simpl. split; [exact Hstep|reflexivity].
  - unfold onConnect. fold (handle_of params).
    destruct (source_route_found (handle_of params) (conn_source params)
                (nodes s) Hok) as (route & Hroute & Hshape).
    rewrite Hroute. unfold bind at 1.
    destruct (route_field route "pattern" (VStr "") Hshape) as [pat Hpat].
    destruct (route_field route "isRegex" (VBool false) Hshape) as [rx Hrx].
    rewrite Hpat. unfold bind at 1. rewrite Hrx. unfold bind at 1.
    destruct (truthy (conn_source params) && truthy (conn_target params)).
    + destruct (mapM_Forall2
                  (connectNode now (conn_source params) (handle_of params)
                     (conn_target params))
                  (fun n => is_template (Node.data n) = true)
                  (node_step (conn_source params)
                     (route_or_new now (handle_of params) (conn_target params)))
                  (nodes s)
                  (fun n => connectNode_step now _ _ _ n) Hok)
        as (nds & Hm & Hstep).
      simpl. rewrite Hm. simpl. eexists. split; [reflexivity|]. exact Hstep.
    + simpl. eexists. split; reflexivity.
Qed.

Lemma connect_and_disconnect_touch_one_route_witness :
  templates_ok Examples.loaded /\
  (exists s',
     onEdgesDelete [r1_edge] Examples.loaded = Ok s' /\
     Forall2 (node_step (VStr "welcome") (only_route (VStr "r1") VUndefined))
       (nodes Examples.loaded) (nodes s') /\
     edges s' = edges Examples.loaded) /\
  (exists s',
     onConnect appendEdge 5 r2_to_menu Examples.loaded = Ok s' /\
     Forall2 (node_step (VStr "welcome")
                (route_or_new 5 (VStr "r2") (VStr "menu")))
       (nodes Examples.loaded) (nodes s')).
Proof.
  assert (H : templates_ok Examples.loaded).
  { repeat constructor. }
  split; [exact H|].
  exact (connect_and_disconnect_touch_one_route appendEdge 5 r2_to_menu
           r1_edge Examples.loaded H).
Defined.

(** C5 fails as stated: connecting the first template, which has no routes,
    from its "default" handle does not leave its route list alone; the
    template gets a new route. *)
Lemma connect_from_default_handle_adds_a_route :
  templates_ok two_added /\
  ~ connect_touches_one_route appendEdge 1700000000900 first_to_second two_added.
Proof.
  split; [repeat constructor|].
  intros (s' & Hs & Hstep).
  vm_compute in Hs. injection Hs as <-.
  inversion Hstep as [|n n' ns ns' Hn _]; subst.
  unfold node_step in Hn. simpl in Hn.
  destruct Hn as (_ & _ & _ & _ & rs & rs' & Hrs & Hrs' & Hall).
  injection Hrs as <-. injection Hrs' as <-.
  inversion Hall.
Qed.
End RoutesFacts.

(** ** Unknown shapes of the stored document *)

Module StoredFacts.
Import Index Stored JSFacts.

Lemma prop_opt_prop v k : nullish v = false -> prop v k = Ok (opt_prop v k).
Proof.
  intros H. unfold opt_prop. destruct (prop_total v k H) as [x ->]. reflexivity.
Qed.

Lemma isArray_false_and c : isArray c = false -> truthy c && isArray c = false.
Proof. intros ->. apply andb_false_r. Qed.

(** C7, as amended.  When the stored [flow_json] parses to a value other
    than [null] that has neither a [chatbots] array nor a [templates] array,
    serializing builds a fresh wrapper around the current canvas; loading
    such a value whose [templates] is falsy builds nothing: it marks the
    flow as loaded, shows "Invalid flow structure" and leaves nodes, edges
    and history as they were. *)
Theorem unknown_shape_is_rejected_on_load_and_replaced_on_save
  (p : Props) (s : State) (v : value) :
  holds p v -> nullish v = false -> unknown_shape v = true ->
  getCurrentFlowJson p s = Ok (fresh_document p s) /\
  (isFlowLoaded s = false -> truthy (opt_prop v "templates") = false ->
   exists s',
     loadFlow p s = Ok s' /\
     nodes s' = nodes s /\ edges s' = edges s /\
     history s' = history s /\ historyIndex s' = historyIndex s /\
     isFlowLoaded s' = true /\ toasts s' = toasts s ++ [invalid_structure]).
Proof.
  intros (cfg & Hdata & Hjson) Hnull Hshape.
  unfold unknown_shape, has_array in Hshape.
  apply andb_prop in Hshape as [Hc Ht].
  apply negb_true_iff in Hc, Ht.
  split.
  - unfold getCurrentFlowJson. rewrite Hdata, Hjson. simpl.
    rewrite (prop_opt_prop v "chatbots" Hnull). unfold bind at 1.
    rewrite (isArray_false_and _ Hc).
    rewrite (prop_opt_prop v "templates" Hnull). unfold bind at 1.
    rewrite (isArray_false_and _ Ht). reflexivity.
  - intros Hload Hfalsy.
    unfold loadFlow. rewrite Hdata, Hload, Hjson. simpl.
    unfold pickFlow. rewrite (prop_opt_prop v "chatbots" Hnull).
    unfold bind at 2. rewrite (isArray_false_and _ Hc). unfold bind at 1.
    destruct (truthy v) eqn:Tv.
    + rewrite (prop_opt_prop v "templates" Hnull). unfold bind at 1.
      rewrite Hfalsy. simpl. eexists. split; [reflexivity|]. simpl.
      repeat split.
    + simpl. eexists. split; [reflexivity|]. simpl. repeat split.
Qed.

Lemma unknown_shape_is_rejected_on_load_and_replaced_on_save_witness :
  holds empty_object_props (VObj []) /\
  getCurrentFlowJson empty_object_props added_early
  = Ok (fresh_document empty_object_props added_early) /\
  exists s',
    loadFlow empty_object_props added_early = Ok s' /\
    nodes s' = nodes added_early /\ edges s' = edges added_early /\
    history s' = history added_early /\
    historyIndex s' = historyIndex added_early /\
    isFlowLoaded s' = true /\
    toasts s' = toasts added_early ++ [invalid_structure].
Proof.
  assert (H : holds empty_object_props (VObj [])).
  { eexists. split; reflexivity. }
  split; [exact H|].
  destruct (unknown_shape_is_rejected_on_load_and_replaced_on_save
              empty_object_props added_early (VObj []) H eq_refl eq_refl)
    as [Hsave Hload].
  split; [exact Hsave|]. exact (Hload eq_refl eq_refl).
Defined.

(** C7 fails as stated for the load: with the empty object stored, the
    load of the initial page shows the error toast and pushes no history
    entry, where the start of a new flow pushes one; and a template added
    while the record was loading is still on the canvas after the load,
    where the start of a new flow empties the canvas. *)
Lemma load_of_unknown_shape_keeps_the_canvas :
  holds empty_object_props (VObj []) /\
  unknown_shape (VObj []) = true /\
  isFlowLoaded initial = false /\ isFlowLoaded added_early = false /\
  loadFlow empty_object_props initial
  = Ok (toast error "Invalid flow structure" (setIsFlowLoaded true initial)) /\
  ~ load_starts_fresh empty_object_props initial /\
  ~ load_starts_fresh empty_object_props added_early.
Proof.
  split; [eexists; split; reflexivity|].
  repeat (split; [reflexivity|]). split.
  - intros (s' & fresh & Hs & Hf & _ & _ & Hh & _).
    vm_compute in Hs. injection Hs as <-.
    vm_compute in Hf. injection Hf as <-. discriminate Hh.
  - intros (s' & fresh & Hs & Hf & Hn & _).
    vm_compute in Hs. injection Hs as <-.
    vm_compute in Hf. injection Hf as <-. discriminate Hn.
Qed.

End StoredFacts.

(** ** What a JSON text keeps *)

Module JsonFacts.
Import Index Shape Wrapper JSFacts.

Lemma jsonify_arr xs : jsonify (VArr xs) = VArr (map json_item xs).
Proof. reflexivity. Qed.

Lemma jsonify_obj fs : jsonify (VObj fs) = VObj (json_fields fs).
Proof. reflexivity. Qed.

Lemma json_fields_cons k v fs :
  json_fields ((k, v) :: fs) =
  match v with
  | VUndefined => json_fields fs
  | _ => (k, jsonify v) :: json_fields fs
  end.
Proof. destruct v; reflexivity. Qed.

Lemma json_fields_kept k v fs :
  v <> VUndefined -> json_fields ((k, v) :: fs) = (k, jsonify v) :: json_fields fs.
Proof. intros H. rewrite json_fields_cons. destruct v; congruence. Qed.

Lemma lookup_json_fields_found k x fs :
  lookup k fs = Some x -> x <> VUndefined ->
  lookup k (json_fields fs) = Some (jsonify x).
Proof.
  intros H Hx. induction fs as [|[k' v'] fs IH]; [discriminate|].
  simpl in H. destruct (k' =? k)%string eqn:E.
  - injection H as ->. rewrite json_fields_kept by assumption.
    simpl. now rewrite E.
  - rewrite json_fields_cons.
    destruct v'; try (simpl; rewrite E); now apply IH.
Qed.

Lemma lookup_json_fields_none k fs :
  lookup k fs = None -> lookup k (json_fields fs) = None.
Proof.
  induction fs as [|[k' v'] fs IH]; [reflexivity|].
  simpl. destruct (k' =? k)%string eqn:E; [discriminate|].
  intros H. rewrite json_fields_cons.
  destruct v'; try (simpl; rewrite E); now apply IH.
Qed.

Lemma prop_jsonify_found fs k x :
  lookup k fs = Some x -> x <> VUndefined ->
  prop (jsonify (VObj fs)) k = Ok (jsonify x).
Proof.
  intros H Hx. rewrite jsonify_obj. simpl.
  now rewrite (lookup_json_fields_found k x fs H Hx).
Qed.

Lemma json_item_object fs : json_item (VObj fs) = VObj (json_fields fs).
Proof. reflexivity. Qed.

Lemma named_json_item lower fp bot :
  bot_ok bot = true -> named lower fp (json_item bot) = named lower fp bot.
Proof.
  destruct bot; try discriminate. simpl bot_ok.
  destruct (lookup "name" fields) as [[]|] eqn:E; try discriminate. intros _.
  rewrite json_item_object. unfold named, opt_prop. simpl.
  rewrite E.
  now rewrite (lookup_json_fields_found "name" (VStr s) fields E) by discriminate.
Qed.

(** Induction over values, with the hypothesis for every element of an
    array and every property of an object. *)
Lemma value_induction (P : value -> Prop) :
  P VUndefined -> P VNull -> (forall b, P (VBool b)) -> (forall n, P (VNum n)) ->
  (forall s, P (VStr s)) ->
  (forall xs, Forall P xs -> P (VArr xs)) ->
  (forall fs, Forall (fun kv => P (snd kv)) fs -> P (VObj fs)) ->
  forall v, P v.
Proof.
  intros Hu Hn Hb Hz Hs Ha Ho.
  fix IH 1. intros [| |b|n|s|xs|fs].
  - exact Hu.
  - exact Hn.
  - apply Hb.
  - apply Hz.
  - apply Hs.
  - apply Ha. induction xs as [|x xs IHxs]; constructor; [apply IH|exact IHxs].
  - apply Ho. induction fs as [|[k x] fs IHfs]; constructor;
      [apply IH|exact IHfs].
Qed.

Lemma truthy_jsonify v : truthy (jsonify v) = truthy v.
Proof. now destruct v. Qed.

Lemma nullish_jsonify v : nullish (jsonify v) = nullish v.
Proof. now destruct v. Qed.

Lemma strict_eq_jsonify_str v s :
  strict_eq (jsonify v) (VStr s) = strict_eq v (VStr s).
Proof. now destruct v. Qed.

Lemma toString_jsonify v : toString (jsonify v) = toString v.
Proof.
  induction v as [| | | | |xs IH|fs IH] using value_induction; try reflexivity.
  rewrite jsonify_arr. simpl. f_equal. rewrite map_map.
  apply map_ext_Forall. revert IH. apply Forall_impl.
  intros x Hx. destruct x; try reflexivity; exact Hx.
Qed.

Lemma json_clean_jsonify v : json_clean v = true -> jsonify v = v.
Proof.
  induction v as [| | | | |xs IH|fs IH] using value_induction;
    try reflexivity; try discriminate.
  - simpl json_clean. intros H. rewrite jsonify_arr. f_equal.
    induction IH as [|x xs Hx _ IHxs]; [reflexivity|].
    simpl in H. apply andb_prop in H as [Hc Hcs].
    simpl. rewrite (IHxs Hcs). f_equal.
    destruct x; try discriminate; now apply Hx.
  - simpl json_clean. intros H. rewrite jsonify_obj. f_equal.
    induction IH as [|[k x] fs Hx _ IHfs]; [reflexivity|].
    simpl in H. apply andb_prop in H as [Hc Hcs].
    rewrite json_fields_kept by (destruct x; discriminate).
    rewrite (IHfs Hcs). simpl in Hx. now rewrite (Hx Hc).
Qed.

Lemma primitive_jsonify v : primitive v = true -> jsonify v = v.
Proof. destruct v; try discriminate; reflexivity. Qed.

Lemma lookup_absent k fs :
  existsb (String.eqb k) (map fst fs) = false -> lookup k fs = None.
Proof.
  induction fs as [|[k' v] fs IH]; [reflexivity|]. simpl.
  intros H. apply orb_false_elim in H as [H1 H2].
  rewrite String.eqb_sym, H1. now apply IH.
Qed.

(** With every name once, the properties after the trip are those before
    it, less the ones that held [undefined]. *)
Lemma lookup_json_fields k fs :
  distinct (map fst fs) = true ->
  lookup k (json_fields fs) =
  match lookup k fs with
  | Some VUndefined | None => None
  | Some x => Some (jsonify x)
  end.
Proof.
  induction fs as [|[k' v] fs IH]; [reflexivity|].
  simpl. intros H. apply andb_prop in H as [Hk Hd].
  apply negb_true_iff in Hk.
  destruct (k' =? k)%string eqn:E.
  - apply String.eqb_eq in E. subst k'.
    rewrite json_fields_cons.
    destruct v; try (simpl; now rewrite String.eqb_refl).
    apply lookup_json_fields_none. now apply lookup_absent.
  - rewrite json_fields_cons.
    destruct v; try (simpl; rewrite E); now apply IH.
Qed.

Lemma keys_unique_distinct fs :
  keys_unique (VObj fs) = true -> distinct (map fst fs) = true.
Proof. simpl. intros H. now apply andb_prop in H as [H _]. Qed.

Lemma keys_unique_lookup k fs x :
  keys_unique (VObj fs) = true -> lookup k fs = Some x -> keys_unique x = true.
Proof.
  simpl. intros H. apply andb_prop in H as [_ H].
  induction fs as [|[k' v] fs IH]; [discriminate|].
  simpl in *. apply andb_prop in H as [Hv Hfs].
  destruct (k' =? k)%string; [intros [= <-]; exact Hv|now apply IH].
Qed.

(** Reading a property after the trip is reading it before and taking the
    trip with the result. *)
Lemma prop_jsonify v k :
  keys_unique v = true ->
  prop (jsonify v) k = (x <- prop v k ;; Ok (jsonify x)).
Proof.
  destruct v; try reflexivity. intros H.
  rewrite jsonify_obj. simpl.
  rewrite (lookup_json_fields k fields (keys_unique_distinct _ H)).
  destruct (lookup k fields) as [[]|]; reflexivity.
Qed.

Lemma keys_unique_prop v k x :
  keys_unique v = true -> prop v k = Ok x -> keys_unique x = true.
Proof.
  destruct v; simpl prop; try discriminate; try (intros _ [= <-]; reflexivity).
  intros H. destruct (lookup k fields) eqn:E.
  - intros [= <-]. now apply (keys_unique_lookup k fields).
  - intros [= <-]. reflexivity.
Qed.
End JsonFacts.

(** ** The serialized wrapper: theorems *)

Module SerializeFacts.
Import Index Wrapper Stored JSFacts JsonFacts.

Lemma bot_ok_name bot :
  bot_ok bot = true ->
  exists fs n, bot = VObj fs /\ lookup "name" fs = Some (VStr n).
Proof.
  destruct bot; try discriminate. simpl.
  destruct (lookup "name" fields) as [[]|] eqn:E; try discriminate.
  intros _. eauto.
Qed.

Lemma named_of_name lower fp fs n :
  lookup "name" fs = Some (VStr n) ->
  named lower fp (VObj fs) = (lower n =? lower fp)%string.
Proof. intros H. unfold named, opt_prop. simpl. now rewrite H. Qed.

Lemma findBotIndex_spec lower fp bots :
  forallb bot_ok bots = true ->
  exists r,
    findBotIndex lower fp bots = Ok r /\
    match r with
    | Some i => first_named lower fp bots i
    | None => forall bot, In bot bots -> named lower fp bot = false
    end.
Proof.
  induction bots as [|bot bots IH]; simpl.
  - intros _. exists None. split; [reflexivity|]. intros ? [].
  - intros H. apply andb_prop in H as [Hb Hbs].
    destruct (bot_ok_name bot Hb) as (fs & n & -> & Hn).
    simpl. rewrite Hn. simpl.
    pose proof (named_of_name lower fp fs n Hn) as Hnamed.
    destruct (lower n =? lower fp)%string eqn:E.
    + exists (Some 0%nat). split; [reflexivity|]. split.
      * exists (VObj fs). split; [reflexivity|exact Hnamed].
      * intros j b Hj. lia.
    + destruct (IH Hbs) as (r & Hr & Hspec). rewrite Hr. simpl.
      exists (option_map S r). split; [reflexivity|].
      destruct r as [i|]; simpl.
      * destruct Hspec as [(b & Hb' & Hnb) Hfirst]. split.
        -- exists b. split; assumption.
        -- intros [|j] b' Hj Hb''.
           ++ simpl in Hb''. injection Hb'' as <-. exact Hnamed.
           ++ simpl in Hb''. apply (Hfirst j b'); [lia|assumption].
      * intros b [<-|Hin]; [exact Hnamed|now apply Hspec].
Qed.

(** [bots] with the templates of the [i]-th entry replaced. *)
Lemma assignTemplatesAt_spec i T bots fs :
  nth_error bots i = Some (VObj fs) ->
  exists bots',
    assignTemplatesAt i T bots = Ok bots' /\
    nth_error bots' i = Some (VObj (set_field "templates" T fs)) /\
    (forall j, j <> i -> nth_error bots' j = nth_error bots j) /\
    (forallb bot_ok bots = true -> forallb bot_ok bots' = true).
Proof.
  revert bots. induction i as [|i IH]; intros [|bot bots] H; try discriminate.
  - simpl in H. injection H as ->. simpl.
    eexists. split; [reflexivity|]. split; [reflexivity|]. split.
    + intros [|j] Hj; [congruence|reflexivity].
    + simpl. intros Hok. apply andb_prop in Hok as [Hb Hbs].
      rewrite Hbs, andb_true_r.
      destruct (lookup "name" fs) as [[]|] eqn:E; try discriminate.
      now rewrite lookup_set_field_other, E by discriminate.
  - simpl in H. destruct (IH bots H) as (bots' & Ha & Hn & Hother & Hok).
    simpl. rewrite Ha. simpl. eexists. split; [reflexivity|].
    split; [exact Hn|]. split.
    + intros [|j] Hj; [reflexivity|]. simpl. apply Hother. congruence.
    + simpl. intros Hall. apply andb_prop in Hall as [Hb Hbs].
      now rewrite Hb, Hok.
Qed.

Lemma named_set_templates lower fp T fs :
  named lower fp (VObj (set_field "templates" T fs)) = named lower fp (VObj fs).
Proof.
  unfold named, opt_prop. simpl.
  now rewrite lookup_set_field_other by discriminate.
Qed.

Lemma named_botEntry lower fp T : named lower fp (botEntry fp T) = true.
Proof. unfold named. simpl. apply String.eqb_refl. Qed.

Lemma forallb_snoc {A} (f : A -> bool) xs x :
  forallb f xs = true -> f x = true -> forallb f (xs ++ [x]) = true.
Proof. intros H Hx. rewrite forallb_app, H. simpl. now rewrite Hx. Qed.

(** The entry that [storeCurrentFlow] writes the canvas into is the picked
    one. *)
Lemma storeCurrentFlow_spec p T multi bots :
  forallb bot_ok bots = true ->
  exists bots' i fs,
    storeCurrentFlow p T multi bots
    = Ok (JSON_stringify (VObj (set_field "chatbots" (VArr bots') multi))) /\
    nth_error bots' i = Some (VObj fs) /\
    lookup "templates" fs = Some T /\
    forallb bot_ok bots' = true /\
    picked p bots' i.
Proof.
  intros Hok. unfold storeCurrentFlow, picked.
  destruct (str_truthy (flowParam p)) eqn:Hfp.
  - set (fp := name_or "" (flowParam p)).
    destruct (findBotIndex_spec (lower p) fp bots Hok) as (r & Hr & Hspec).
    rewrite Hr. unfold bind at 2. destruct r as [i|].
    + destruct Hspec as [(bot & Hbot & Hnamed) Hfirst].
      assert (Hbok : bot_ok bot = true).
      { rewrite forallb_forall in Hok. apply Hok.
        now apply nth_error_In with i. }
      destruct (bot_ok_name bot Hbok) as (fs & n & -> & Hn).
      destruct (assignTemplatesAt_spec i T bots fs Hbot)
        as (bots' & Ha & Hi & Hother & Hok').
      rewrite Ha. simpl. exists bots', i, (set_field "templates" T fs).
      split; [reflexivity|]. split; [exact Hi|].
      split; [apply lookup_set_field_same|]. split; [now apply Hok'|].
      split.
      * eexists. split; [exact Hi|]. now rewrite named_set_templates.
      * intros j b Hj Hb. rewrite Hother in Hb by lia. now apply (Hfirst j).
    + simpl. exists (bots ++ [botEntry fp T]), (List.length bots).
      eexists. split; [reflexivity|].
      assert (Hlast : nth_error (bots ++ [botEntry fp T]) (List.length bots)
                      = Some (botEntry fp T)).
      { rewrite nth_error_app2 by lia. now rewrite Nat.sub_diag. }
      split; [exact Hlast|]. split; [reflexivity|].
      split; [now apply forallb_snoc|]. split.
      * eexists. split; [exact Hlast|]. apply named_botEntry.
      * intros j b Hj Hb. rewrite nth_error_app1 in Hb by assumption.
        apply Hspec. now apply nth_error_In with j.
  - destruct bots as [|bot bots].
    + simpl. eexists _, 0%nat, _. split; [reflexivity|].
      split; [reflexivity|]. split; [reflexivity|]. split; reflexivity.
    + simpl in Hok. apply andb_prop in Hok as [Hb Hbs].
      destruct (bot_ok_name bot Hb) as (fs & n & -> & Hn).
      simpl. eexists _, 0%nat, _. split; [reflexivity|].
      split; [reflexivity|]. split; [apply lookup_set_field_same|].
      split; [|reflexivity].
      simpl. rewrite Hbs, andb_true_r.
      now rewrite lookup_set_field_other, Hn by discriminate.
Qed.

Lemma picked_json_items p bots i :
  forallb bot_ok bots = true ->
  picked p bots i -> picked p (map json_item bots) i.
Proof.
  intros Hok. unfold picked.
  destruct (str_truthy (flowParam p)); [|auto].
  set (fp := name_or "" (flowParam p)).
  rewrite forallb_forall in Hok.
  intros [(bot & Hbot & Hnamed) Hfirst]. split.
  - exists (json_item bot). split.
    + now rewrite nth_error_map, Hbot.
    + rewrite named_json_item; [assumption|].
      apply Hok. now apply nth_error_In with i.
  - intros j b Hj Hb. rewrite nth_error_map in Hb.
    destruct (nth_error bots j) as [b0|] eqn:E; [|discriminate].
    injection Hb as <-. rewrite named_json_item.
    + now apply (Hfirst j).
    + apply Hok. now apply nth_error_In with j.
Qed.


Lemma botName_of_param p :
  str_truthy (flowParam p) = true -> botName p = name_or "" (flowParam p).
Proof.
  unfold botName, str_truthy, str_or. destruct (flowParam p) as [fp|]; simpl.
  - destruct (fp =? "")%string; [discriminate|reflexivity].
  - discriminate.
Qed.








End SerializeFacts.

(** ** Export followed by import: theorems *)

Module RoundTripFacts.
Import Index Shape Wrapper RoundTrip JSFacts JsonFacts.

Lemma edgeLabel_jsonify pattern isRegex :
  edgeLabel (jsonify pattern) (jsonify isRegex) = jsonify (edgeLabel pattern isRegex).
Proof.
  unfold edgeLabel.
  rewrite !truthy_jsonify, strict_eq_jsonify_str.
  destruct (truthy pattern); [|reflexivity].
  destruct (truthy isRegex && strict_eq pattern (VStr ".*")); reflexivity.
Qed.

Lemma edgeId_jsonify a b c :
  edgeId (jsonify a) (jsonify b) (jsonify c) = edgeId a b c.
Proof. unfold edgeId. now rewrite !toString_jsonify. Qed.

Lemma json_item_cases r :
  r = VUndefined \/ json_item r = jsonify r.
Proof. destruct r; auto. Qed.

Lemma edgesOfRoute_jsonify et t r :
  keys_unique t = true -> keys_unique r = true ->
  edgesOfRoute et (jsonify t) (json_item r)
  = (es <- edgesOfRoute et t r ;; Ok (map edge_jsonified es)).
Proof.
  intros Ht Hr. destruct (json_item_cases r) as [-> | ->]; [reflexivity|].
  unfold edgesOfRoute.
  rewrite !(prop_jsonify r) by assumption. rewrite (prop_jsonify t) by assumption.
  destruct (prop r "connectedTo") as [c|e]; [|reflexivity].
  cbn [bind]. rewrite truthy_jsonify.
  destruct (truthy c); [|reflexivity].
  destruct (prop r "pattern") as [pat|e]; [|reflexivity].
  destruct (prop r "isRegex") as [rx|e]; [|reflexivity].
  destruct (prop t "id") as [tid|e]; [|reflexivity].
  destruct (prop r "id") as [rid|e]; [|reflexivity].
  cbn [bind map]. unfold edge_jsonified.
  cbn [Edge.id Edge.source Edge.sourceHandle Edge.target Edge.targetHandle
       Edge.type Edge.animated Edge.label Edge.isRegex Edge.edgeType].
  now rewrite edgeId_jsonify, edgeLabel_jsonify.
Qed.

Lemma edgesOfRoutes_jsonify et t rs :
  keys_unique t = true -> forallb keys_unique rs = true ->
  mapM (edgesOfRoute et (jsonify t)) (map json_item rs)
  = (ess <- mapM (edgesOfRoute et t) rs ;; Ok (map (map edge_jsonified) ess)).
Proof.
  intros Ht. induction rs as [|r rs IH]; [reflexivity|].
  simpl. intros H. apply andb_prop in H as [Hr Hrs].
  rewrite (edgesOfRoute_jsonify et t r Ht Hr), (IH Hrs).
  destruct (edgesOfRoute et t r); [|reflexivity]. simpl.
  destruct (mapM (edgesOfRoute et t) rs); reflexivity.
Qed.

Lemma edgesOfTemplate_jsonify et t :
  keys_unique t = true ->
  edgesOfTemplate et (jsonify t)
  = (es <- edgesOfTemplate et t ;; Ok (map edge_jsonified es)).
Proof.
  intros Ht. unfold edgesOfTemplate. rewrite (prop_jsonify t) by assumption.
  destruct (prop t "routes") as [routes|e] eqn:E; [|reflexivity].
  cbn [bind]. rewrite nullish_jsonify.
  destruct (nullish routes); [reflexivity|].
  pose proof (keys_unique_prop t "routes" routes Ht E) as Hroutes.
  destruct routes; try reflexivity.
  rewrite jsonify_arr. cbn [items_of bind].
  rewrite (edgesOfRoutes_jsonify et t items Ht Hroutes).
  destruct (mapM (edgesOfRoute et t) items); [|reflexivity].
  simpl. now rewrite concat_map.
Qed.

Lemma edgesOfTemplates_jsonify et ts :
  forallb keys_unique ts = true ->
  edgesOfTemplates et (map jsonify ts)
  = (es <- edgesOfTemplates et ts ;; Ok (map edge_jsonified es)).
Proof.
  intros H. unfold edgesOfTemplates.
  assert (Hm : mapM (edgesOfTemplate et) (map jsonify ts)
               = (ess <- mapM (edgesOfTemplate et) ts ;;
                  Ok (map (map edge_jsonified) ess))).
  { induction ts as [|t ts IH]; [reflexivity|].
    simpl in H. apply andb_prop in H as [Ht Hts].
    simpl. rewrite (edgesOfTemplate_jsonify et t Ht), (IH Hts).
    destruct (edgesOfTemplate et t); [|reflexivity]. simpl.
    destruct (mapM (edgesOfTemplate et) ts); reflexivity. }
  rewrite Hm. destruct (mapM (edgesOfTemplate et) ts); [|reflexivity].
  simpl. now rewrite concat_map.
Qed.

(** The exported template has the routes and the id of the node's
    template, so it gives the same edges. *)
Lemma edgesOfTemplate_exported et n :
  is_object (Node.data n) = true ->
  edgesOfTemplate et (templateOfNode n) = edgesOfTemplate et (Node.data n).
Proof.
  unfold templateOfNode. destruct (Node.data n) as [| | | | | |fs]; try discriminate.
  intros _. simpl spread.
  assert (Hp : forall k, k <> "position" ->
                 prop (VObj (set_field "position" (Node.position n) fs)) k
                 = prop (VObj fs) k).
  { intros k Hk. now apply prop_set_other. }
  unfold edgesOfTemplate. rewrite (Hp "routes") by discriminate.
  destruct (prop (VObj fs) "routes") as [routes|]; [|reflexivity].
  cbn [bind]. destruct (nullish routes); [reflexivity|].
  destruct (items_of routes) as [rs|]; [|reflexivity].
  cbn [bind].
  assert (Hm : mapM (edgesOfRoute et
                       (VObj (set_field "position" (Node.position n) fs))) rs
               = mapM (edgesOfRoute et (VObj fs)) rs).
  { induction rs as [|r rs IH]; [reflexivity|]. simpl. rewrite IH.
    unfold edgesOfRoute. now rewrite (Hp "id") by discriminate. }
  now rewrite Hm.
Qed.

Lemma map_fst_set_field k v fs :
  map fst (set_field k v fs)
  = if existsb (String.eqb k) (map fst fs) then map fst fs else map fst fs ++ [k].
Proof.
  induction fs as [|[k' v'] fs IH]; [reflexivity|]. simpl.
  rewrite (String.eqb_sym k k'). destruct (k' =? k)%string eqn:E; simpl.
  - apply String.eqb_eq in E. now subst.
  - rewrite IH. now destruct (existsb (String.eqb k) (map fst fs)).
Qed.

Lemma distinct_snoc ks k :
  distinct ks = true -> existsb (String.eqb k) ks = false ->
  distinct (ks ++ [k]) = true.
Proof.
  induction ks as [|k' ks IH]; [reflexivity|]. simpl.
  intros H Hk. apply andb_prop in H as [H1 H2].
  apply orb_false_elim in Hk as [Hk1 Hk2].
  rewrite (IH H2 Hk2), andb_true_r. rewrite existsb_app. simpl.
  apply negb_true_iff in H1. rewrite H1. simpl.
  now rewrite String.eqb_sym, Hk1.
Qed.

Lemma keys_unique_set_field k v fs :
  keys_unique (VObj fs) = true -> keys_unique v = true ->
  keys_unique (VObj (set_field k v fs)) = true.
Proof.
  simpl. intros H Hv. apply andb_prop in H as [Hd Hall].
  apply andb_true_intro. split.
  - rewrite map_fst_set_field.
    destruct (existsb (String.eqb k) (map fst fs)) eqn:E;
      [assumption|now apply distinct_snoc].
  - clear Hd. induction fs as [|[k' v'] fs IH]; simpl.
    + now rewrite Hv.
    + simpl in Hall. apply andb_prop in Hall as [H1 H2].
      destruct (k' =? k)%string; simpl.
      * now rewrite Hv, H2.
      * now rewrite H1, IH.
Qed.

Lemma keys_unique_exported n :
  node_ok n -> keys_unique (templateOfNode n) = true.
Proof.
  intros (_ & Hobj & Hu & _ & _ & _ & Hpu & _). unfold templateOfNode.
  destruct (Node.data n); try discriminate.
  now apply keys_unique_set_field.
Qed.

Lemma nodeOfTemplate_exported n :
  node_ok n -> nodeOfTemplate (jsonify (templateOfNode n)) = Ok (reimported n).
Proof.
  intros Hok. pose proof (keys_unique_exported n Hok) as Hu.
  destruct Hok as (Hty & Hobj & _ & Hid & Hidc & Hpo & _ & Hpc).
  unfold nodeOfTemplate. rewrite !prop_jsonify by assumption.
  unfold templateOfNode in *.
  destruct (Node.data n) as [| | | | | |fs] eqn:Hd; try discriminate.
  simpl spread. rewrite prop_set_same, prop_set_other by discriminate.
  unfold opt_prop in Hid.
  destruct (prop_total (VObj fs) "id" eq_refl) as [id E].
  rewrite E in *. subst id. cbn [bind].
  rewrite (json_clean_jsonify _ Hidc), (json_clean_jsonify _ Hpc).
  unfold reimported, templateOfNode, or_else. rewrite Hd. simpl spread.
  destruct (Node.position n); try discriminate. simpl. now rewrite Hty.
Qed.

Lemma exported_items ns :
  map json_item (map templateOfNode ns) = map jsonify (map templateOfNode ns).
Proof. rewrite !map_map. apply map_ext. reflexivity. Qed.

Lemma nodes_of_exported ns :
  Forall node_ok ns ->
  mapM nodeOfTemplate (map jsonify (map templateOfNode ns))
  = Ok (map reimported ns).
Proof.
  induction 1 as [|n ns Hn _ IH]; [reflexivity|].
  cbn [map mapM]. now rewrite (nodeOfTemplate_exported n Hn), IH.
Qed.

Lemma keys_unique_all_exported ns :
  Forall node_ok ns -> forallb keys_unique (map templateOfNode ns) = true.
Proof.
  induction 1 as [|n ns Hn _ IH]; [reflexivity|].
  cbn [map forallb]. now rewrite (keys_unique_exported n Hn), IH.
Qed.

Lemma edges_of_exported et ns :
  Forall node_ok ns ->
  edgesOfTemplates et (map templateOfNode ns)
  = edgesOfTemplates et (map Node.data ns).
Proof.
  intros H. unfold edgesOfTemplates.
  assert (Hm : mapM (edgesOfTemplate et) (map templateOfNode ns)
               = mapM (edgesOfTemplate et) (map Node.data ns)).
  { induction H as [|n ns Hn _ IH]; [reflexivity|].
    cbn [map mapM]. rewrite IH, edgesOfTemplate_exported; [reflexivity|].
    now destruct Hn as (_ & Hobj & _). }
  now rewrite Hm.
Qed.

Lemma importedGraph_exported et ns es :
  Forall node_ok ns ->
  edgesOfTemplates et (map Node.data ns) = Ok es ->
  importedGraph et
    (JSON_stringify (VObj [("templates", VArr (map templateOfNode ns));
                           ("version", VStr "1.0")]))
  = Ok (map reimported ns, map edge_jsonified es).
Proof.
  intros Hok Hes. unfold importedGraph, JSON_stringify. cbn [JSON_parse bind].
  rewrite (prop_jsonify_found _ "templates" (VArr (map templateOfNode ns)));
    [|reflexivity|discriminate].
  cbn [bind]. rewrite jsonify_arr. cbn [items_of bind].
  rewrite exported_items, (nodes_of_exported ns Hok). cbn [bind].
  rewrite (edgesOfTemplates_jsonify et _ (keys_unique_all_exported ns Hok)).
  rewrite (edges_of_exported et ns Hok), Hes. reflexivity.
Qed.

Lemma edge_plain_jsonified e : edge_plain e = true -> edge_jsonified e = e.
Proof.
  unfold edge_plain. intros H.
  repeat (apply andb_prop in H as [H ?]).
  destruct e. unfold edge_jsonified. simpl in *.
  now rewrite !primitive_jsonify by assumption.
Qed.

(** C1, as amended.  For nodes as the page builds them (type "template",
    the id of their template object, an object for a position, property
    names not repeated) whose routes give the edges [es]: importing the file
    that [exportFlow] wrote puts on the canvas nodes with the same ids,
    types and positions, whose template is the exported one (the node's
    template with [position] set to the node's position, as a JSON text
    keeps it), and the edges [es] with their values as a JSON text keeps
    them, which are [es] themselves when endpoints, handles, labels and
    flags are primitives; and it shows the success toast. *)
Theorem export_then_import_keeps_the_graph
  (s0 render s : State) (es : list Edge.t) :
  Forall node_ok (nodes s0) ->
  edgesOfTemplates (edgeType render) (map Node.data (nodes s0)) = Ok es ->
  let s' := round_trip s0 render s in
  nodes s' = map reimported (nodes s0) /\
  map Node.id (nodes s') = map Node.id (nodes s0) /\
  map Node.type (nodes s') = map Node.type (nodes s0) /\
  map Node.position (nodes s') = map Node.position (nodes s0) /\
  map Node.data (nodes s')
  = map (fun n => jsonify (templateOfNode n)) (nodes s0) /\
  edges s' = map edge_jsonified es /\
  (forallb edge_plain es = true -> edges s' = es) /\
  toasts s' = toasts s ++ [imported].
Proof.
  intros Hok Hes.
  assert (Hrt : round_trip s0 render s
                = toast success "Flow imported successfully"
                    (saveToHistory render
                       (setEdges (fun _ => map edge_jsonified es)
                          (setNodes (fun _ => map reimported (nodes s0)) s)))).
  { unfold round_trip, handleFileImport, exportFlow, currentTemplates.
    cbn [fst]. now rewrite (importedGraph_exported _ _ es Hok Hes). }
  cbn zeta. rewrite Hrt. cbn.
  split; [reflexivity|].
  rewrite !map_map. cbn.
  repeat (split; [reflexivity|]). split; [|reflexivity].
  intros Hplain. rewrite <- (map_id es) at 2. apply map_ext_in.
  intros e He. apply edge_plain_jsonified.
  rewrite forallb_forall in Hplain. now apply Hplain.
Qed.

Lemma export_then_import_keeps_the_graph_witness :
  Forall node_ok (nodes Examples.loaded) /\
  edgesOfTemplates Default (map Node.data (nodes Examples.loaded))
  = Ok [Routes.r1_edge] /\
  let s' := round_trip Examples.loaded Examples.loaded Examples.loaded in
  nodes s' = map reimported (nodes Examples.loaded) /\
  map Node.id (nodes s') = map Node.id (nodes Examples.loaded) /\
  map Node.type (nodes s') = map Node.type (nodes Examples.loaded) /\
  map Node.position (nodes s') = map Node.position (nodes Examples.loaded) /\
  map Node.data (nodes s')
  = map (fun n => jsonify (templateOfNode n)) (nodes Examples.loaded) /\
  edges s' = map edge_jsonified [Routes.r1_edge] /\
  (forallb edge_plain [Routes.r1_edge] = true -> edges s' = [Routes.r1_edge]) /\
  toasts s' = toasts Examples.loaded ++ [imported].
Proof.
  assert (H : Forall node_ok (nodes Examples.loaded)).
  { repeat constructor. }
  split; [exact H|]. split; [reflexivity|].
  exact (export_then_import_keeps_the_graph Examples.loaded Examples.loaded
           Examples.loaded [Routes.r1_edge] H eq_refl).
Defined.

(** C1 fails as stated: a template that was just added has no [position]
    of its own, and after the trip through the file its data has one, so the
    imported node is not the exported node. *)
Lemma reimported_template_gains_a_position :
  Forall node_ok (nodes UndoRedo.one_added) /\
  ~ round_trip_is_identity UndoRedo.one_added UndoRedo.one_added
      UndoRedo.one_added.
Proof.
  split; [repeat constructor|].
  intros [Hn _]. vm_compute in Hn. discriminate Hn.
Qed.
End RoundTripFacts.

(** ** The history along a run *)

Module RunFacts.
Import Index Run.

Lemma at_index_last {A} (xs : list A) (x : A) :
  at_index (xs ++ [x]) (Z.of_nat (List.length (xs ++ [x])) - 1) = Some x.
Proof.
  unfold at_index. rewrite length_app. cbn [List.length].
  replace (Z.of_nat (List.length xs + 1) - 1) with (Z.of_nat (List.length xs))
    by lia.
  replace (Z.of_nat (List.length xs) <? 0) with false
    by (symmetry; apply Z.ltb_ge; lia).
  rewrite Nat2Z.id, nth_error_app2 by lia. now rewrite Nat.sub_diag.
Qed.

Lemma at_index_first {A} (xs : list A) (x : A) n i :
  0 <= i < Z.of_nat n -> (n <= List.length xs)%nat ->
  at_index (firstn n xs ++ [x]) i = at_index xs i.
Proof.
  intros Hi Hn. unfold at_index. destruct (i <? 0); [reflexivity|].
  assert (Hlt : (Z.to_nat i < n)%nat) by lia.
  rewrite nth_error_app1 by (rewrite length_firstn; lia).
  clear Hi. revert xs Hn Hlt. generalize (Z.to_nat i) as k.
  induction n as [|n IH]; intros k xs Hn Hlt; [lia|].
  destruct xs as [|y xs]; [cbn in Hn; lia|].
  destruct k as [|k]; [reflexivity|].
  cbn [firstn nth_error]. apply IH; cbn in Hn; lia.
Qed.

(** X2.  [saveToHistory] truncates the stack after the pointer and appends
    the canvas of the render the callback came from: the new stack is the
    first [historyIndex + 1] entries of that render's stack followed by its
    nodes and edges.  When that render's pointer is -1 on an empty stack or
    on an entry, the new stack has [historyIndex + 2] entries, and those up
    to the pointer are the ones that were there, so the entries after the
    pointer are gone.  The pointer is left on the last entry, which is the
    canvas from before the updates queued by the same handler; the canvas
    itself is not touched. *)
Theorem saveToHistory_records_the_render (render s : State) :
  let s' := saveToHistory render s in
  history s'
  = slice0 (history render) (historyIndex render + 1) ++ [canvas_of render] /\
  (pointer_ok render ->
   Z.of_nat (List.length (history s')) = historyIndex render + 2 /\
   forall i, 0 <= i <= historyIndex render ->
             at_index (history s') i = at_index (history render) i) /\
  historyIndex s' = Z.of_nat (List.length (history s')) - 1 /\
  at_index (history s') (historyIndex s') = Some (canvas_of render) /\
  nodes s' = nodes s /\ edges s' = edges s.
Proof.
  cbn zeta. unfold saveToHistory.
  cbn [historyIndex history nodes edges setHistoryIndex setHistory].
  fold (canvas_of render).
  split; [reflexivity|]. split.
  - intros [[Hi Hh]|Hp].
    + rewrite Hi, Hh. cbn. split; [reflexivity|]. intros i Hr. lia.
    + unfold slice0.
      replace (historyIndex render + 1 <? 0) with false
        by (symmetry; apply Z.ltb_ge; lia).
      split.
      * rewrite length_app, length_firstn. cbn [List.length]. lia.
      * intros i Hr. apply at_index_first; lia.
  - split; [reflexivity|]. split; [|split; reflexivity].
    apply (at_index_last
             (slice0 (history render) (historyIndex render + 1))
             (canvas_of render)).
Qed.

(** An added template is on the canvas but not in the entry the pointer is
    left on. *)
Lemma addTemplate_records_the_canvas_before (type : string) (now x y : Z)
  (s : State) :
  let s' := addTemplate type now x y s in
  List.length (nodes s') = S (List.length (nodes s)) /\
  at_index (history s') (historyIndex s') = Some (canvas_of s).
Proof.
  cbn zeta. split.
  - cbn. rewrite length_app. cbn. lia.
  - unfold addTemplate, saveToHistory.
    cbn [historyIndex history toast setHistoryIndex setHistory].
    apply (at_index_last (slice0 (history s) (historyIndex s + 1)) (canvas_of s)).
Qed.

Lemma pointer_ok_saveToHistory render s : pointer_ok (saveToHistory render s).
Proof.
  unfold pointer_ok, saveToHistory. right.
  cbn [historyIndex history setHistoryIndex setHistory].
  rewrite length_app. cbn [List.length]. lia.
Qed.

Lemma pointer_ok_bounds s :
  pointer_ok s -> -1 <= historyIndex s < Z.of_nat (List.length (history s)).
Proof. intros [[-> ->]|H]; [cbn|]; lia. Qed.

Lemma pointer_ok_same s s' :
  history s' = history s -> historyIndex s' = historyIndex s ->
  pointer_ok s -> pointer_ok s'.
Proof. unfold pointer_ok. now intros -> ->. Qed.

Lemma pointer_ok_toast k msg s : pointer_ok s -> pointer_ok (toast k msg s).
Proof. now apply pointer_ok_same. Qed.

Lemma bind_Ok {A B} (r : result A) (k : A -> result B) y :
  (x <- r ;; k x) = Ok y -> exists x, r = Ok x /\ k x = Ok y.
Proof. destruct r; [eauto|discriminate]. Qed.

(** Reads the successful steps off a chain of binds that ended well. *)
Ltac unbind H :=
  repeat (let x := fresh "x" in apply bind_Ok in H as (x & _ & H)).

(** Closes a goal about the state a handler returned. *)
Ltac returned H := injection H as <-.

Lemma pointer_ok_loadFlow p s s' :
  loadFlow p s = Ok s' -> pointer_ok s -> pointer_ok s'.
Proof.
  unfold loadFlow. intros H Hs.
  destruct (data p) as [cfg|].
  - destruct (negb (isFlowLoaded s)); [|returned H; exact Hs].
    destruct (flow_json cfg) as [t|];
      [|returned H; apply pointer_ok_saveToHistory].
    destruct (text_truthy t);
      [|returned H; apply pointer_ok_saveToHistory].
    destruct (JSON_parse t) as [flowData|e];
      [|returned H; apply pointer_ok_toast; exact Hs].
    apply bind_Ok in H as ([[flow name] warn] & _ & H).
    apply bind_Ok in H as (templates & _ & H).
    destruct (truthy flow && truthy templates).
    + unbind H. returned H. apply pointer_ok_toast, pointer_ok_saveToHistory.
    + returned H. apply pointer_ok_toast.
      destruct warn; [apply pointer_ok_toast|]; exact Hs.
  - destruct (negb (isLoading p) && negb (isFlowLoaded s));
      returned H; [apply pointer_ok_saveToHistory|exact Hs].
Qed.

Lemma pointer_ok_after e s s' :
  after e s = Ok s' -> pointer_ok s -> pointer_ok s'.
Proof.
  destruct e; cbn [after]; intros H Hs.
  - now apply (pointer_ok_loadFlow p s).
  - unfold onConnect in H. unbind H. returned H. apply pointer_ok_saveToHistory.
  - unfold onEdgesDelete in H. unbind H. returned H.
    apply pointer_ok_saveToHistory.
  - returned H. exact Hs.
  - returned H. apply pointer_ok_toast, pointer_ok_saveToHistory.
  - unfold updateTemplate in H. unbind H. returned H.
    apply pointer_ok_saveToHistory.
  - unfold deleteTemplate in H.
    destruct (negb (truthy (selectedTemplate s))); [returned H; exact Hs|].
    unbind H. returned H. apply pointer_ok_toast, pointer_ok_saveToHistory.
  - unfold handleUndo in H. destruct (historyIndex s >? 0) eqn:E;
      [|returned H; exact Hs].
    destruct (at_index (history s) (historyIndex s - 1)); [|discriminate].
    returned H. apply Z.gtb_lt in E. apply pointer_ok_bounds in Hs.
    right. cbn. lia.
  - unfold handleRedo in H.
    destruct (historyIndex s <? Z.of_nat (List.length (history s)) - 1) eqn:E;
      [|returned H; exact Hs].
    destruct (at_index (history s) (historyIndex s + 1)); [|discriminate].
    returned H. apply Z.ltb_lt in E. apply pointer_ok_bounds in Hs.
    right. cbn. lia.
  - returned H. exact Hs.
  - returned H. unfold handleFileImport.
    destruct file as [content|]; [|exact Hs].
    destruct (importedGraph (edgeType render) content) as [[ns es]|];
      apply pointer_ok_toast; [apply pointer_ok_saveToHistory|exact Hs].
  - returned H. apply pointer_ok_toast, pointer_ok_saveToHistory.
  - returned H. exact Hs.
  - unfold saveCurrentFlowJson in H. unbind H. returned H. exact Hs.
  - unfold previewCurrentFlowJson in H.
    apply bind_Ok in H as (s1 & Hs1 & H).
    unfold saveCurrentFlowJson in Hs1. unbind Hs1. returned Hs1.
    destruct (not_local p); returned H; exact Hs.
  - unfold settle in H. destruct (nth_error (inFlight s) i).
    + returned H. destruct how; exact Hs.
    + returned H. exact Hs.
  - returned H. exact Hs.
  - returned H. exact Hs.
Qed.

Lemma reachable_pointer_ok (s : State) : reachable s -> pointer_ok s.
Proof.
  induction 1 as [|e s s' _ IH H].
  - left. split; reflexivity.
  - now apply (pointer_ok_after e s s').
Qed.

Lemma at_index_some {A} (xs : list A) i :
  0 <= i < Z.of_nat (List.length xs) -> exists x, at_index xs i = Some x.
Proof.
  intros H. unfold at_index.
  replace (i <? 0) with false by (symmetry; apply Z.ltb_ge; lia).
  destruct (nth_error xs (Z.to_nat i)) eqn:E; [eauto|].
  apply nth_error_None in E. lia.
Qed.

(** X1.  In every state the page reaches, the pointer is -1 and the stack
    is empty, or the pointer is the index of an entry of the stack. *)
Theorem pointer_stays_on_the_stack (s : State) :
  reachable s ->
  (historyIndex s = -1 /\ history s = [])
  \/ exists entry, 0 <= historyIndex s
                   /\ at_index (history s) (historyIndex s) = Some entry.
Proof.
  intros Hr.
  assert (Hp : pointer_ok s).
  { induction Hr as [|e s s' Hs IH Hstep].
    - left. split; reflexivity.
    - exact (pointer_ok_after e s s' Hstep IH). }
  destruct Hp as [Hp|Hp]; [now left|right].
  destruct (at_index_some (history s) (historyIndex s) Hp) as [x Hx].
  exists x. split; [lia|exact Hx].
Qed.

(** X3.  In every state the page reaches, undo and redo find the entry
    they read: neither raises. *)
Theorem undo_and_redo_do_not_raise (s : State) :
  reachable s ->
  (exists s', handleUndo s = Ok s') /\ (exists s', handleRedo s = Ok s').
Proof.
  intros Hr. pose proof (reachable_pointer_ok s Hr) as Hp.
  apply pointer_ok_bounds in Hp. split.
  - unfold handleUndo. destruct (historyIndex s >? 0) eqn:E; [|eauto].
    apply Z.gtb_lt in E.
    destruct (at_index_some (history s) (historyIndex s - 1)) as [x ->];
      [lia|eauto].
  - unfold handleRedo.
    destruct (historyIndex s <? Z.of_nat (List.length (history s)) - 1) eqn:E;
      [|eauto].
    apply Z.ltb_lt in E.
    destruct (at_index_some (history s) (historyIndex s + 1)) as [x ->];
      [lia|eauto].
Qed.

Lemma undo_and_redo_do_not_raise_witness :
  reachable UndoRedo.one_added /\
  (exists s', handleUndo UndoRedo.one_added = Ok s') /\
  (exists s', handleRedo UndoRedo.one_added = Ok s').
Proof.
  assert (H : reachable UndoRedo.one_added).
  { apply (reachable_after (TemplateAdded "text" 1700000000000 120 80)
             UndoRedo.started); [|reflexivity].
    apply (reachable_after (Loaded UndoRedo.no_record) initial);
      [apply reachable_initial|reflexivity]. }
  split; [exact H|]. exact (undo_and_redo_do_not_raise UndoRedo.one_added H).
Defined.

Lemma pointer_stays_on_the_stack_witness :
  reachable UndoRedo.started /\
  ((historyIndex UndoRedo.started = -1 /\ history UndoRedo.started = [])
   \/ exists entry,
        0 <= historyIndex UndoRedo.started
        /\ at_index (history UndoRedo.started) (historyIndex UndoRedo.started)
           = Some entry).
Proof.
  assert (H : reachable UndoRedo.started).
  { apply (reachable_after (Loaded UndoRedo.no_record) initial);
      [apply reachable_initial|reflexivity]. }
  split; [exact H|]. exact (pointer_stays_on_the_stack UndoRedo.started H).
Defined.

End RunFacts.

(** ** Auto-layout and edge style: theorems *)

Module LayoutFacts.
Import Index Layout.

Lemma layout_from_fields i ns :
  map Node.id (layout_from i ns) = map Node.id ns /\
  map Node.type (layout_from i ns) = map Node.type ns /\
  map Node.data (layout_from i ns) = map Node.data ns /\
  map Node.position (layout_from i ns) = map cell (seq i (List.length ns)).
Proof.
  revert i. induction ns as [|n ns IH]; intros i; [repeat split|].
  destruct (IH (S i)) as (H1 & H2 & H3 & H4).
  cbn [layout_from map List.length seq]. rewrite H1, H2, H3, H4.
  repeat split.
Qed.

(** Two indices share a cell only if they are the same index. *)
Lemma cell_injective i j : cell i = cell j -> i = j.
Proof.
  unfold cell. intros H. injection H as Hx Hy.
  pose proof (Z.div_mod (Z.of_nat i) 3). pose proof (Z.div_mod (Z.of_nat j) 3).
  lia.
Qed.

Lemma NoDup_map_injective {A B} (f : A -> B) (xs : list A) :
  (forall x y, f x = f y -> x = y) -> NoDup xs -> NoDup (map f xs).
Proof.
  intros Hinj. induction 1 as [|x xs Hx _ IH]; cbn [map]; constructor.
  - intros Hin. apply in_map_iff in Hin as (y & Hy & Hin).
    apply Hinj in Hy. now subst.
  - exact IH.
Qed.

(** X4.  [autoLayout] keeps the nodes, their order, ids, types and
    templates, puts the node at index [i] in column [i mod 3] and row
    [i / 3] of a grid of 300 by 200, so that no two nodes share a position,
    and leaves edges and selection alone. *)
Theorem autoLayout_puts_the_nodes_on_a_grid (s : State) :
  let s' := autoLayout s in
  map Node.id (nodes s') = map Node.id (nodes s) /\
  map Node.type (nodes s') = map Node.type (nodes s) /\
  map Node.data (nodes s') = map Node.data (nodes s) /\
  map Node.position (nodes s') = map cell (seq 0 (List.length (nodes s))) /\
  NoDup (map Node.position (nodes s')) /\
  edges s' = edges s /\ selectedTemplate s' = selectedTemplate s.
Proof.
  cbn zeta. unfold autoLayout.
  cbn [nodes edges selectedTemplate toast saveToHistory setHistoryIndex
       setHistory setNodes].
  destruct (layout_from_fields 0 (nodes s)) as (H1 & H2 & H3 & H4).
  repeat (split; [assumption|]). split; [|split; reflexivity].
  rewrite H4. apply NoDup_map_injective; [|apply seq_NoDup].
  intros i j. apply cell_injective.
Qed.

Lemma with_type_styled ty e : styled ty (Edge.with_type ty e).
Proof. split; reflexivity. Qed.

Lemma with_type_of_styled ty e : styled ty e -> Edge.with_type ty e = e.
Proof. destruct e. unfold styled. cbn. now intros [-> ->]. Qed.

Lemma with_type_twice ty ty' e :
  Edge.with_type ty (Edge.with_type ty' e) = Edge.with_type ty e.
Proof. reflexivity. Qed.

(** X5.  [toggleEdgeType] moves to the next of the four styles and redraws
    every edge in it, changing nothing else of an edge and nothing of the
    nodes; it writes no history entry; the fourth toggle brings the first
    style back, and with it the edges if they were drawn in that style. *)
Theorem toggleEdgeType_restyles_every_edge (s : State) :
  let s' := toggleEdgeType s in
  edgeType s' = nextEdgeType (edgeType s) /\
  edgeType s' <> edgeType s /\
  Forall (styled (edgeType s')) (edges s') /\
  map Edge.id (edges s') = map Edge.id (edges s) /\
  map RoundTrip.edge_ends (edges s') = map RoundTrip.edge_ends (edges s) /\
  nodes s' = nodes s /\ history s' = history s /\
  historyIndex s' = historyIndex s /\
  let s4 := toggleEdgeType (toggleEdgeType (toggleEdgeType s')) in
  edgeType s4 = edgeType s /\
  (Forall (styled (edgeType s)) (edges s) -> edges s4 = edges s).
Proof.
  cbn zeta. unfold toggleEdgeType.
  cbn [nodes edges edgeType history historyIndex toast setEdges setEdgeType].
  split; [reflexivity|]. split; [now destruct (edgeType s)|].
  split.
  { apply Forall_forall. intros e He. apply in_map_iff in He as (e0 & <- & _).
    apply with_type_styled. }
  rewrite !map_map. split; [reflexivity|]. split; [reflexivity|].
  repeat (split; [reflexivity|]).
  split; [now destruct (edgeType s)|].
  intros Hst.
  replace (nextEdgeType (nextEdgeType (nextEdgeType (nextEdgeType (edgeType s)))))
    with (edgeType s) by now destruct (edgeType s).
  rewrite <- (map_id (edges s)) at 2. apply map_ext_in. intros e He.
  rewrite !with_type_twice. apply with_type_of_styled.
  rewrite Forall_forall in Hst. now apply Hst.
Qed.

End LayoutFacts.

(** ** The settings tab: theorems *)

Module SettingsViewFacts.
Import Index SettingsTab SettingsView JSFacts.

(** With declared settings the tab works on an object: the template's own
    settings, or the empty object. *)
Lemma declared_settings fs :
  settings_declared (VObj fs) = true ->
  exists gs,
    prop (VObj fs) "settings" = Ok (opt_prop (VObj fs) "settings") /\
    or_else (opt_prop (VObj fs) "settings") (VObj []) = VObj gs /\
    spread (opt_prop (VObj fs) "settings") = gs.
Proof.
  unfold settings_declared. intros H.
  rewrite (StoredFacts.prop_opt_prop (VObj fs) "settings" eq_refl).
  destruct (opt_prop (VObj fs) "settings"); try discriminate;
    eexists; repeat split.
Qed.

Lemma setting_declared fs gs k :
  or_else (opt_prop (VObj fs) "settings") (VObj []) = VObj gs ->
  setting (VObj fs) k = prop (VObj gs) k.
Proof.
  intros H. unfold setting, settings_of.
  rewrite (StoredFacts.prop_opt_prop (VObj fs) "settings" eq_refl).
  cbn [bind]. now rewrite H.
Qed.

(** The settings of a template whose [settings] property was just
    written. *)
Lemma setting_written fs gs k :
  setting (VObj (set_field "settings" (VObj gs) fs)) k = prop (VObj gs) k.
Proof.
  apply setting_declared. unfold opt_prop. now rewrite prop_set_same.
Qed.

Lemma written_declared fs gs :
  settings_declared (VObj (set_field "settings" (VObj gs) fs)) = true.
Proof. unfold settings_declared, opt_prop. now rewrite prop_set_same. Qed.

Lemma updateSetting_result fs k v :
  updateSetting (VObj fs) k v
  = Ok (VObj (set_field "settings"
                (VObj (set_field k v (spread (opt_prop (VObj fs) "settings"))))
                fs)).
Proof.
  unfold updateSetting.
  now rewrite (StoredFacts.prop_opt_prop (VObj fs) "settings" eq_refl).
Qed.

(** X6.  On a template object with declared settings, [updateSetting]
    hands on a template in which the named setting holds the new value and
    every other setting and every other property is as it was; the switch of
    that setting then shows the boolean that was set (also [false] for the
    entry whose default is [true]) and a text input the text that was
    typed. *)
Theorem updateSetting_sets_one_setting (fs : fields_of) (k : string) (v : value) :
  settings_declared (VObj fs) = true ->
  exists t,
    updateSetting (VObj fs) k v = Ok t /\
    setting t k = Ok v /\
    (forall k', k' <> k -> setting t k' = setting (VObj fs) k') /\
    (forall k', k' <> "settings" -> prop t k' = prop (VObj fs) k') /\
    settings_declared t = true /\
    (forall item checked,
       key item = k -> v = VBool checked -> switchChecked t item = Ok checked) /\
    (forall text, v = VStr text -> inputValue t k = Ok v).
Proof.
  intros Hd. destruct (declared_settings fs Hd) as (gs & _ & Hor & Hsp).
  eexists. split; [apply updateSetting_result|]. rewrite Hsp.
  assert (Hk : setting (VObj (set_field "settings" (VObj (set_field k v gs)) fs)) k
               = Ok v).
  { rewrite setting_written. apply prop_set_same. }
  split; [exact Hk|]. split.
  { intros k' Hk'. rewrite setting_written, (setting_declared fs gs k' Hor).
    now apply prop_set_other. }
  split; [intros k' Hk'; now apply prop_set_other|].
  split; [apply written_declared|]. split.
  - intros item checked <- ->. unfold switchChecked. rewrite Hk.
    cbn [bind coalesce nullish truthy]. reflexivity.
  - intros text ->. unfold inputValue. rewrite Hk. cbn [bind].
    unfold or_else. cbn [truthy].
    destruct (text =? "")%string eqn:E; [|reflexivity].
    apply String.eqb_eq in E. now subst.
Qed.

Lemma updateSetting_sets_one_setting_witness :
  settings_declared Examples.welcome = true /\
  exists t,
    updateSetting Examples.welcome "session" (VBool false) = Ok t /\
    setting t "session" = Ok (VBool false) /\
    (forall k', k' <> "session" -> setting t k' = setting Examples.welcome k') /\
    (forall k', k' <> "settings" -> prop t k' = prop Examples.welcome k') /\
    settings_declared t = true /\
    (forall item checked,
       key item = "session" -> VBool false = VBool checked ->
       switchChecked t item = Ok checked) /\
    (forall text, VBool false = VStr text -> inputValue t "session" = Ok (VBool false)).
Proof.
  split; [reflexivity|].
  exact (updateSetting_sets_one_setting (spread Examples.welcome) "session"
           (VBool false) eq_refl).
Defined.

Lemma toggle_result (mine other : string) fs (checked : bool) :
  let st := or_else (opt_prop (VObj fs) "settings") (VObj []) in
  (settings <- settings_of (VObj fs) ;;
   own <- prop (VObj fs) "settings" ;;
   x <- prop settings other ;;
   Ok (VObj
         (set_field "settings"
            (VObj
               (set_field other
                  (if checked then VBool false else coalesce x (VBool false))
                  (set_field mine (VBool checked)
                     (spread (or_else own (VObj []))))))
            (spread (VObj fs)))))
  = Ok (VObj
          (set_field "settings"
             (VObj
                (set_field other
                   (if checked then VBool false
                    else coalesce (opt_prop st other) (VBool false))
                   (set_field mine (VBool checked) (spread st))))
             fs)).
Proof.
  cbn zeta. unfold settings_of.
  rewrite (StoredFacts.prop_opt_prop (VObj fs) "settings" eq_refl).
  cbn [bind]. rewrite StoredFacts.prop_opt_prop; [reflexivity|].
  unfold or_else. destruct (truthy (opt_prop (VObj fs) "settings")) eqn:E;
    [now apply truthy_not_nullish|reflexivity].
Qed.

(** What the two marker switches show of a settings object written with
    [mine] set to [checked] and [other] forced or kept. *)
Lemma marker_switches (mine other : string) gs fs (checked : bool) :
  mine <> other ->
  let x := if checked then VBool false
           else coalesce (opt_prop (VObj gs) other) (VBool false) in
  let t := VObj (set_field "settings"
                   (VObj (set_field other x (set_field mine (VBool checked) gs)))
                   fs) in
  setting t mine = Ok (VBool checked) /\
  setting t other = Ok x /\
  strict_eq x (VBool true)
  = (if checked then false else strict_eq (opt_prop (VObj gs) other) (VBool true)) /\
  forall k, k <> mine -> k <> other -> setting t k = prop (VObj gs) k.
Proof.
  intros Hne. cbn zeta. rewrite !setting_written. split.
  { rewrite prop_set_other by congruence. apply prop_set_same. }
  split; [apply prop_set_same|]. split.
  - destruct checked; [reflexivity|].
    unfold coalesce. now destruct (opt_prop (VObj gs) other).
  - intros k H1 H2. rewrite setting_written.
    now rewrite !prop_set_other by congruence.
Qed.

(** X7.  On a template object with declared settings, after
    [handleStartToggle] the start switch shows the argument and the report
    switch is off if the argument was on and shows what it showed otherwise;
    [handleReportToggle] does the same with the two markers exchanged; both
    leave every other setting as it was. *)
Theorem marker_toggles_show_and_keep_the_rest (fs : fields_of) (checked : bool) :
  settings_declared (VObj fs) = true ->
  (exists t b,
     handleStartToggle (VObj fs) checked = Ok t /\
     startChecked t = Ok checked /\
     reportChecked (VObj fs) = Ok b /\
     reportChecked t = Ok (if checked then false else b) /\
     settings_declared t = true /\
     forall k, k <> "isStart" -> k <> "isReport" ->
               setting t k = setting (VObj fs) k) /\
  (exists t b,
     handleReportToggle (VObj fs) checked = Ok t /\
     reportChecked t = Ok checked /\
     startChecked (VObj fs) = Ok b /\
     startChecked t = Ok (if checked then false else b) /\
     settings_declared t = true /\
     forall k, k <> "isStart" -> k <> "isReport" ->
               setting t k = setting (VObj fs) k).
Proof.
  intros Hd. destruct (declared_settings fs Hd) as (gs & _ & Hor & _).
  assert (Hb : forall k, exists x,
               prop (VObj gs) k = Ok x /\ opt_prop (VObj gs) k = x).
  { intros k. destruct (prop_total (VObj gs) k eq_refl) as [x Hx].
    exists x. split; [exact Hx|]. unfold opt_prop. now rewrite Hx. }
  split.
  - pose proof (toggle_result "isStart" "isReport" fs checked) as Ht.
    cbn zeta in Ht. rewrite Hor in Ht. cbn [spread] in Ht.
    destruct (marker_switches "isStart" "isReport" gs fs checked)
      as (H1 & H2 & H3 & H4); [discriminate|].
    destruct (Hb "isReport") as (r & Hr & Hr').
    eexists _, (strict_eq r (VBool true)).
    split; [exact Ht|]. unfold startChecked, reportChecked.
    rewrite H1, H2, (setting_declared fs gs _ Hor), Hr. cbn [bind].
    split; [now destruct checked|]. split; [reflexivity|].
    split; [now rewrite H3, Hr'|]. split; [apply written_declared|].
    intros k Hk1 Hk2. rewrite (setting_declared fs gs k Hor). now apply H4.
  - pose proof (toggle_result "isReport" "isStart" fs checked) as Ht.
    cbn zeta in Ht. rewrite Hor in Ht. cbn [spread] in Ht.
    destruct (marker_switches "isReport" "isStart" gs fs checked)
      as (H1 & H2 & H3 & H4); [discriminate|].
    destruct (Hb "isStart") as (r & Hr & Hr').
    eexists _, (strict_eq r (VBool true)).
    split; [exact Ht|]. unfold startChecked, reportChecked.
    rewrite H1, H2, (setting_declared fs gs _ Hor), Hr. cbn [bind].
    split; [now destruct checked|]. split; [reflexivity|].
    split; [now rewrite H3, Hr'|]. split; [apply written_declared|].
    intros k Hk1 Hk2. rewrite (setting_declared fs gs k Hor). now apply H4.
Qed.

Lemma marker_toggles_show_and_keep_the_rest_witness :
  settings_declared Examples.welcome = true /\
  (exists t b,
     handleStartToggle Examples.welcome false = Ok t /\
     startChecked t = Ok false /\
     reportChecked Examples.welcome = Ok b /\
     reportChecked t = Ok b /\
     settings_declared t = true /\
     forall k, k <> "isStart" -> k <> "isReport" ->
               setting t k = setting Examples.welcome k) /\
  (exists t b,
     handleReportToggle Examples.welcome false = Ok t /\
     reportChecked t = Ok false /\
     startChecked Examples.welcome = Ok b /\
     startChecked t = Ok b /\
     settings_declared t = true /\
     forall k, k <> "isStart" -> k <> "isReport" ->
               setting t k = setting Examples.welcome k).
Proof.
  split; [reflexivity|].
  exact (marker_toggles_show_and_keep_the_rest (spread Examples.welcome) false
           eq_refl).
Defined.

End SettingsViewFacts.

(** ** The sidebar and the canvas: theorems *)

Module SidebarFacts.
Import Index SettingsTab JSFacts RunFacts.

(** [updateTemplate] with a template that is not [null] or [undefined]. *)
Lemma updateTemplate_result template s :
  nullish template = false ->
  updateTemplate template s
  = Ok (saveToHistory s
          (setSelectedTemplate template
             (setNodes
                (fun _ =>
                   map (fun node =>
                          if strict_eq (Node.id node) (opt_prop template "id")
                          then Node.with_data template node else node)
                     (nodes s))
                s))).
Proof.
  intros Hn. unfold updateTemplate.
  assert (Hm : forall ns,
             mapM (fun node =>
                     tid <- prop template "id" ;;
                     Ok (if strict_eq (Node.id node) tid
                         then Node.with_data template node else node)) ns
             = Ok (map (fun node =>
                          if strict_eq (Node.id node) (opt_prop template "id")
                          then Node.with_data template node else node) ns)).
  { induction ns as [|n ns IH]; [reflexivity|].
    cbn [mapM map]. rewrite IH.
    now rewrite (StoredFacts.prop_opt_prop template "id" Hn). }
  now rewrite Hm.
Qed.

(** [onConnect] does not touch the selection. *)
Lemma onConnect_selection addEdge now params s s1 :
  onConnect addEdge now params s = Ok s1 ->
  selectedTemplate s1 = selectedTemplate s.
Proof.
  unfold onConnect. intros H.
  apply bind_Ok in H as (route & _ & H).
  apply bind_Ok in H as (pat & _ & H).
  apply bind_Ok in H as (rx & _ & H).
  apply bind_Ok in H as (s2 & Hs2 & H).
  returned H.
  destruct (truthy (conn_source params) && truthy (conn_target params)).
  - apply bind_Ok in Hs2 as (nds & _ & Hs2). now returned Hs2.
  - now returned Hs2.
Qed.

(** X8.  The sidebar works on the template that was on the node when the
    node was clicked.  If the node is connected afterwards and a setting is
    then changed in the sidebar, [updateTemplate] replaces the template of
    every node with that id by the sidebar's copy with the new setting:
    its routes are the ones from before the connection, while the edges stay
    as the connection left them. *)
Theorem sidebar_edit_after_connect_restores_the_routes
  (addEdge : Edge.t -> list Edge.t -> list Edge.t) (now : Z)
  (params : Connection) (n : Node.t) (fs : fields_of) (s s1 : State)
  (k : string) (v : value) :
  Node.data n = VObj fs ->
  onConnect addEdge now params (onNodeClick n s) = Ok s1 ->
  exists t s2,
    updateSetting (selectedTemplate s1) k v = Ok t /\
    updateTemplate t s1 = Ok s2 /\
    selectedTemplate s2 = t /\
    edges s2 = edges s1 /\
    prop t "id" = prop (Node.data n) "id" /\
    prop t "routes" = prop (Node.data n) "routes" /\
    Forall2 (fun n1 n2 =>
               n2 = if strict_eq (Node.id n1) (opt_prop (Node.data n) "id")
                    then Node.with_data t n1 else n1)
      (nodes s1) (nodes s2).
Proof.
  intros Hd Hc. apply onConnect_selection in Hc. cbn in Hc.
  rewrite Hc, Hd. eexists _, _.
  split; [apply SettingsViewFacts.updateSetting_result|].
  split; [now apply updateTemplate_result|].
  cbn [selectedTemplate edges nodes saveToHistory setHistoryIndex setHistory
       setSelectedTemplate setNodes].
  split; [reflexivity|]. split; [reflexivity|].
  split; [now apply prop_set_other|]. split; [now apply prop_set_other|].
  match goal with
  | |- context [opt_prop (VObj (set_field "settings" ?x fs)) "id"] =>
      replace (opt_prop (VObj (set_field "settings" x fs)) "id")
        with (opt_prop (VObj fs) "id")
        by (unfold opt_prop; now rewrite prop_set_other)
  end.
  induction (nodes s1) as [|n1 ns IH]; cbn [map]; constructor;
    [reflexivity|exact IH].
Qed.

Lemma sidebar_edit_after_connect_restores_the_routes_witness :
  Node.data Sidebar.welcome_node = VObj (spread Examples.welcome) /\
  onConnect Routes.appendEdge 5 Routes.r2_to_menu
    (onNodeClick Sidebar.welcome_node Examples.loaded) = Ok Sidebar.connected /\
  exists t s2,
    updateSetting (selectedTemplate Sidebar.connected) "typing" (VBool false)
    = Ok t /\
    updateTemplate t Sidebar.connected = Ok s2 /\
    selectedTemplate s2 = t /\
    edges s2 = edges Sidebar.connected /\
    prop t "id" = prop (Node.data Sidebar.welcome_node) "id" /\
    prop t "routes" = prop (Node.data Sidebar.welcome_node) "routes" /\
    Forall2 (fun n1 n2 =>
               n2 = if strict_eq (Node.id n1)
                         (opt_prop (Node.data Sidebar.welcome_node) "id")
                    then Node.with_data t n1 else n1)
      (nodes Sidebar.connected) (nodes s2).
Proof.
  split; [reflexivity|]. split; [reflexivity|].
  exact (sidebar_edit_after_connect_restores_the_routes Routes.appendEdge 5
           Routes.r2_to_menu Sidebar.welcome_node (spread Examples.welcome)
           Examples.loaded Sidebar.connected "typing" (VBool false)
           eq_refl eq_refl).
Defined.

End SidebarFacts.

(** ** Sessions in which connecting cannot raise *)

Module EditingFacts.
Import Index Shape Routes Editing JSFacts RunFacts.

Lemma defined_prop v k : defined v = true -> prop v k = Ok (opt_prop v k).
Proof.
  unfold defined. intros H. apply StoredFacts.prop_opt_prop.
  now apply negb_true_iff.
Qed.

Lemma prop_Ok_defined v k x : prop v k = Ok x -> defined v = true.
Proof. destruct v; try discriminate; reflexivity. Qed.

Lemma Forall_forallb {A} (f : A -> bool) xs :
  Forall (fun x => f x = true) xs -> forallb f xs = true.
Proof. intros H. apply forallb_forall. now apply Forall_forall. Qed.

Lemma mapM_Forall {A B} (f : A -> result B) (P : A -> Prop) (Q : B -> Prop) xs :
  (forall x, P x -> exists y, f x = Ok y /\ Q y) ->
  Forall P xs -> exists ys, mapM f xs = Ok ys /\ Forall Q ys.
Proof.
  intros Hf. induction 1 as [|x xs Hx _ IH]; cbn [mapM].
  - exists []. split; [reflexivity|constructor].
  - destruct (Hf x Hx) as (y & -> & Hy). destruct IH as (ys & -> & Hys).
    cbn [bind]. exists (y :: ys). split; [reflexivity|now constructor].
Qed.

(** What a loop that ended well says about its items. *)
Lemma mapM_Ok_Forall2 {A B} (f : A -> result B) xs ys :
  mapM f xs = Ok ys -> Forall2 (fun x y => f x = Ok y) xs ys.
Proof.
  revert ys. induction xs as [|x xs IH]; cbn [mapM]; intros ys H.
  - returned H. constructor.
  - apply bind_Ok in H as (y & Hy & H). apply bind_Ok in H as (ys' & Hys & H).
    returned H. constructor; [exact Hy|now apply IH].
Qed.

Lemma routes_safe_inv d :
  routes_safe d = true ->
  defined d = true /\
  exists rs,
    or_else (opt_prop d "routes") (VArr []) = VArr rs /\
    forallb defined rs = true /\
    (nullish (opt_prop d "routes") = false -> opt_prop d "routes" = VArr rs).
Proof.
  unfold routes_safe. intros H. apply andb_prop in H as [Hd Hr].
  split; [exact Hd|].
  destruct (opt_prop d "routes") as [| | | | |rs|]; try discriminate.
  - exists []. repeat split. discriminate.
  - exists []. repeat split. discriminate.
  - exists rs. repeat split. exact Hr.
Qed.

(** A template as [ChatbotTemplate] declares it can be connected. *)
Lemma is_template_safe d : is_template d = true -> routes_safe d = true.
Proof.
  intros H. destruct (RoutesFacts.is_template_routes d H) as [rs Hrs].
  destruct d as [| | | | | |fs]; try discriminate.
  unfold routes_safe, opt_prop. cbn. cbn in Hrs.
  destruct (lookup "routes" fs) as [[| | | | |items|]|]; try discriminate;
    try reflexivity.
  destruct (forallb is_object items) eqn:E; [|discriminate].
  apply Forall_forallb. apply RoutesFacts.forallb_Forall in E.
  revert E. apply Forall_impl. now intros [].
Qed.

Lemma connectRoute_safe h t r :
  defined r = true ->
  exists r', connectRoute h t r = Ok r' /\ defined r' = true.
Proof.
  intros H. unfold connectRoute. rewrite (defined_prop r "id" H). cbn [bind].
  destruct (strict_eq (opt_prop r "id") h); eexists; split;
    try reflexivity; assumption.
Qed.

Lemma connectRoutes_safe h t rs :
  forallb defined rs = true ->
  exists rs', mapM (connectRoute h t) rs = Ok rs' /\ forallb defined rs' = true.
Proof.
  intros H.
  destruct (mapM_Forall (connectRoute h t) (fun r => defined r = true)
              (fun r => defined r = true) rs (connectRoute_safe h t)
              (RoutesFacts.forallb_Forall _ _ H)) as (rs' & Hm & Hrs').
  exists rs'. split; [exact Hm|now apply Forall_forallb].
Qed.

Lemma with_routes_safe rs n :
  forallb defined rs = true ->
  routes_safe (Node.data (with_routes (VArr rs) n)) = true.
Proof.
  intros H. unfold with_routes, routes_safe, opt_prop.
  cbn [Node.data Node.with_data]. rewrite prop_set_same. exact H.
Qed.

Lemma connectNode_safe now source h t n :
  routes_safe (Node.data n) = true ->
  exists n',
    connectNode now source h t n = Ok n' /\ routes_safe (Node.data n') = true.
Proof.
  intros Hs. destruct (routes_safe_inv _ Hs) as (Hd & rs & Hor & Hrs & _).
  unfold connectNode. destruct (strict_eq (Node.id n) source); [|eauto].
  rewrite (defined_prop _ "routes" Hd). cbn [bind]. rewrite Hor.
  destruct (strict_eq h (VStr "default") && length_is_zero (VArr rs)).
  - eexists. split; [reflexivity|]. now apply with_routes_safe.
  - cbn [items_of bind].
    destruct (connectRoutes_safe h t rs Hrs) as (rs' & -> & Hrs').
    cbn [bind]. eexists. split; [reflexivity|]. now apply with_routes_safe.
Qed.

Lemma disconnectNode_safe e n :
  routes_safe (Node.data n) = true ->
  exists n', disconnectNode e n = Ok n' /\ routes_safe (Node.data n') = true.
Proof.
  intros Hs. destruct (routes_safe_inv _ Hs) as (Hd & rs & Hor & Hrs & _).
  unfold disconnectNode.
  destruct (strict_eq (Node.id n) (Edge.source e)); [|eauto].
  rewrite (defined_prop _ "routes" Hd). cbn [bind]. rewrite Hor.
  cbn [items_of bind].
  destruct (connectRoutes_safe (Edge.sourceHandle e) VUndefined rs Hrs)
    as (rs' & -> & Hrs').
  cbn [bind]. eexists. split; [reflexivity|]. now apply with_routes_safe.
Qed.

Lemma disconnectAll_safe es ns :
  nodes_safe ns -> exists ns', disconnectAll es ns = Ok ns' /\ nodes_safe ns'.
Proof.
  revert ns. induction es as [|e es IH]; intros ns Hns; cbn [disconnectAll].
  - eauto.
  - destruct (mapM_Forall (disconnectNode e) _ _ ns (disconnectNode_safe e) Hns)
      as (ns1 & -> & Hns1).
    cbn [bind]. now apply IH.
Qed.

Lemma findRoute_safe h rs :
  forallb defined rs = true ->
  exists r, findRoute h rs = Ok r /\ (nullish r = false \/ r = VUndefined).
Proof.
  induction rs as [|r rs IH]; cbn [findRoute forallb].
  - intros _. exists VUndefined. auto.
  - intros H. apply andb_prop in H as [Hr Hrs].
    rewrite (defined_prop r "id" Hr). cbn [bind].
    destruct (strict_eq (opt_prop r "id") h); [|auto].
    exists r. split; [reflexivity|]. left. now apply negb_true_iff.
Qed.

Lemma source_route_safe h source ns :
  nodes_safe ns ->
  exists route,
    match findNode source ns with
    | Some sourceNode =>
        routes <- prop (Node.data sourceNode) "routes" ;;
        if nullish routes then Ok VUndefined
        else rs <- items_of routes ;; findRoute h rs
    | None => Ok VUndefined
    end = Ok route /\ (nullish route = false \/ route = VUndefined).
Proof.
  intros Hok. unfold findNode.
  destruct (find _ ns) as [n|] eqn:E; [|exists VUndefined; auto].
  apply find_some in E as [Hin _].
  unfold nodes_safe in Hok. rewrite Forall_forall in Hok.
  destruct (routes_safe_inv _ (Hok n Hin)) as (Hd & rs & _ & Hrs & Harr).
  rewrite (defined_prop _ "routes" Hd). cbn [bind].
  destruct (nullish (opt_prop (Node.data n) "routes")) eqn:N;
    [exists VUndefined; auto|].
  rewrite (Harr eq_refl). cbn [items_of bind]. now apply findRoute_safe.
Qed.

(** On a canvas that can be connected [onConnect] returns, and the canvas
    it leaves can be connected. *)
Lemma onConnect_safe addEdge now params s :
  nodes_safe (nodes s) ->
  exists x, onConnect addEdge now params s = Ok (saveToHistory s x) /\
            nodes_safe (nodes x).
Proof.
  intros Hok. unfold onConnect.
  destruct (source_route_safe
              (or_else (conn_sourceHandle params) (VStr "default"))
              (conn_source params) (nodes s) Hok) as (route & -> & Hshape).
  cbn [bind].
  destruct (RoutesFacts.route_field route "pattern" (VStr "") Hshape) as [pat ->].
  destruct (RoutesFacts.route_field route "isRegex" (VBool false) Hshape)
    as [rx ->].
  cbn [bind].
  destruct (truthy (conn_source params) && truthy (conn_target params)).
  - cbn [nodes setEdges].
    destruct (mapM_Forall
                (connectNode now (conn_source params)
                   (or_else (conn_sourceHandle params) (VStr "default"))
                   (conn_target params))
                _ _ (nodes s) (connectNode_safe now _ _ _) Hok)
      as (nds & -> & Hnds).
    cbn [bind]. eexists. split; [reflexivity|]. exact Hnds.
  - cbn [bind]. eexists. split; [reflexivity|]. exact Hok.
Qed.

Lemma onEdgesDelete_safe es s :
  nodes_safe (nodes s) ->
  exists x, onEdgesDelete es s = Ok (saveToHistory s x) /\ nodes_safe (nodes x).
Proof.
  intros Hok. unfold onEdgesDelete.
  destruct (disconnectAll_safe es (nodes s) Hok) as (nds & -> & Hnds).
  cbn [bind]. eexists. split; [reflexivity|]. exact Hnds.
Qed.

(** [deleteTemplate] reads the id of a truthy selection only. *)
Lemma deleteTemplate_returns s : exists s', deleteTemplate s = Ok s'.
Proof.
  unfold deleteTemplate.
  destruct (truthy (selectedTemplate s)) eqn:E; cbn [negb]; [|eauto].
  destruct (prop_total (selectedTemplate s) "id" (truthy_not_nullish _ E))
    as [sid ->].
  cbn [bind]. eauto.
Qed.

(** *** The canvas stays connectable along a session *)

Lemma safe_same s s' :
  nodes s' = nodes s -> history s' = history s -> safe s -> safe s'.
Proof. unfold safe. now intros -> ->. Qed.

Lemma Forall_first {A} (P : A -> Prop) n xs :
  Forall P xs -> Forall P (firstn n xs).
Proof.
  revert xs. induction n as [|n IH]; intros xs H; [constructor|].
  destruct H; cbn [firstn]; constructor; auto.
Qed.

Lemma safe_saveToHistory render x :
  safe render -> nodes_safe (nodes x) -> safe (saveToHistory render x).
Proof.
  intros [Hn Hh] Hx. split; [exact Hx|].
  unfold saveToHistory. cbn [history setHistoryIndex setHistory].
  apply Forall_app. split; [|now repeat constructor].
  unfold slice0.
  destruct (historyIndex render + 1 <? 0); now apply Forall_first.
Qed.

Lemma safe_toast k msg s : safe s -> safe (toast k msg s).
Proof. now apply safe_same. Qed.

Lemma edgesOfRoute_defined et t r es :
  edgesOfRoute et t r = Ok es -> defined r = true.
Proof.
  unfold edgesOfRoute. intros H. apply bind_Ok in H as (c & Hc & _).
  now apply prop_Ok_defined in Hc.
Qed.

(** A template whose edges could be derived can be connected. *)
Lemma edgesOfTemplate_safe et t es :
  edgesOfTemplate et t = Ok es -> routes_safe t = true.
Proof.
  unfold edgesOfTemplate. intros H. apply bind_Ok in H as (routes & Hr & H).
  pose proof (prop_Ok_defined _ _ _ Hr) as Hd.
  unfold routes_safe. rewrite Hd. cbn [andb].
  rewrite (defined_prop t "routes" Hd) in Hr. injection Hr as ->.
  destruct routes as [| | | | |rs|]; try reflexivity; try discriminate H.
  cbn [nullish items_of bind] in H.
  apply bind_Ok in H as (ess & Hm & _).
  apply Forall_forallb. apply mapM_Ok_Forall2 in Hm.
  induction Hm as [|r es' rs ess Hr _ IH]; constructor; [|exact IH].
  now apply edgesOfRoute_defined in Hr.
Qed.

Lemma nodeOfTemplate_data t n : nodeOfTemplate t = Ok n -> Node.data n = t.
Proof.
  unfold nodeOfTemplate. intros H. unbind H. now returned H.
Qed.

(** The nodes made of templates whose edges could be derived can be
    connected: what the load effect and the import put on the canvas. *)
Lemma imported_safe et ts ns es :
  mapM nodeOfTemplate ts = Ok ns -> edgesOfTemplates et ts = Ok es ->
  nodes_safe ns.
Proof.
  unfold edgesOfTemplates. intros Hn He.
  apply bind_Ok in He as (ess & Hm & _).
  apply mapM_Ok_Forall2 in Hn. apply mapM_Ok_Forall2 in Hm.
  revert ess Hm. induction Hn as [|t n ts ns Ht _ IH]; intros ess Hm;
    [constructor|].
  inversion Hm as [|? es0 ? ess0 He0 Hm0]; subst.
  constructor; [|now apply (IH ess0)].
  rewrite (nodeOfTemplate_data t n Ht). now apply (edgesOfTemplate_safe et t es0).
Qed.

Lemma nodes_safe_data ns ns' :
  map Node.data ns' = map Node.data ns -> nodes_safe ns -> nodes_safe ns'.
Proof.
  unfold nodes_safe. intros H Hns.
  apply (Forall_map Node.data (fun d => routes_safe d = true)).
  rewrite H. now apply Forall_map.
Qed.

Lemma nodes_safe_filter f ns : nodes_safe ns -> nodes_safe (filter f ns).
Proof.
  unfold nodes_safe. rewrite !Forall_forall. intros H n Hn.
  apply filter_In in Hn as [Hn _]. now apply H.
Qed.

Lemma at_index_In {A} (xs : list A) i x : at_index xs i = Some x -> In x xs.
Proof.
  unfold at_index. destruct (i <? 0); [discriminate|]. apply nth_error_In.
Qed.

Lemma safe_snapshot s i h :
  safe s -> at_index (history s) i = Some h -> nodes_safe (snap_nodes h).
Proof.
  intros [_ Hh] Hi. rewrite Forall_forall in Hh. apply Hh.
  now apply at_index_In with i.
Qed.

Lemma safe_loadFlow p s s' : loadFlow p s = Ok s' -> safe s -> safe s'.
Proof.
  unfold loadFlow. intros H Hs.
  assert (Hempty : forall x, nodes x = [] -> safe (saveToHistory s x)).
  { intros x Hx. apply safe_saveToHistory; [exact Hs|].
    rewrite Hx. constructor. }
  destruct (data p) as [cfg|].
  - destruct (negb (isFlowLoaded s)); [|returned H; exact Hs].
    destruct (flow_json cfg) as [t|]; [|returned H; now apply Hempty].
    destruct (text_truthy t); [|returned H; now apply Hempty].
    destruct (JSON_parse t) as [flowData|e];
      [|returned H; apply safe_toast; exact Hs].
    apply bind_Ok in H as ([[flow name] warn] & _ & H).
    apply bind_Ok in H as (templates & _ & H).
    destruct (truthy flow && truthy templates).
    + apply bind_Ok in H as (ts & _ & H).
      apply bind_Ok in H as (newNodes & Hn & H).
      apply bind_Ok in H as (newEdges & He & H).
      returned H. apply safe_toast, safe_saveToHistory; [exact Hs|].
      exact (imported_safe _ ts newNodes newEdges Hn He).
    + returned H. apply safe_toast.
      destruct warn; [apply safe_toast|]; exact Hs.
  - destruct (negb (isLoading p) && negb (isFlowLoaded s));
      returned H; [now apply Hempty|exact Hs].
Qed.

Lemma safe_handleFileImport file render s :
  safe render -> safe s -> safe (handleFileImport file render s).
Proof.
  intros Hr Hs. unfold handleFileImport.
  destruct file as [content|]; [|exact Hs].
  destruct (importedGraph (edgeType render) content) as [[ns es]|] eqn:E;
    apply safe_toast; [|exact Hs].
  apply safe_saveToHistory; [exact Hr|]. cbn [nodes setEdges setNodes].
  unfold importedGraph in E.
  apply bind_Ok in E as (flow & _ & E).
  apply bind_Ok in E as (templates & _ & E).
  apply bind_Ok in E as (ts & _ & E).
  apply bind_Ok in E as (newNodes & Hn & E).
  apply bind_Ok in E as (newEdges & He & E).
  injection E as <- <-.
  exact (imported_safe _ ts newNodes newEdges Hn He).
Qed.

Lemma safe_after e s s' :
  gentle e -> Run.after e s = Ok s' -> safe s -> safe s'.
Proof.
  destruct e; cbn [Run.after gentle]; intros Hg H Hs;
    pose proof Hs as [Hn Hh].
  - now apply (safe_loadFlow p s).
  - destruct (onConnect_safe addEdge now params s Hn) as (x & Hx & Hnx).
    rewrite Hx in H. returned H. now apply safe_saveToHistory.
  - destruct (onEdgesDelete_safe edgesToDelete s Hn) as (x & Hx & Hnx).
    rewrite Hx in H. returned H. now apply safe_saveToHistory.
  - returned H. exact Hs.
  - returned H. apply safe_toast, safe_saveToHistory; [exact Hs|].
    cbn [nodes setNodes]. apply Forall_app. split; [exact Hn|].
    now repeat constructor.
  - destruct (routes_safe_inv _ Hg) as (Hd & _).
    rewrite SidebarFacts.updateTemplate_result in H
      by now apply negb_true_iff.
    returned H. apply safe_saveToHistory; [exact Hs|].
    cbn [nodes setSelectedTemplate setNodes].
    unfold nodes_safe in *. apply Forall_map. revert Hn. apply Forall_impl.
    intros n Hsafe. now destruct (strict_eq (Node.id n) _).
  - unfold deleteTemplate in H.
    destruct (negb (truthy (selectedTemplate s))); [returned H; exact Hs|].
    apply bind_Ok in H as (sid & _ & H). returned H.
    apply safe_toast, safe_saveToHistory; [exact Hs|].
    cbn [nodes setSelectedTemplate setEdges setNodes].
    now apply nodes_safe_filter.
  - unfold handleUndo in H. destruct (historyIndex s >? 0);
      [|returned H; exact Hs].
    destruct (at_index (history s) (historyIndex s - 1)) as [prev|] eqn:E;
      [|discriminate].
    returned H. split; [|exact Hh]. exact (safe_snapshot s _ prev Hs E).
  - unfold handleRedo in H.
    destruct (historyIndex s <? Z.of_nat (List.length (history s)) - 1);
      [|returned H; exact Hs].
    destruct (at_index (history s) (historyIndex s + 1)) as [next|] eqn:E;
      [|discriminate].
    returned H. split; [|exact Hh]. exact (safe_snapshot s _ next Hs E).
  - returned H. exact Hs.
  - returned H. now apply safe_handleFileImport.
  - returned H. apply safe_toast, safe_saveToHistory; [exact Hs|].
    cbn [nodes setNodes].
    apply (nodes_safe_data (nodes s)); [|exact Hn].
    apply (LayoutFacts.layout_from_fields 0 (nodes s)).
  - returned H. exact Hs.
  - unfold saveCurrentFlowJson in H. unbind H. returned H. exact Hs.
  - unfold previewCurrentFlowJson in H.
    apply bind_Ok in H as (s1 & Hs1 & H).
    unfold saveCurrentFlowJson in Hs1. unbind Hs1. returned Hs1.
    destruct (not_local p); returned H; exact Hs.
  - unfold settle in H. destruct (nth_error (inFlight s) i).
    + returned H. destruct how; exact Hs.
    + returned H. exact Hs.
  - returned H. split; [now apply Hg|exact Hh].
  - returned H. exact Hs.
Qed.

Lemma session_safe s : session s -> safe s.
Proof.
  induction 1 as [|e s s' _ IH Hg H].
  - split; constructor.
  - now apply (safe_after e s s').
Qed.

(** X10.  In a session (templates come from the toolbar, from documents
    that were loaded or imported without an error, and from sidebar updates
    with templates that can be connected) the canvas can always be
    connected: [onConnect], [onEdgesDelete] and [deleteTemplate] return
    without raising, whatever connection or edges they are given. *)
Theorem connecting_never_raises_in_a_session (s : State) :
  session s ->
  (forall addEdge now params,
     exists s', onConnect addEdge now params s = Ok s') /\
  (forall edgesToDelete, exists s', onEdgesDelete edgesToDelete s = Ok s') /\
  (exists s', deleteTemplate s = Ok s').
Proof.
  intros Hs. apply session_safe in Hs as [Hn _]. split; [|split].
  - intros addEdge now params.
    destruct (onConnect_safe addEdge now params s Hn) as (x & Hx & _). eauto.
  - intros es. destruct (onEdgesDelete_safe es s Hn) as (x & Hx & _). eauto.
  - apply deleteTemplate_returns.
Qed.

Lemma connecting_never_raises_in_a_session_witness :
  session Examples.loaded /\
  (forall addEdge now params,
     exists s', onConnect addEdge now params Examples.loaded = Ok s') /\
  (forall edgesToDelete,
     exists s', onEdgesDelete edgesToDelete Examples.loaded = Ok s') /\
  (exists s', deleteTemplate Examples.loaded = Ok s').
Proof.
  assert (H : session Examples.loaded).
  { apply (session_after (Run.Loaded Examples.sample_props) initial);
      [apply session_initial|exact I|reflexivity]. }
  split; [exact H|].
  exact (connecting_never_raises_in_a_session Examples.loaded H).
Defined.

(** *** A connection from the "default" handle *)

Lemma connectRoute_newRoute now t :
  connectRoute (VStr "default") VUndefined (newRoute now t) = Ok (newRoute now t).
Proof. reflexivity. Qed.

Lemma newRoute_edge et d now t :
  defined d = true -> truthy t = true ->
  exists e', edgesOfRoute et d (newRoute now t) = Ok [e'] /\ Edge.target e' = t.
Proof.
  intros Hd Ht. unfold edgesOfRoute.
  change (prop (newRoute now t) "connectedTo") with (Ok t).
  cbn [bind]. rewrite Ht.
  change (prop (newRoute now t) "pattern") with (Ok (VStr "")).
  change (prop (newRoute now t) "isRegex") with (Ok (VBool false)).
  rewrite (defined_prop d "id" Hd).
  change (prop (newRoute now t) "id")
    with (Ok (VStr ("route-" ++ string_of_Z now)%string)).
  cbn [bind]. eexists. split; reflexivity.
Qed.

Lemma default_route_stays now source t e n n1 :
  routes_safe (Node.data n) = true ->
  truthy t = true ->
  Edge.source e = source -> Edge.sourceHandle e = VStr "default" ->
  connectNode now source (VStr "default") t n = Ok n1 ->
  exists n2,
    disconnectNode e n1 = Ok n2 /\
    (strict_eq (Node.id n) source = true ->
     routes_of (Node.data n) = Some [] ->
     Connections.still_connected now t n2).
Proof.
  intros Hs Ht Hsrc Hh Hc.
  destruct (connectNode_safe now source (VStr "default") t n Hs)
    as (n1' & Hc' & Hs1).
  rewrite Hc in Hc'. injection Hc' as <-.
  destruct (disconnectNode_safe e n1 Hs1) as (n2 & Hd & _).
  exists n2. split; [exact Hd|]. intros Hid Hno.
  destruct (RoutesFacts.routes_of_inv _ _ Hno) as (fs & r & Hdat & Hr & Hor & _).
  unfold connectNode in Hc. rewrite Hid, Hr in Hc. cbn [bind] in Hc.
  rewrite Hor in Hc. cbn in Hc. injection Hc as <-.
  unfold disconnectNode in Hd.
  cbn [Node.id with_routes Node.with_data Node.data] in Hd.
  rewrite Hsrc, Hid, prop_set_same, Hh in Hd. cbn [bind] in Hd.
  change (or_else (VArr [newRoute now t]) (VArr [])) with (VArr [newRoute now t])
    in Hd.
  cbn [items_of bind mapM] in Hd. rewrite connectRoute_newRoute in Hd.
  cbn [bind] in Hd. injection Hd as <-.
  unfold Connections.still_connected, with_routes.
  cbn [Node.data Node.with_data].
  split; [apply prop_set_same|]. intros et.
  unfold edgesOfTemplate. rewrite prop_set_same.
  cbn [bind nullish items_of mapM].
  match goal with
  | |- context [edgesOfRoute et ?d (newRoute now t)] =>
      destruct (newRoute_edge et d now t eq_refl Ht) as (e' & -> & He')
  end.
  cbn [bind List.concat app]. eauto.
Qed.

Lemma onConnect_nodes addEdge now params s s1 :
  truthy (conn_source params) && truthy (conn_target params) = true ->
  onConnect addEdge now params s = Ok s1 ->
  mapM (connectNode now (conn_source params) (handle_of params)
          (conn_target params)) (nodes s) = Ok (nodes s1).
Proof.
  unfold onConnect. fold (handle_of params). intros Ht H.
  apply bind_Ok in H as (route & _ & H).
  apply bind_Ok in H as (pat & _ & H).
  apply bind_Ok in H as (rx & _ & H).
  apply bind_Ok in H as (s2 & Hs2 & H).
  returned H. rewrite Ht in Hs2.
  apply bind_Ok in Hs2 as (nds & Hm & Hs2). returned Hs2. exact Hm.
Qed.

(** X9.  A connection drawn from the "default" handle of a template
    without routes cannot be taken back by deleting its edge: [onConnect]
    stores the connection in a new route with an id of its own
    (route-<now>), while the edge names the handle "default", so
    [onEdgesDelete] finds no route to clear.  The template keeps the route
    to the target, and the edges derived from it, as the load effect and the
    import derive them, are one edge to the target again. *)
Theorem default_connection_outlives_its_edge
  (addEdge : Edge.t -> list Edge.t -> list Edge.t) (now : Z)
  (params : Connection) (e : Edge.t) (s s1 : State) :
  templates_ok s ->
  handle_of params = VStr "default" ->
  truthy (conn_source params) && truthy (conn_target params) = true ->
  Edge.source e = conn_source params ->
  Edge.sourceHandle e = VStr "default" ->
  onConnect addEdge now params s = Ok s1 ->
  exists s2,
    onEdgesDelete [e] s1 = Ok s2 /\
    Forall2 (fun n n2 =>
               strict_eq (Node.id n) (conn_source params) = true ->
               routes_of (Node.data n) = Some [] ->
               Connections.still_connected now (conn_target params) n2)
      (nodes s) (nodes s2).
Proof.
  intros Hok Hh Ht Hsrc Hhe Hc.
  pose proof (onConnect_nodes addEdge now params s s1 Ht Hc) as Hm.
  rewrite Hh in Hm. apply andb_prop in Ht as [_ Ht].
  assert (Hsafe : nodes_safe (nodes s)).
  { revert Hok. apply Forall_impl. intros n. apply is_template_safe. }
  unfold onEdgesDelete. cbn [disconnectAll].
  apply mapM_Ok_Forall2 in Hm.
  assert (Hall : exists ns2,
             mapM (disconnectNode e) (nodes s1) = Ok ns2 /\
             Forall2 (fun n n2 =>
                        strict_eq (Node.id n) (conn_source params) = true ->
                        routes_of (Node.data n) = Some [] ->
                        Connections.still_connected now (conn_target params) n2)
               (nodes s) ns2).
  { clear Hc. induction Hm as [|n n1 ns ns1 Hn _ IH].
    - exists []. split; [reflexivity|constructor].
    - inversion Hsafe as [|? ? Hsn Hsns]; subst.
      destruct (default_route_stays now (conn_source params)
                  (conn_target params) e n n1 Hsn Ht Hsrc Hhe Hn)
        as (n2 & Hd & Hstay).
      destruct (IH Hsns) as (ns2 & Hds & Hstays).
      cbn [mapM]. rewrite Hd, Hds. cbn [bind].
      exists (n2 :: ns2). split; [reflexivity|now constructor]. }
  destruct Hall as (ns2 & -> & Hstay). cbn [bind].
  eexists. split; [reflexivity|]. exact Hstay.
Qed.

Lemma default_connection_outlives_its_edge_witness :
  templates_ok two_added /\
  handle_of first_to_second = VStr "default" /\
  truthy (conn_source first_to_second) && truthy (conn_target first_to_second)
  = true /\
  Edge.source Connections.default_edge = conn_source first_to_second /\
  Edge.sourceHandle Connections.default_edge = VStr "default" /\
  onConnect appendEdge 1700000000900 first_to_second two_added
  = Ok Connections.first_connected /\
  exists s2,
    onEdgesDelete [Connections.default_edge] Connections.first_connected
    = Ok s2 /\
    Forall2 (fun n n2 =>
               strict_eq (Node.id n) (conn_source first_to_second) = true ->
               routes_of (Node.data n) = Some [] ->
               Connections.still_connected 1700000000900
                 (conn_target first_to_second) n2)
      (nodes two_added) (nodes s2).
Proof.
  assert (H : templates_ok two_added) by repeat constructor.
  split; [exact H|]. repeat (split; [reflexivity|]).
  exact (default_connection_outlives_its_edge appendEdge 1700000000900
           first_to_second Connections.default_edge two_added
           Connections.first_connected H eq_refl eq_refl eq_refl eq_refl
           eq_refl).
Defined.

End EditingFacts.

(** ** The load effect after the first load *)

Module LoadFacts.
Import Index Run Editing Reload RunFacts.

Lemma loadFlow_when_loaded p s : isFlowLoaded s = true -> loadFlow p s = Ok s.
Proof.
  intros H. unfold loadFlow. rewrite H. cbn [negb].
  destruct (data p); [reflexivity|]. now rewrite andb_false_r.
Qed.

Lemma loadFlow_marks p s s' :
  fetched p = true -> loadFlow p s = Ok s' -> isFlowLoaded s' = true.
Proof.
  unfold fetched. intros Hf H.
  destruct (isFlowLoaded s) eqn:L.
  { rewrite (loadFlow_when_loaded p s L) in H. now returned H. }
  unfold loadFlow in H. rewrite L in H. cbn [negb] in H.
  destruct (data p) as [cfg|].
  - destruct (flow_json cfg) as [t|]; [|now returned H].
    destruct (text_truthy t); [|now returned H].
    destruct (JSON_parse t) as [flowData|e]; [|now returned H].
    apply bind_Ok in H as ([[flow name] warn] & _ & H).
    apply bind_Ok in H as (templates & _ & H).
    destruct (truthy flow && truthy templates).
    + unbind H. returned H. now destruct warn.
    + returned H. now destruct warn.
  - rewrite Hf in H. now returned H.
Qed.

Lemma onConnect_loaded addEdge now params s s1 :
  onConnect addEdge now params s = Ok s1 -> isFlowLoaded s1 = isFlowLoaded s.
Proof.
  unfold onConnect. intros H.
  apply bind_Ok in H as (route & _ & H).
  apply bind_Ok in H as (pat & _ & H).
  apply bind_Ok in H as (rx & _ & H).
  apply bind_Ok in H as (s2 & Hs2 & H).
  returned H.
  destruct (truthy (conn_source params) && truthy (conn_target params)).
  - apply bind_Ok in Hs2 as (nds & _ & Hs2). now returned Hs2.
  - now returned Hs2.
Qed.

(** No handler takes the mark back. *)
Lemma after_keeps_loaded e s s' :
  after e s = Ok s' -> isFlowLoaded s = true -> isFlowLoaded s' = true.
Proof.
  destruct e; cbn [after]; intros H L.
  - rewrite (loadFlow_when_loaded p s L) in H. now returned H.
  - now rewrite (onConnect_loaded _ _ _ _ _ H).
  - unfold onEdgesDelete in H. unbind H. now returned H.
  - now returned H.
  - now returned H.
  - unfold updateTemplate in H. unbind H. now returned H.
  - unfold deleteTemplate in H.
    destruct (negb (truthy (selectedTemplate s))); [now returned H|].
    unbind H. now returned H.
  - unfold handleUndo in H. destruct (historyIndex s >? 0); [|now returned H].
    destruct (at_index (history s) (historyIndex s - 1)); [|discriminate].
    now returned H.
  - unfold handleRedo in H.
    destruct (historyIndex s <? Z.of_nat (List.length (history s)) - 1);
      [|now returned H].
    destruct (at_index (history s) (historyIndex s + 1)); [|discriminate].
    now returned H.
  - now returned H.
  - returned H. unfold handleFileImport.
    destruct file as [content|]; [|exact L].
    now destruct (importedGraph (edgeType render) content) as [[ns es]|].
  - now returned H.
  - now returned H.
  - unfold saveCurrentFlowJson in H. unbind H. now returned H.
  - unfold previewCurrentFlowJson in H.
    apply bind_Ok in H as (s1 & Hs1 & H).
    unfold saveCurrentFlowJson in Hs1. unbind Hs1. returned Hs1.
    destruct (not_local p); now returned H.
  - unfold settle in H. destruct (nth_error (inFlight s) i).
    + returned H. now destruct how.
    + now returned H.
  - now returned H.
  - now returned H.
Qed.

Lemma reaches_keeps_loaded s s' :
  reaches s s' -> isFlowLoaded s = true -> isFlowLoaded s' = true.
Proof.
  induction 1 as [|e s' s'' _ IH H]; [auto|].
  intros L. exact (after_keeps_loaded e s' s'' H (IH L)).
Qed.

(** X11.  The flow is loaded once.  When the load effect has run on a
    fetch that has ended (the record is there, or is known to be missing),
    the page is marked as loaded, no handler takes the mark back, and every
    later run of the effect, whatever record it is given (the refetch after
    a save included), leaves the page exactly as it is. *)
Theorem the_flow_is_loaded_once (p : Props) (s s' : State) :
  fetched p = true ->
  loadFlow p s = Ok s' ->
  isFlowLoaded s' = true /\
  forall s'', reaches s' s'' -> forall p', loadFlow p' s'' = Ok s''.
Proof.
  intros Hf H. pose proof (loadFlow_marks p s s' Hf H) as L.
  split; [exact L|]. intros s'' Hr p'.
  apply loadFlow_when_loaded. now apply (reaches_keeps_loaded s').
Qed.

Lemma the_flow_is_loaded_once_witness :
  fetched Examples.sample_props = true /\
  loadFlow Examples.sample_props initial = Ok Examples.loaded /\
  isFlowLoaded Examples.loaded = true /\
  forall s'', reaches Examples.loaded s'' ->
              forall p', loadFlow p' s'' = Ok s''.
Proof.
  split; [reflexivity|]. split; [reflexivity|].
  exact (the_flow_is_loaded_once Examples.sample_props initial Examples.loaded
           eq_refl eq_refl).
Defined.

End LoadFacts.

(** ** Saving and loading again *)

Module ReloadFacts.
Import Index Shape Wrapper Stored RoundTrip Reload JSFacts JsonFacts
  SerializeFacts RoundTripFacts.

(** *** What a save does to the stored chatbots *)

Lemma nth_error_snoc_other {A} (xs : list A) (x : A) j :
  j <> List.length xs -> nth_error (xs ++ [x]) j = nth_error xs j.
Proof.
  intros Hj. destruct (Nat.lt_ge_cases j (List.length xs)) as [Hlt|Hge].
  - now apply nth_error_app1.
  - transitivity (@None A); [|symmetry]; apply nth_error_None.
    + rewrite length_app. cbn. lia.
    + exact Hge.
Qed.

Lemma botName_without_param p :
  str_truthy (flowParam p) = false ->
  botName p = str_or (chatbot_name_of p) "Default Bot".
Proof.
  unfold botName, str_truthy. destruct (flowParam p) as [fp|]; [|reflexivity].
  cbn [str_or]. now destruct (fp =? "")%string.
Qed.

(** [storeCurrentFlow] writes the canvas into the picked entry, or appends
    an entry for it, and leaves every other entry as it was. *)
Lemma storeCurrentFlow_frame p T multi bots :
  forallb bot_ok bots = true ->
  exists bots' i,
    storeCurrentFlow p T multi bots
    = Ok (JSON_stringify (VObj (set_field "chatbots" (VArr bots') multi))) /\
    picked p bots' i /\
    (forall j, j <> i -> nth_error bots' j = nth_error bots j) /\
    ((exists fs,
        nth_error bots i = Some (VObj fs) /\
        nth_error bots' i = Some (VObj (set_field "templates" T fs))) \/
     (i = List.length bots /\ bots' = bots ++ [botEntry (botName p) T])).
Proof.
  intros Hok. unfold storeCurrentFlow, picked.
  destruct (str_truthy (flowParam p)) eqn:Hfp.
  - rewrite (botName_of_param p Hfp). set (fp := name_or "" (flowParam p)).
    destruct (findBotIndex_spec (lower p) fp bots Hok) as (r & Hr & Hspec).
    rewrite Hr. unfold bind at 2. destruct r as [i|].
    + destruct Hspec as [(bot & Hbot & Hnamed) Hfirst].
      assert (Hbok : bot_ok bot = true).
      { rewrite forallb_forall in Hok. apply Hok.
        now apply nth_error_In with i. }
      destruct (bot_ok_name bot Hbok) as (fs & n & -> & Hn).
      destruct (assignTemplatesAt_spec i T bots fs Hbot)
        as (bots' & Ha & Hi & Hother & _).
      rewrite Ha. cbn [bind]. exists bots', i.
      split; [reflexivity|].
      split; [|split; [exact Hother|left; exists fs; split; assumption]].
      split.
      * eexists. split; [exact Hi|]. now rewrite named_set_templates.
      * intros j b Hj Hb. rewrite Hother in Hb by lia. now apply (Hfirst j).
    + cbn [bind]. exists (bots ++ [botEntry fp T]), (List.length bots).
      assert (Hlast : nth_error (bots ++ [botEntry fp T]) (List.length bots)
                      = Some (botEntry fp T)).
      { rewrite nth_error_app2 by lia. now rewrite Nat.sub_diag. }
      split; [reflexivity|]. split; [|split; [|right; auto]].
      * split.
        -- eexists. split; [exact Hlast|]. apply named_botEntry.
        -- intros j b Hj Hb. rewrite nth_error_app1 in Hb by assumption.
           apply Hspec. now apply nth_error_In with j.
      * intros j Hj. now apply nth_error_snoc_other.
  - rewrite (botName_without_param p Hfp). destruct bots as [|bot bots].
    + cbn [bind app]. eexists _, 0%nat. split; [reflexivity|].
      split; [reflexivity|]. split; [|right; auto].
      intros [|j] Hj; [congruence|]. now destruct j.
    + cbn [forallb] in Hok. apply andb_prop in Hok as [Hb _].
      destruct (bot_ok_name bot Hb) as (fs & n & -> & Hn).
      cbn [assignTemplatesAt assignTemplates bind].
      eexists _, 0%nat. split; [reflexivity|].
      split; [reflexivity|].
      split; [|left; exists fs; split; reflexivity].
      intros [|j] Hj; [congruence|reflexivity].
Qed.

(** X13.  Saving one chatbot of a multi-chatbot document leaves the others
    alone.  When the stored document has a [chatbots] array of named
    entries, [getCurrentFlowJson] returns that document with its other
    properties kept and with one entry changed: the picked entry (the first
    one named by the flow parameter, letter case aside, or the first one
    without a parameter) keeps its properties and gets the canvas as its
    templates; if no entry is picked, one named after the flow is appended.
    Every other entry is the stored one.  Names are compared as the code
    compares them, after the engine's [toLowerCase], whatever that function
    is. *)
Theorem save_keeps_the_other_chatbots
  (p : Props) (s : State) (v : value) (bots : list value) :
  holds p v ->
  prop v "chatbots" = Ok (VArr bots) ->
  forallb bot_ok bots = true ->
  exists bots' i,
    getCurrentFlowJson p s
    = Ok (JSON_stringify (VObj (set_field "chatbots" (VArr bots') (spread v)))) /\
    picked p bots' i /\
    (forall j, j <> i -> nth_error bots' j = nth_error bots j) /\
    ((exists fs,
        nth_error bots i = Some (VObj fs) /\
        nth_error bots' i
        = Some (VObj (set_field "templates" (currentTemplates s) fs))) \/
     (i = List.length bots /\
      bots' = bots ++ [botEntry (botName p) (currentTemplates s)])).
Proof.
  intros (cfg & Hdata & Hjson) Hc Hok.
  unfold getCurrentFlowJson. rewrite Hdata, Hjson.
  cbn [text_truthy JSON_parse]. rewrite Hc. cbn [bind truthy isArray andb items_of].
  apply storeCurrentFlow_frame. exact Hok.
Qed.

Lemma save_keeps_the_other_chatbots_witness :
  holds support_props two_bots /\
  prop two_bots "chatbots"
  = Ok (VArr [VObj [("name", VStr "Shop"); ("templates", VArr [])];
              VObj [("name", VStr "Support"); ("templates", VArr [])]]) /\
  forallb bot_ok
    [VObj [("name", VStr "Shop"); ("templates", VArr [])];
     VObj [("name", VStr "Support"); ("templates", VArr [])]] = true /\
  exists bots' i,
    getCurrentFlowJson support_props Examples.loaded
    = Ok (JSON_stringify
            (VObj (set_field "chatbots" (VArr bots') (spread two_bots)))) /\
    picked support_props bots' i /\
    (forall j, j <> i ->
       nth_error bots' j
       = nth_error [VObj [("name", VStr "Shop"); ("templates", VArr [])];
                    VObj [("name", VStr "Support"); ("templates", VArr [])]] j) /\
    ((exists fs,
        nth_error [VObj [("name", VStr "Shop"); ("templates", VArr [])];
                   VObj [("name", VStr "Support"); ("templates", VArr [])]] i
        = Some (VObj fs) /\
        nth_error bots' i
        = Some (VObj (set_field "templates" (currentTemplates Examples.loaded) fs))) \/
     (i = List.length
            [VObj [("name", VStr "Shop"); ("templates", VArr [])];
             VObj [("name", VStr "Support"); ("templates", VArr [])]] /\
      bots' = [VObj [("name", VStr "Shop"); ("templates", VArr [])];
               VObj [("name", VStr "Support"); ("templates", VArr [])]]
              ++ [botEntry (botName support_props)
                    (currentTemplates Examples.loaded)])).
Proof.
  assert (H : holds support_props two_bots).
  { eexists. split; reflexivity. }
  split; [exact H|]. split; [reflexivity|]. split; [reflexivity|].
  exact (save_keeps_the_other_chatbots support_props Examples.loaded two_bots
           _ H eq_refl eq_refl).
Defined.

(** *** Loading what was saved *)

(** The document [getCurrentFlowJson] returns, as a wrapper whose picked
    entry holds the canvas. *)
Lemma saved_wrapper p s :
  stored_ok p = true ->
  exists multi bots i fs,
    getCurrentFlowJson p s
    = Ok (JSON_stringify (VObj (set_field "chatbots" (VArr bots) multi))) /\
    nth_error bots i = Some (VObj fs) /\
    lookup "templates" fs = Some (currentTemplates s) /\
    forallb bot_ok bots = true /\
    picked p bots i.
Proof.
  intros Hok. unfold stored_ok in Hok.
  assert (Hfresh : exists multi bots i fs,
             Ok (fresh_document p s)
             = Ok (JSON_stringify (VObj (set_field "chatbots" (VArr bots) multi))) /\
             nth_error bots i = Some (VObj fs) /\
             lookup "templates" fs = Some (currentTemplates s) /\
             forallb bot_ok bots = true /\
             picked p bots i).
  { exists [("chatbots", VArr []); ("version", VStr "1.0")],
           [botEntry (botName p) (currentTemplates s)], 0%nat,
           [("name", VStr (botName p)); ("templates", currentTemplates s)].
    repeat (split; [reflexivity|]).
    unfold picked. destruct (str_truthy (flowParam p)) eqn:E; [|reflexivity].
    split.
    - eexists. split; [reflexivity|].
      rewrite (botName_of_param p E). apply named_botEntry.
    - intros j b Hj. lia. }
  unfold getCurrentFlowJson. fold (fresh_document p s).
  destruct (data p) as [cfg|] eqn:Hdata; [|exact Hfresh].
  destruct (flow_json cfg) as [t|] eqn:Hjson; [|exact Hfresh].
  destruct t as [|msg|v]; try exact Hfresh.
  cbn [doc_ok] in Hok. apply andb_prop in Hok as [Hnull Hbots].
  apply negb_true_iff in Hnull.
  cbn [text_truthy JSON_parse].
  rewrite (StoredFacts.prop_opt_prop v "chatbots" Hnull). unfold bind at 1.
  destruct (opt_prop v "chatbots") as [| | | | |bots|] eqn:Hc;
    try (cbn [truthy isArray andb]).
  6: { cbn [items_of bind].
       destruct (storeCurrentFlow_spec p (currentTemplates s) (spread v) bots Hbots)
         as (bots' & i & fs & Hs & Hi & Ht & Hok' & Hp).
       exists (spread v), bots', i, fs. auto. }
  all: rewrite ?andb_false_r;
    rewrite (StoredFacts.prop_opt_prop v "templates" Hnull); unfold bind at 1;
    destruct (truthy (opt_prop v "templates") && isArray (opt_prop v "templates"));
    try exact Hfresh;
    rewrite (StoredFacts.prop_opt_prop v "version" Hnull); unfold bind at 1;
    match goal with
    | |- context [storeCurrentFlow _ _ ?multi ?bots] =>
        destruct (storeCurrentFlow_spec p (currentTemplates s) multi bots eq_refl)
          as (bots' & i & fs & Hs & Hi & Ht & Hok' & Hp);
        exists multi, bots', i, fs; auto
    end.
Qed.

(** Among entries with a name, [find] returns the first one named by the
    flow parameter. *)
Lemma findBot_picks lower fp bots i b :
  forallb bot_ok bots = true ->
  first_named lower fp bots i -> nth_error bots i = Some b ->
  findBot lower fp (map json_item bots) = Ok (json_item b).
Proof.
  revert i. induction bots as [|bot bots IH];
    intros i Hok [(b' & Hb' & Hnamed) Hfirst] Hb; [now destruct i|].
  cbn [forallb] in Hok. apply andb_prop in Hok as [Hbot Hbots].
  destruct (bot_ok_name bot Hbot) as (fs & n & -> & Hn).
  cbn [map findBot].
  assert (Hname : prop (json_item (VObj fs)) "name" = Ok (VStr n)).
  { rewrite json_item_object, <- jsonify_obj.
    now rewrite (prop_jsonify_found fs "name" (VStr n)). }
  rewrite Hname. cbn [bind toLowerCase].
  rewrite <- (named_of_name lower fp fs n Hn).
  destruct i as [|i].
  - cbn in Hb', Hb. injection Hb' as <-. injection Hb as <-.
    now rewrite Hnamed.
  - rewrite (Hfirst 0%nat (VObj fs)) by (lia || reflexivity).
    apply (IH i Hbots); [|exact Hb]. split.
    + exists b'. now split.
    + intros j bot Hj Hbot'. apply (Hfirst (S j) bot); [lia|exact Hbot'].
Qed.

Lemma pickFlow_wrapper p cfg multi bots i fs T :
  forallb bot_ok bots = true ->
  picked p bots i -> nth_error bots i = Some (VObj fs) ->
  lookup "templates" fs = Some T -> T <> VUndefined ->
  exists ver name,
    pickFlow p cfg (jsonify (VObj (set_field "chatbots" (VArr bots) multi)))
    = Ok (VObj [("templates", jsonify T); ("version", ver)], VStr name, false).
Proof.
  intros Hok Hp Hi HT Hdef.
  assert (Hbot : bot_ok (VObj fs) = true).
  { rewrite forallb_forall in Hok. apply Hok. now apply nth_error_In with i. }
  destruct (bot_ok_name _ Hbot) as (fs' & n & Hfs & Hn).
  injection Hfs as <-.
  set (doc := jsonify (VObj (set_field "chatbots" (VArr bots) multi))).
  destruct (prop_total doc "version" eq_refl) as [version Hver].
  assert (Hflow : flowOfBot doc (json_item (VObj fs))
                  = Ok (VObj [("templates", jsonify T);
                              ("version", or_else version (VStr "1.0"))],
                        VStr n)).
  { unfold flowOfBot. rewrite json_item_object, <- jsonify_obj.
    rewrite (prop_jsonify_found fs "templates" T HT Hdef), Hver.
    rewrite (prop_jsonify_found fs "name" (VStr n) Hn) by discriminate.
    reflexivity. }
  exists (or_else version (VStr "1.0")), n.
  unfold pickFlow. subst doc.
  rewrite (prop_jsonify_found _ "chatbots" (VArr bots)
             (lookup_set_field_same _ _ _)) by discriminate.
  rewrite jsonify_arr. cbn [bind truthy isArray andb items_of].
  unfold picked in Hp. destruct (str_truthy (flowParam p)).
  - rewrite (findBot_picks _ _ bots i (VObj fs) Hok Hp Hi). cbn [bind].
    rewrite Hflow. reflexivity.
  - subst i. destruct bots as [|b0 bots]; [discriminate|].
    cbn in Hi. injection Hi as ->. cbn [map first_item].
    rewrite Hflow. reflexivity.
Qed.

(** X12.  What is saved is what is loaded.  When the stored document is
    one the editor can extend, and the canvas holds nodes as the page builds
    them whose routes give the edges [es], then [getCurrentFlowJson]
    returns a text with which the load effect of a page just opened under
    the same URL puts on the canvas the nodes of the saved canvas (same ids,
    types and positions; as template the saved one, carrying its position)
    and the edges [es] as a JSON text keeps them, marks the flow as loaded
    and shows the success toast only. *)
Theorem saved_flow_loads_back (p : Props) (s s0 : State) (es : list Edge.t) :
  stored_ok p = true ->
  Forall node_ok (nodes s) ->
  edgesOfTemplates (edgeType s0) (map Node.data (nodes s)) = Ok es ->
  just_opened s0 ->
  exists t s' name,
    getCurrentFlowJson p s = Ok t /\
    loadFlow (refetched p t) s0 = Ok s' /\
    nodes s' = map reimported (nodes s) /\
    edges s' = map edge_jsonified es /\
    (forallb edge_plain es = true -> edges s' = es) /\
    isFlowLoaded s' = true /\
    toasts s'
    = toasts s0
      ++ [{| kind := success;
             message := ("ChatBot flow " ++ dq ++ name ++ dq ++ " loaded")%string |}].
Proof.
  intros Hok Hnodes Hes Hopen.
  destruct (saved_wrapper p s Hok) as (multi & bots & i & fs & Hsave & Hi & HT & Hbok & Hp).
  set (cfg := {| chatbot_name := chatbot_name_of p;
                 flow_json := Some (JSON_stringify
                                      (VObj (set_field "chatbots" (VArr bots) multi)));
                 env := match data p with
                        | Some c => env c
                        | None => None
                        end |}).
  destruct (pickFlow_wrapper
              (refetched p (JSON_stringify
                              (VObj (set_field "chatbots" (VArr bots) multi))))
              cfg multi bots i fs (currentTemplates s) Hbok Hp Hi HT)
    as (ver & name & Hpick); [discriminate|].
  eexists _, _, name. split; [exact Hsave|].
  unfold loadFlow, refetched. cbn [data flow_json]. fold cfg.
  unfold just_opened in Hopen. rewrite Hopen.
  cbn [negb text_truthy JSON_stringify JSON_parse].
  unfold refetched in Hpick. fold cfg in Hpick. rewrite Hpick.
  cbn [bind truthy]. unfold prop at 1. cbn [lookup String.eqb Ascii.eqb Bool.eqb].
  unfold currentTemplates. rewrite jsonify_arr.
  cbn [truthy andb items_of bind].
  rewrite exported_items, (nodes_of_exported _ Hnodes). cbn [bind].
  rewrite (edgesOfTemplates_jsonify _ _ (keys_unique_all_exported _ Hnodes)).
  rewrite (edges_of_exported _ _ Hnodes), Hes. cbn [bind].
  split; [reflexivity|].
  cbn [nodes edges isFlowLoaded toasts toast saveToHistory setHistoryIndex
       setHistory setEdges setNodes setIsFlowLoaded toString].
  repeat (split; [reflexivity|]). split; [|split; reflexivity].
  intros Hplain. rewrite <- (map_id es) at 2. apply map_ext_in.
  intros e He. apply edge_plain_jsonified.
  rewrite forallb_forall in Hplain. now apply Hplain.
Qed.

Lemma saved_flow_loads_back_witness :
  stored_ok support_props = true /\
  Forall node_ok (nodes Examples.loaded) /\
  edgesOfTemplates (edgeType initial) (map Node.data (nodes Examples.loaded))
  = Ok [Routes.r1_edge] /\
  just_opened initial /\
  exists t s' name,
    getCurrentFlowJson support_props Examples.loaded = Ok t /\
    loadFlow (refetched support_props t) initial = Ok s' /\
    nodes s' = map reimported (nodes Examples.loaded) /\
    edges s' = map edge_jsonified [Routes.r1_edge] /\
    (forallb edge_plain [Routes.r1_edge] = true -> edges s' = [Routes.r1_edge]) /\
    isFlowLoaded s' = true /\
    toasts s'
    = toasts initial
      ++ [{| kind := success;
             message := ("ChatBot flow " ++ dq ++ name ++ dq ++ " loaded")%string |}].
Proof.
  assert (H : Forall node_ok (nodes Examples.loaded)).
  { repeat constructor. }
  split; [reflexivity|]. split; [exact H|]. split; [reflexivity|].
  split; [reflexivity|].
  exact (saved_flow_loads_back support_props Examples.loaded initial
           [Routes.r1_edge] eq_refl H eq_refl eq_refl).
Defined.

(** *** Loading one entry of a multi-chatbot document *)

Lemma findBot_found lower fp bots i b :
  forallb bot_ok bots = true ->
  first_named lower fp bots i -> nth_error bots i = Some b ->
  findBot lower fp bots = Ok b.
Proof.
  revert i. induction bots as [|bot bots IH];
    intros i Hok [(b' & Hb' & Hnamed) Hfirst] Hb; [now destruct i|].
  cbn [forallb] in Hok. apply andb_prop in Hok as [Hbot Hbots].
  destruct (bot_ok_name bot Hbot) as (fs & n & -> & Hn).
  cbn [findBot prop]. rewrite Hn. cbn [bind toLowerCase].
  rewrite <- (named_of_name lower fp fs n Hn).
  destruct i as [|i].
  - cbn in Hb', Hb. injection Hb' as <-. injection Hb as <-.
    now rewrite Hnamed.
  - rewrite (Hfirst 0%nat (VObj fs)) by (lia || reflexivity).
    apply (IH i Hbots); [|exact Hb]. split.
    + exists b'. now split.
    + intros j bot Hj Hbot'. apply (Hfirst (S j) bot); [lia|exact Hbot'].
Qed.

Lemma findBot_none lower fp bots :
  forallb bot_ok bots = true ->
  (forall bot, In bot bots -> named lower fp bot = false) ->
  findBot lower fp bots = Ok VUndefined.
Proof.
  induction bots as [|bot bots IH]; intros Hok Hnone; [reflexivity|].
  cbn [forallb] in Hok. apply andb_prop in Hok as [Hbot Hbots].
  destruct (bot_ok_name bot Hbot) as (fs & n & -> & Hn).
  cbn [findBot prop]. rewrite Hn. cbn [bind toLowerCase].
  rewrite <- (named_of_name lower fp fs n Hn), (Hnone (VObj fs)) by now left.
  apply IH; [exact Hbots|]. intros b Hb. apply Hnone. now right.
Qed.

(** Two runs of the effect that picked the same flow end alike. *)
Lemma loadFlow_alike p pa cfg cfga v s flow name namea (warn : bool) :
  data p = Some cfg -> flow_json cfg = Some (Json v) ->
  data pa = Some cfga -> flow_json cfga = Some (Json flow) ->
  just_opened s ->
  pickFlow p cfg v = Ok (flow, name, warn) ->
  pickFlow pa cfga flow = Ok (flow, namea, false) ->
  load_alike s
    (if warn then [not_found (name_or "" (flowParam p))] else [])
    (loadFlow pa s) (loadFlow p s).
Proof.
  intros Hd Hj Hda Hja Hopen Hp Hpa. unfold just_opened in Hopen.
  unfold loadFlow. rewrite Hd, Hj, Hda, Hja, Hopen.
  cbn [negb text_truthy JSON_parse]. rewrite Hp, Hpa. cbn [bind].
  destruct (if truthy flow then prop flow "templates" else Ok VUndefined)
    as [templates|e]; cbn [bind load_alike]; [|reflexivity].
  destruct (truthy flow && truthy templates).
  - destruct (items_of templates) as [ts|e]; cbn [bind load_alike];
      [|reflexivity].
    destruct (mapM nodeOfTemplate ts) as [newNodes|e]; cbn [bind load_alike];
      [|reflexivity].
    destruct (edgesOfTemplates (edgeType s) ts) as [newEdges|e];
      cbn [bind load_alike]; [|reflexivity].
    destruct warn; (split; [now repeat split|]);
      eexists _, _; (split; [reflexivity|]);
      (split; [cbn; rewrite <- ?app_assoc; reflexivity|reflexivity]).
  - destruct warn; (split; [now repeat split|]);
      eexists _, _; (split; [reflexivity|]);
      (split; [cbn; rewrite <- ?app_assoc; reflexivity|reflexivity]).
Qed.

(** X14.  A multi-chatbot document is loaded as the single flow of one of
    its entries.  With named entries in the stored [chatbots] array, the
    load effect of a page just opened ends as it does on the document
    { templates, version } made of the picked entry (the first one named by
    the flow parameter, letter case aside, or the first one without a
    parameter): the same exception, or the same canvas, history and one
    toast.  When the flow parameter names no entry, the effect does so with
    the first entry and shows the "not found" warning before.  Names are
    compared as the code compares them, after the engine's [toLowerCase],
    whatever that function is. *)
Theorem multi_chatbot_load_shows_one_entry
  (p : Props) (v : value) (bots : list value) (s : State) :
  holds p v ->
  prop v "chatbots" = Ok (VArr bots) ->
  forallb bot_ok bots = true ->
  just_opened s ->
  (forall i bot,
     picked p bots i -> nth_error bots i = Some bot ->
     exists flow name,
       flowOfBot v bot = Ok (flow, name) /\
       load_alike s [] (loadFlow (single p flow) s) (loadFlow p s)) /\
  (str_truthy (flowParam p) = true ->
   (forall bot,
      In bot bots -> named (lower p) (name_or "" (flowParam p)) bot = false) ->
   forall bot,
     nth_error bots 0 = Some bot ->
     exists flow name,
       flowOfBot v bot = Ok (flow, name) /\
       load_alike s [not_found (name_or "" (flowParam p))]
         (loadFlow (single p flow) s) (loadFlow p s)).
Proof.
  intros (cfg & Hdata & Hjson) Hc Hok Hopen.
  assert (Hflow : forall bot, In bot bots ->
            truthy bot = true /\
            exists templates version name,
              flowOfBot v bot
              = Ok (VObj [("templates", templates); ("version", version)], name)).
  { intros bot Hin. rewrite forallb_forall in Hok.
    destruct (bot_ok_name bot (Hok bot Hin)) as (fs & n & -> & Hn).
    split; [reflexivity|]. unfold flowOfBot.
    destruct (prop_total (VObj fs) "templates" eq_refl) as [t ->].
    destruct (prop_total v "version") as [ver ->].
    { now destruct v. }
    destruct (prop_total (VObj fs) "name" eq_refl) as [nm ->].
    cbn [bind]. eauto. }
  assert (Hsingle : forall templates version,
            let flow := VObj [("templates", templates); ("version", version)] in
            data (single p flow)
            = Some {| chatbot_name := chatbot_name cfg;
                      flow_json := Some (Json flow); env := env cfg |} /\
            pickFlow (single p flow)
              {| chatbot_name := chatbot_name cfg;
                 flow_json := Some (Json flow); env := env cfg |} flow
            = Ok (flow, VStr (name_or "untitled" (chatbot_name cfg)), false)).
  { intros templates version. cbn zeta. unfold single. rewrite Hdata.
    split; reflexivity. }
  assert (Hgo : forall bot name0 (warn : bool),
            In bot bots ->
            (forall flow name, flowOfBot v bot = Ok (flow, name) ->
               pickFlow p cfg v = Ok (flow, name0 name, warn)) ->
            exists flow name,
              flowOfBot v bot = Ok (flow, name) /\
              load_alike s
                (if warn then [not_found (name_or "" (flowParam p))] else [])
                (loadFlow (single p flow) s) (loadFlow p s)).
  { intros bot name0 warn Hin Hpick.
    destruct (Hflow bot Hin) as (_ & templates & version & name & Hf).
    destruct (Hsingle templates version) as (Hds & Hps).
    eexists _, _. split; [exact Hf|].
    eapply (loadFlow_alike p _ cfg _ v s);
      [exact Hdata|exact Hjson|exact Hds|reflexivity|exact Hopen
      |exact (Hpick _ _ Hf)|exact Hps]. }
  assert (Hstart :
            pickFlow p cfg v
            = (if str_truthy (flowParam p)
               then foundBot <- findBot (lower p)
                                 (name_or "" (flowParam p)) bots ;;
                    if truthy foundBot
                    then r <- flowOfBot v foundBot ;; Ok (fst r, snd r, false)
                    else r <- flowOfBot v (first_item bots) ;;
                         Ok (fst r, snd r, true)
               else r <- flowOfBot v (first_item bots) ;;
                    Ok (fst r, snd r, false))).
  { unfold pickFlow. rewrite Hc. reflexivity. }
  split.
  - intros i bot Hp Hi.
    assert (Hin : In bot bots) by now apply nth_error_In with i.
    apply (Hgo bot (fun name => name) false Hin).
    intros flow name Hf. rewrite Hstart. unfold picked in Hp.
    destruct (str_truthy (flowParam p)).
    + rewrite (findBot_found _ _ bots i bot Hok Hp Hi). cbn [bind].
      destruct (Hflow bot Hin) as (-> & _). now rewrite Hf.
    + subst i. destruct bots as [|b0 bots']; [discriminate|].
      cbn in Hi. injection Hi as ->. cbn [first_item]. now rewrite Hf.
  - intros Hfp Hnone bot Hi.
    assert (Hin : In bot bots) by now apply nth_error_In with 0%nat.
    apply (Hgo bot (fun name => name) true Hin).
    intros flow name Hf. rewrite Hstart, Hfp.
    rewrite (findBot_none _ _ bots Hok Hnone). cbn [bind truthy].
    destruct bots as [|b0 bots']; [discriminate|].
    cbn in Hi. injection Hi as ->. cbn [first_item]. now rewrite Hf.
Qed.

Lemma multi_chatbot_load_shows_one_entry_witness :
  holds unknown_props two_bots /\
  prop two_bots "chatbots"
  = Ok (VArr [VObj [("name", VStr "Shop"); ("templates", VArr [])];
              VObj [("name", VStr "Support"); ("templates", VArr [])]]) /\
  forallb bot_ok
    [VObj [("name", VStr "Shop"); ("templates", VArr [])];
     VObj [("name", VStr "Support"); ("templates", VArr [])]] = true /\
  just_opened initial /\
  str_truthy (flowParam unknown_props) = true /\
  (forall bot,
     In bot [VObj [("name", VStr "Shop"); ("templates", VArr [])];
             VObj [("name", VStr "Support"); ("templates", VArr [])]] ->
     named (lower unknown_props) (name_or "" (flowParam unknown_props)) bot
     = false) /\
  exists flow name,
    flowOfBot two_bots (VObj [("name", VStr "Shop"); ("templates", VArr [])])
    = Ok (flow, name) /\
    load_alike initial [not_found (name_or "" (flowParam unknown_props))]
      (loadFlow (single unknown_props flow) initial)
      (loadFlow unknown_props initial).
Proof.
  assert (H : holds unknown_props two_bots).
  { eexists. split; reflexivity. }
  assert (Hnone : forall bot,
            In bot [VObj [("name", VStr "Shop"); ("templates", VArr [])];
                    VObj [("name", VStr "Support"); ("templates", VArr [])]] ->
            named (lower unknown_props)
              (name_or "" (flowParam unknown_props)) bot = false).
  { intros bot [<-|[<-|[]]]; reflexivity. }
  split; [exact H|]. repeat (split; [reflexivity|]). split; [exact Hnone|].
  exact (proj2 (multi_chatbot_load_shows_one_entry unknown_props two_bots _
                  initial H eq_refl eq_refl eq_refl)
           eq_refl Hnone _ eq_refl).
Defined.

End ReloadFacts.

(** ** Undo after two actions *)

Module HistoryFacts.
Import Index Run History RunFacts.

(** A recording handler leaves the stack cut after the pointer, with the
    canvas of its render on top and the pointer on that entry. *)
Lemma recording_after e s s' :
  recording e = true -> after e s = Ok s' ->
  history s' = slice0 (history s) (historyIndex s + 1) ++ [canvas_of s] /\
  historyIndex s' = Z.of_nat (List.length (history s')) - 1.
Proof.
  destruct e; try discriminate; intros _; cbn [after]; intros H.
  - unfold onConnect in H. unbind H. returned H. split; reflexivity.
  - unfold onEdgesDelete in H. unbind H. returned H. split; reflexivity.
  - returned H. split; reflexivity.
  - unfold updateTemplate in H. unbind H. returned H. split; reflexivity.
  - returned H. split; reflexivity.
Qed.

Lemma slice0_all {A} (xs : list A) :
  slice0 xs (Z.of_nat (List.length xs) - 1 + 1) = xs.
Proof.
  unfold slice0. replace (Z.of_nat (List.length xs) - 1 + 1)
    with (Z.of_nat (List.length xs)) by lia.
  replace (Z.of_nat (List.length xs) <? 0) with false
    by (symmetry; apply Z.ltb_ge; lia).
  rewrite Nat2Z.id. apply firstn_all.
Qed.

Lemma at_index_app_last {A} (xs : list A) (x y : A) :
  at_index ((xs ++ [x]) ++ [y]) (Z.of_nat (List.length xs)) = Some x /\
  at_index ((xs ++ [x]) ++ [y]) (Z.of_nat (List.length xs) + 1) = Some y.
Proof.
  unfold at_index.
  replace (Z.of_nat (List.length xs) <? 0) with false
    by (symmetry; apply Z.ltb_ge; lia).
  replace (Z.of_nat (List.length xs) + 1 <? 0) with false
    by (symmetry; apply Z.ltb_ge; lia).
  replace (Z.to_nat (Z.of_nat (List.length xs) + 1))
    with (S (List.length xs)) by lia.
  rewrite Nat2Z.id. split.
  - rewrite nth_error_app1 by (rewrite length_app; cbn; lia).
    rewrite nth_error_app2 by lia. now rewrite Nat.sub_diag.
  - rewrite nth_error_app2 by (rewrite length_app; cbn; lia).
    rewrite length_app. cbn [List.length].
    now replace (S (List.length xs) - (List.length xs + 1))%nat with 0%nat by lia.
Qed.

(** X15.  One undo takes back two actions.  After two handlers that
    record history (connect, delete edges, add or update a template,
    auto-layout) have run, with nothing in between that touched the history
    (drags, selections, style toggles and saves do not), [handleUndo] puts
    the canvas from before the first of them on the page, not the canvas
    from before the second; [handleRedo] then brings the canvas from before
    the second, and a further redo changes nothing: redo stops at the
    canvas from before the second action. *)
Theorem one_undo_takes_back_two_actions
  (e1 e2 : Event) (s0 s1 s1' s2 : State) :
  recording e1 = true -> recording e2 = true ->
  after e1 s0 = Ok s1 ->
  history s1' = history s1 -> historyIndex s1' = historyIndex s1 ->
  after e2 s1' = Ok s2 ->
  exists s3 s4,
    handleUndo s2 = Ok s3 /\ canvas_of s3 = canvas_of s0 /\
    handleRedo s3 = Ok s4 /\ canvas_of s4 = canvas_of s1' /\
    handleRedo s4 = Ok s4.
Proof.
  intros R1 R2 H1 Hsame Hsame' H2.
  destruct (recording_after e1 s0 s1 R1 H1) as (Hh1 & Hi1).
  destruct (recording_after e2 s1' s2 R2 H2) as (Hh2 & Hi2).
  rewrite Hsame, Hsame', Hi1, slice0_all in Hh2. rewrite Hh2 in Hi2.
  set (A := slice0 (history s0) (historyIndex s0 + 1)) in *.
  rewrite Hh1 in Hh2.
  assert (Hlen : Z.of_nat (List.length ((A ++ [canvas_of s0]) ++ [canvas_of s1']))
                 = Z.of_nat (List.length A) + 2).
  { rewrite !length_app. cbn [List.length]. lia. }
  rewrite Hh1, Hlen in Hi2.
  destruct (at_index_app_last A (canvas_of s0) (canvas_of s1')) as (Ha0 & Ha1).
  unfold handleUndo. rewrite Hi2, Hh2.
  replace (Z.of_nat (List.length A) + 2 - 1 >? 0) with true
    by (symmetry; apply Z.gtb_lt; lia).
  replace (Z.of_nat (List.length A) + 2 - 1 - 1) with (Z.of_nat (List.length A))
    by lia.
  rewrite Ha0. eexists _, _. split; [reflexivity|]. split; [reflexivity|].
  unfold handleRedo at 1.
  cbn [historyIndex history setHistoryIndex setEdges setNodes].
  rewrite Hh2, Hlen.
  replace (Z.of_nat (List.length A) <? Z.of_nat (List.length A) + 2 - 1) with true
    by (symmetry; apply Z.ltb_lt; lia).
  rewrite Ha1. split; [reflexivity|]. split; [reflexivity|].
  unfold handleRedo.
  cbn [historyIndex history setHistoryIndex setEdges setNodes].
  rewrite Hh2, Hlen.
  replace (Z.of_nat (List.length A) + 1 <? Z.of_nat (List.length A) + 2 - 1)
    with false by (symmetry; apply Z.ltb_ge; lia).
  reflexivity.
Qed.

Lemma one_undo_takes_back_two_actions_witness :
  recording (TemplateAdded "button" 1700000000500 300 80) = true /\
  recording (TemplateAdded "list" 1700000000800 20 400) = true /\
  after (TemplateAdded "button" 1700000000500 300 80) UndoRedo.one_added
  = Ok Routes.two_added /\
  history dragged = history Routes.two_added /\
  historyIndex dragged = historyIndex Routes.two_added /\
  after (TemplateAdded "list" 1700000000800 20 400) dragged = Ok three_added /\
  exists s3 s4,
    handleUndo three_added = Ok s3 /\
    canvas_of s3 = canvas_of UndoRedo.one_added /\
    handleRedo s3 = Ok s4 /\ canvas_of s4 = canvas_of dragged /\
    handleRedo s4 = Ok s4.
Proof.
  repeat (split; [reflexivity|]).
  exact (one_undo_takes_back_two_actions
           (TemplateAdded "button" 1700000000500 300 80)
           (TemplateAdded "list" 1700000000800 20 400)
           UndoRedo.one_added Routes.two_added dragged three_added
           eq_refl eq_refl eq_refl eq_refl eq_refl eq_refl).
Defined.

End HistoryFacts.

(** ** A connection drawn from a route *)

Module ConnectionFacts.
Import Index Shape Routes Editing Connections JSFacts RunFacts EditingFacts.

Lemma strict_eq_str x s : strict_eq x (VStr s) = true -> x = VStr s.
Proof.
  destruct x; try discriminate. cbn. intros H.
  apply String.eqb_eq in H. now subst.
Qed.

Lemma object_prop r k : is_object r = true -> prop r k = Ok (opt_prop r k).
Proof. destruct r; try discriminate. intros _. now apply defined_prop. Qed.

(** [find] returns a route of the list with the id asked for. *)
Lemma findRoute_first h rs route :
  forallb is_object rs = true ->
  findRoute h rs = Ok route -> truthy route = true ->
  In route rs /\ strict_eq (opt_prop route "id") h = true.
Proof.
  induction rs as [|r rs IH]; cbn [findRoute forallb]; intros Hobj H Ht.
  - returned H. discriminate.
  - apply andb_prop in Hobj as [Hr Hrs].
    rewrite (object_prop r "id" Hr) in H. cbn [bind] in H.
    destruct (strict_eq (opt_prop r "id") h) eqn:E.
    + returned H. split; [now left|exact E].
    + destruct (IH Hrs H Ht) as [Hin Hid]. split; [now right|exact Hid].
Qed.

Lemma findRoute_finds h rs r :
  forallb is_object rs = true ->
  In r rs -> strict_eq (opt_prop r "id") h = true ->
  exists route, findRoute h rs = Ok route /\ truthy route = true.
Proof.
  induction rs as [|r0 rs IH]; cbn [findRoute forallb]; intros Hobj Hin Hid;
    [destruct Hin|].
  apply andb_prop in Hobj as [Hr Hrs].
  rewrite (object_prop r0 "id" Hr). cbn [bind].
  destruct (strict_eq (opt_prop r0 "id") h) eqn:E.
  - exists r0. split; [reflexivity|]. now destruct r0.
  - destruct Hin as [->|Hin]; [congruence|]. now apply IH.
Qed.

Lemma mapM_In {A B} (f : A -> result B) xs ys x :
  mapM f xs = Ok ys -> In x xs -> exists y, f x = Ok y /\ In y ys.
Proof.
  intros H. apply mapM_Ok_Forall2 in H.
  induction H as [|x0 y0 xs ys Hxy _ IH]; intros Hin; [destruct Hin|].
  destruct Hin as [->|Hin].
  - exists y0. split; [exact Hxy|now left].
  - destruct (IH Hin) as (y & Hy & Hiny). exists y. split; [exact Hy|now right].
Qed.

Lemma connectRoute_object h t r :
  is_object r = true ->
  exists r', connectRoute h t r = Ok r' /\ is_object r' = true.
Proof.
  intros Hr. unfold connectRoute. rewrite (object_prop r "id" Hr). cbn [bind].
  destruct (strict_eq (opt_prop r "id") h); eexists; split;
    try reflexivity; assumption.
Qed.

Lemma edgesOfRoute_returns et d r :
  defined d = true -> is_object r = true ->
  exists es, edgesOfRoute et d r = Ok es.
Proof.
  intros Hd Hr. unfold edgesOfRoute.
  rewrite !(object_prop r _ Hr), (defined_prop d "id" Hd). cbn [bind].
  destruct (truthy (opt_prop r "connectedTo")); eauto.
Qed.

(** The edge derived from a route that was just connected. *)
Lemma edgesOfRoute_connected et d route t :
  defined d = true -> is_object route = true -> truthy t = true ->
  edgesOfRoute et d (VObj (set_field "connectedTo" t (spread route)))
  = Ok [{| Edge.id := edgeId (opt_prop d "id") (opt_prop route "id") t;
           Edge.source := opt_prop d "id";
           Edge.sourceHandle := opt_prop route "id";
           Edge.target := t;
           Edge.targetHandle := VUndefined;
           Edge.type := et;
           Edge.animated := true;
           Edge.label := edgeLabel (opt_prop route "pattern")
                           (opt_prop route "isRegex");
           Edge.isRegex := opt_prop route "isRegex";
           Edge.edgeType := et |}].
Proof.
  intros Hd Hr Ht. destruct route as [| | | | | |fs]; try discriminate.
  unfold edgesOfRoute. cbn [spread].
  rewrite prop_set_same. cbn [bind]. rewrite Ht.
  rewrite !prop_set_other by discriminate.
  rewrite !(object_prop (VObj fs) _ eq_refl), (defined_prop d "id" Hd).
  reflexivity.
Qed.

(** X16.  A connection drawn from the handle of a route is stored as it is
    drawn.  When both ends are given, the source and the handle are strings
    and the handle names a route of the first node with the source's id
    (a node that carries the id of its template), [onConnect] hands to
    [addEdge] an edge from source and handle to the target, and afterwards a
    node with that id is on the canvas from whose template the load effect
    and the import derive that same edge (id, ends, handle, label, style),
    less its target handle. *)
Theorem route_connection_is_stored_as_drawn
  (addEdge : Edge.t -> list Edge.t -> list Edge.t) (now : Z)
  (params : Connection) (src hs : string) (n : Node.t)
  (rs : list value) (r : value) (s s' : State) :
  templates_ok s ->
  conn_source params = VStr src -> src <> "" ->
  conn_sourceHandle params = VStr hs -> hs <> "" ->
  truthy (conn_target params) = true ->
  findNode (VStr src) (nodes s) = Some n ->
  opt_prop (Node.data n) "id" = Node.id n ->
  routes_of (Node.data n) = Some rs ->
  In r rs -> opt_prop r "id" = VStr hs ->
  onConnect addEdge now params s = Ok s' ->
  exists e n' es,
    edges s' = addEdge e (edges s) /\
    Edge.id e = edgeId (VStr src) (VStr hs) (conn_target params) /\
    Edge.source e = VStr src /\ Edge.sourceHandle e = VStr hs /\
    Edge.target e = conn_target params /\
    In n' (nodes s') /\ Node.id n' = VStr src /\
    edgesOfTemplate (edgeType s) (Node.data n') = Ok es /\
    In (as_derived e) es.
Proof.
  intros Hok Hsrc Hsne Hh Hhne Ht Hfind Hid Hrs Hr Hrid Hc.
  assert (Hhandle : or_else (conn_sourceHandle params) (VStr "default") = VStr hs).
  { rewrite Hh. unfold or_else. cbn [truthy].
    destruct (hs =? "")%string eqn:E; [|reflexivity].
    apply String.eqb_eq in E. contradiction. }
  assert (Hboth : truthy (conn_source params) && truthy (conn_target params)
                  = true).
  { rewrite Hsrc, Ht. cbn [truthy].
    destruct (src =? "")%string eqn:E; [|reflexivity].
    apply String.eqb_eq in E. contradiction. }
  pose proof (onConnect_nodes addEdge now params s s' Hboth Hc) as Hm.
  unfold handle_of in Hm. rewrite Hhandle, Hsrc in Hm.
  unfold findNode in Hfind. pose proof (find_some _ _ Hfind) as [Hin Hnid].
  apply strict_eq_str in Hnid.
  destruct (RoutesFacts.routes_of_inv _ _ Hrs)
    as (fs & routes & Hdat & Hroutes & Hor & Hobj & Hnull & Harr).
  assert (Hnn : nullish routes = false).
  { destruct (nullish routes); [|reflexivity].
    rewrite (Hnull eq_refl) in Hr. destruct Hr. }
  specialize (Harr Hnn). subst routes.
  destruct (findRoute_finds (VStr hs) rs r Hobj Hr) as (route & Hroute & Htr).
  { rewrite Hrid. cbn. apply String.eqb_refl. }
  destruct (findRoute_first (VStr hs) rs route Hobj Hroute Htr) as [Hrin Hroid].
  apply strict_eq_str in Hroid.
  assert (Hro : is_object route = true).
  { rewrite forallb_forall in Hobj. now apply Hobj. }
  (* the edge *)
  unfold onConnect in Hc. rewrite Hhandle, Hsrc in Hc.
  fold (findNode (VStr src) (nodes s)) in Hfind. rewrite Hfind in Hc.
  rewrite Hroutes in Hc. cbn [bind nullish items_of] in Hc.
  rewrite Hroute in Hc. cbn [bind] in Hc. rewrite Htr in Hc.
  rewrite !(object_prop route _ Hro) in Hc. cbn [bind] in Hc.
  apply bind_Ok in Hc as (s2 & Hs2 & Hc). returned Hc.
  rewrite Hsrc in Hboth. rewrite Hboth in Hs2.
  apply bind_Ok in Hs2 as (nds & _ & Hs2). returned Hs2.
  (* the node *)
  destruct (mapM_In _ _ _ n Hm Hin) as (n' & Hn' & Hin').
  unfold connectNode in Hn'. rewrite Hnid in Hn'.
  replace (strict_eq (VStr src) (VStr src)) with true in Hn'
    by (symmetry; cbn; apply String.eqb_refl).
  rewrite Hroutes in Hn'. cbn [bind] in Hn'.
  change (or_else (VArr rs) (VArr [])) with (VArr rs) in Hn'.
  replace (strict_eq (VStr hs) (VStr "default") && length_is_zero (VArr rs))
    with false in Hn'
    by (destruct rs; [destruct Hr|cbn; now rewrite andb_false_r]).
  cbn [items_of bind] in Hn'.
  apply bind_Ok in Hn' as (rs' & Hrs' & Hn'). returned Hn'.
  (* the derived edges *)
  set (d' := VObj (set_field "routes" (VArr rs') (spread (Node.data n)))).
  assert (Hd' : defined d' = true) by reflexivity.
  assert (Hobj' : Forall (fun r' => is_object r' = true) rs').
  { apply mapM_Ok_Forall2 in Hrs'.
    apply RoutesFacts.forallb_Forall in Hobj. clear -Hrs' Hobj.
    induction Hrs' as [|r0 r0' rs0 rs0' H0 _ IH]; [constructor|].
    inversion Hobj as [|? ? Hr0 Hrs0]; subst.
    constructor; [|now apply IH].
    destruct (connectRoute_object (VStr hs) (conn_target params) r0 Hr0)
      as (r1 & Hr1 & Ho1).
    rewrite H0 in Hr1. now injection Hr1 as ->. }
  destruct (mapM_Forall (edgesOfRoute (edgeType s) d') _ (fun _ => True) rs'
              (fun r' Hr' =>
                 match edgesOfRoute_returns (edgeType s) d' r' Hd' Hr' with
                 | ex_intro _ es He => ex_intro _ es (conj He I)
                 end) Hobj') as (ess & Hess & _).
  destruct (mapM_In _ _ _ route Hrs' Hrin) as (route' & Hroute' & Hrin').
  unfold connectRoute in Hroute'. rewrite (object_prop route "id" Hro) in Hroute'.
  rewrite Hroid in Hroute'. cbn [bind] in Hroute'.
  replace (strict_eq (VStr hs) (VStr hs)) with true in Hroute'
    by (symmetry; cbn; apply String.eqb_refl).
  injection Hroute' as <-.
  destruct (mapM_In _ _ _ _ Hess Hrin') as (es0 & Hes0 & Hin0).
  rewrite (edgesOfRoute_connected _ d' route _ Hd' Hro Ht) in Hes0.
  injection Hes0 as <-.
  assert (Hdid : opt_prop d' "id" = VStr src).
  { unfold d', opt_prop. rewrite prop_set_other by discriminate.
    rewrite Hdat. cbn [spread]. fold (opt_prop (VObj fs) "id").
    rewrite <- Hdat, Hid. exact Hnid. }
  rewrite Hdid, Hroid in Hin0.
  eexists _, (with_routes (VArr rs') n), (List.concat ess).
  cbn [edges nodes saveToHistory setHistoryIndex setHistory setNodes setEdges].
  split; [reflexivity|].
  cbn [Edge.id Edge.source Edge.sourceHandle Edge.target].
  repeat (split; [reflexivity|]).
  split; [exact Hin'|]. split; [exact Hnid|]. split.
  - unfold edgesOfTemplate, with_routes. cbn [Node.data Node.with_data].
    rewrite prop_set_same. cbn [bind nullish items_of]. fold d'.
    now rewrite Hess.
  - apply in_concat. eexists. split; [exact Hin0|]. now left.
Qed.

Lemma route_connection_is_stored_as_drawn_witness :
  templates_ok Examples.welcome_selected /\
  conn_source r2_to_menu = VStr "welcome" /\ "welcome" <> "" /\
  conn_sourceHandle r2_to_menu = VStr "r2" /\ "r2" <> "" /\
  truthy (conn_target r2_to_menu) = true /\
  findNode (VStr "welcome") (nodes Examples.welcome_selected) = Some Sidebar.welcome_node /\
  opt_prop (Node.data Sidebar.welcome_node) "id" = Node.id Sidebar.welcome_node /\
  routes_of (Node.data Sidebar.welcome_node)
  = Some [VObj [("id", VStr "r1"); ("pattern", VStr "menu");
                ("isRegex", VBool false); ("connectedTo", VStr "menu")];
          VObj [("id", VStr "r2"); ("pattern", VStr ".*");
                ("isRegex", VBool true)]] /\
  exists e n' es,
    edges Sidebar.connected = appendEdge e (edges Examples.welcome_selected) /\
    Edge.id e = edgeId (VStr "welcome") (VStr "r2") (conn_target r2_to_menu) /\
    Edge.source e = VStr "welcome" /\ Edge.sourceHandle e = VStr "r2" /\
    Edge.target e = conn_target r2_to_menu /\
    In n' (nodes Sidebar.connected) /\ Node.id n' = VStr "welcome" /\
    edgesOfTemplate (edgeType Examples.welcome_selected) (Node.data n') = Ok es /\
    In (as_derived e) es.
Proof.
  assert (H : templates_ok Examples.welcome_selected) by repeat constructor.
  split; [exact H|]. split; [reflexivity|]. split; [discriminate|].
  split; [reflexivity|]. split; [discriminate|].
  repeat (split; [reflexivity|]).
  refine (route_connection_is_stored_as_drawn appendEdge 5 r2_to_menu
            "welcome" "r2" Sidebar.welcome_node _
            (VObj [("id", VStr "r2"); ("pattern", VStr ".*");
                   ("isRegex", VBool true)])
            Examples.welcome_selected Sidebar.connected H eq_refl _ eq_refl _ eq_refl
            eq_refl eq_refl eq_refl _ eq_refl eq_refl);
    [discriminate|discriminate|right; left; reflexivity].
Defined.

Lemma mapM_sublist {A B} (f : A -> result B) xs ys xs' :
  mapM f xs = Ok ys -> (forall x, In x xs' -> In x xs) ->
  exists ys', mapM f xs' = Ok ys'.
Proof.
  intros H. induction xs' as [|x xs' IH]; intros Hsub; [now exists []|].
  destruct (mapM_In f xs ys x H (Hsub x (or_introl eq_refl))) as (y & Hy & _).
  destruct IH as (ys' & Hys'); [intros z Hz; apply Hsub; now right|].
  cbn [mapM]. rewrite Hy, Hys'. cbn [bind]. eauto.
Qed.

(** X17.  [deleteTemplate] takes the selected template and the edges at it
    off the canvas but leaves the routes that lead to it: unlike
    [onEdgesDelete] it clears no [connectedTo].  If the templates on the
    canvas derive their edges, and a node with another id derives an edge
    to the selected template, then after the deletion no node has the
    deleted id and no edge on the canvas leads to it, yet the templates left
    on the canvas, which are what a save stores, still derive that edge: the
    load effect and the import will draw it to a template that no node
    carries. *)
Theorem deleted_template_stays_connected
  (s : State) (sid : value) (n : Node.t) (et : EdgeType)
  (all esn : list Edge.t) (e : Edge.t) :
  truthy (selectedTemplate s) = true ->
  prop (selectedTemplate s) "id" = Ok sid ->
  edgesOfTemplates et (map Node.data (nodes s)) = Ok all ->
  In n (nodes s) -> strict_eq (Node.id n) sid = false ->
  edgesOfTemplate et (Node.data n) = Ok esn ->
  In e esn -> strict_eq (Edge.target e) sid = true ->
  exists s' es',
    deleteTemplate s = Ok s' /\
    (forall n', In n' (nodes s') -> strict_eq (Node.id n') sid = false) /\
    (forall e', In e' (edges s') -> strict_eq (Edge.target e') sid = false) /\
    edgesOfTemplates et (map Node.data (nodes s')) = Ok es' /\
    In e es'.
Proof.
  intros Hsel Hsid Hall Hin Hnid Hes He Htarget.
  unfold deleteTemplate. rewrite Hsel, Hsid. cbn [negb bind].
  set (kept := filter (fun node => negb (strict_eq (Node.id node) sid)) (nodes s)).
  assert (Hkept : In n kept).
  { apply filter_In. split; [exact Hin|]. now rewrite Hnid. }
  unfold edgesOfTemplates in Hall. apply bind_Ok in Hall as (ess & Hess & _).
  destruct (mapM_sublist _ _ _ (map Node.data kept) Hess) as (ess' & Hess').
  { intros d Hd. apply in_map_iff in Hd as (n0 & <- & Hn0).
    apply in_map. now apply filter_In in Hn0 as [Hn0 _]. }
  destruct (mapM_In _ _ _ (Node.data n) Hess' (in_map _ _ _ Hkept))
    as (esn' & Hesn' & Hinn).
  rewrite Hes in Hesn'. injection Hesn' as <-.
  eexists _, (List.concat ess'). split; [reflexivity|].
  cbn [nodes edges toast saveToHistory setHistoryIndex setHistory
       setSelectedTemplate setEdges setNodes].
  fold kept. split; [|split; [|split]].
  - intros n' Hn'. apply filter_In in Hn' as [_ Hn'].
    now apply negb_true_iff in Hn'.
  - intros e' He'. apply filter_In in He' as [_ He'].
    apply andb_prop in He' as [_ He']. now apply negb_true_iff in He'.
  - unfold edgesOfTemplates. now rewrite Hess'.
  - apply in_concat. exists esn. now split.
Qed.

Lemma deleted_template_stays_connected_witness :
  truthy (selectedTemplate menu_selected) = true /\
  prop (selectedTemplate menu_selected) "id" = Ok (VStr "menu") /\
  edgesOfTemplates Default (map Node.data (nodes menu_selected))
  = Ok [r1_edge] /\
  In Sidebar.welcome_node (nodes menu_selected) /\
  strict_eq (Node.id Sidebar.welcome_node) (VStr "menu") = false /\
  edgesOfTemplate Default (Node.data Sidebar.welcome_node) = Ok [r1_edge] /\
  In r1_edge [r1_edge] /\
  strict_eq (Edge.target r1_edge) (VStr "menu") = true /\
  exists s' es',
    deleteTemplate menu_selected = Ok s' /\
    (forall n', In n' (nodes s') -> strict_eq (Node.id n') (VStr "menu") = false) /\
    (forall e', In e' (edges s') ->
                strict_eq (Edge.target e') (VStr "menu") = false) /\
    edgesOfTemplates Default (map Node.data (nodes s')) = Ok es' /\
    In r1_edge es'.
Proof.
  assert (Hin : In Sidebar.welcome_node (nodes menu_selected)) by now left.
  assert (He : In r1_edge [r1_edge]) by now left.
  split; [reflexivity|]. split; [reflexivity|]. split; [reflexivity|].
  split; [exact Hin|].
  split; [reflexivity|]. split; [reflexivity|]. split; [exact He|].
  split; [reflexivity|].
  exact (deleted_template_stays_connected menu_selected (VStr "menu")
           Sidebar.welcome_node Default [r1_edge] [r1_edge] r1_edge
           eq_refl eq_refl eq_refl Hin eq_refl eq_refl He eq_refl).
Defined.

End ConnectionFacts.

(** ** Saving again *)

Module SaveAgainFacts.
Import Index Shape Wrapper Stored Reload JSFacts JsonFacts SerializeFacts
  ReloadFacts.

(** What a JSON text keeps of a value holds no [undefined]. *)
Lemma json_item_clean v : json_clean (json_item v) = true.
Proof.
  induction v as [| | | | |xs IH|fs IH] using value_induction; try reflexivity.
  - change (json_item (VArr xs)) with (VArr (map json_item xs)).
    cbn [json_clean].
    induction IH as [|x xs Hx _ IHxs]; [reflexivity|].
    cbn [map forallb]. now rewrite Hx, IHxs.
  - rewrite json_item_object. cbn [json_clean].
    induction IH as [|[k x] fs Hx _ IHfs]; [reflexivity|].
    rewrite json_fields_cons. cbn [snd] in Hx.
    destruct x; try exact IHfs; cbn [forallb snd]; rewrite IHfs, andb_true_r;
      exact Hx.
Qed.

Lemma json_fields_clean fs :
  forallb (fun kv => json_clean (snd kv)) (json_fields fs) = true.
Proof. exact (json_item_clean (VObj fs)). Qed.

Lemma clean_fields F :
  forallb (fun kv => json_clean (snd kv)) F = true -> json_fields F = F.
Proof.
  intros H. pose proof (json_clean_jsonify (VObj F) H) as E.
  rewrite jsonify_obj in E. now injection E.
Qed.

(** A second trip through a JSON text changes nothing. *)
Lemma json_item_again v : json_item (json_item v) = json_item v.
Proof.
  pose proof (json_clean_jsonify _ (json_item_clean v)) as E.
  destruct v; exact E.
Qed.

(** Writing into a parsed object the value its property already holds
    gives the same text. *)
Lemma json_fields_set_same k v F w :
  forallb (fun kv => json_clean (snd kv)) F = true ->
  lookup k F = Some w -> v <> VUndefined -> jsonify v = w ->
  json_fields (set_field k v F) = F.
Proof.
  intros Hc Hl Hv Hj. induction F as [|[k' x] F IH]; [discriminate|].
  cbn [forallb snd] in Hc. apply andb_prop in Hc as [Hx HF].
  cbn [lookup] in Hl. cbn [set_field].
  destruct (k' =? k)%string eqn:E.
  - injection Hl as ->. apply String.eqb_eq in E. subst k'.
    rewrite json_fields_kept by assumption.
    now rewrite Hj, (clean_fields F HF).
  - rewrite json_fields_kept by (destruct x; discriminate).
    now rewrite (json_clean_jsonify x Hx), (IH HF Hl).
Qed.

Lemma first_named_unique lower fp bots i j :
  first_named lower fp bots i -> first_named lower fp bots j -> i = j.
Proof.
  intros [(bi & Hbi & Hni) Hfi] [(bj & Hbj & Hnj) Hfj].
  destruct (Nat.lt_trichotomy i j) as [Hlt|[Heq|Hgt]]; [|exact Heq|].
  - rewrite (Hfj i bi Hlt Hbi) in Hni. discriminate.
  - rewrite (Hfi j bj Hgt Hbj) in Hnj. discriminate.
Qed.

Lemma findBotIndex_first lower fp bots i :
  forallb bot_ok bots = true -> first_named lower fp bots i ->
  findBotIndex lower fp bots = Ok (Some i).
Proof.
  intros Hok Hi.
  destruct (findBotIndex_spec lower fp bots Hok) as ([j|] & -> & Hspec).
  - now rewrite (first_named_unique lower fp bots i j Hi Hspec).
  - destruct Hi as [(b & Hb & Hn) _].
    rewrite (Hspec b (nth_error_In _ _ Hb)) in Hn. discriminate.
Qed.

Lemma bot_ok_json_items bots :
  forallb bot_ok bots = true -> forallb bot_ok (map json_item bots) = true.
Proof.
  induction bots as [|b bots IH]; [reflexivity|].
  cbn [forallb map]. intros H. apply andb_prop in H as [Hb Hbs].
  rewrite (IH Hbs), andb_true_r.
  destruct (bot_ok_name b Hb) as (fs & n & -> & Hn).
  rewrite json_item_object. cbn [bot_ok].
  now rewrite (lookup_json_fields_found "name" (VStr n) fs Hn) by discriminate.
Qed.

(** Writing the canvas again into the entry that holds it gives, after
    the trip through the text, the same entries. *)
Lemma assign_again i T bots fs :
  nth_error bots i = Some (VObj fs) ->
  lookup "templates" fs = Some T -> T <> VUndefined ->
  exists B',
    assignTemplatesAt i T (map json_item bots) = Ok B' /\
    map json_item B' = map json_item bots.
Proof.
  intros Hi HT Hdef.
  assert (HBi : nth_error (map json_item bots) i = Some (VObj (json_fields fs))).
  { now rewrite nth_error_map, Hi. }
  destruct (assignTemplatesAt_spec i T _ _ HBi) as (B' & Ha & Hi' & Hother & _).
  exists B'. split; [exact Ha|].
  apply nth_error_ext. intros j. rewrite (nth_error_map json_item j B').
  destruct (Nat.eq_dec j i) as [->|Hj].
  - rewrite Hi', HBi. cbn [option_map]. rewrite json_item_object.
    now rewrite (json_fields_set_same "templates" T (json_fields fs) (jsonify T)
                   (json_fields_clean fs)
                   (lookup_json_fields_found "templates" T fs HT Hdef) Hdef eq_refl).
  - rewrite (Hother j Hj), nth_error_map.
    destruct (nth_error bots j); [|reflexivity].
    cbn [option_map]. now rewrite json_item_again.
Qed.

(** X18.  Saving again stores the same text.  When the stored document
    is one the editor can extend, [getCurrentFlowJson] returns a text that
    it returns again, for the same canvas, once the record holds that text:
    a second save, after the refetch that follows the first, neither adds
    an entry nor changes one. *)
Theorem saving_again_stores_the_same_text (p : Props) (s : State) :
  stored_ok p = true ->
  exists t,
    getCurrentFlowJson p s = Ok t /\
    getCurrentFlowJson (refetched p t) s = Ok t.
Proof.
  intros Hok.
  destruct (saved_wrapper p s Hok)
    as (multi & bots & i & fs & Hsave & Hi & HT & Hbok & Hp).
  eexists. split; [exact Hsave|].
  set (M := set_field "chatbots" (VArr bots) multi).
  assert (Hdef : currentTemplates s <> VUndefined) by discriminate.
  assert (HB : exists B',
             (if str_truthy (flowParam p)
              then botIndex <- findBotIndex (lower p)
                                 (name_or "" (flowParam p))
                                 (map json_item bots) ;;
                   match botIndex with
                   | Some j => assignTemplatesAt j (currentTemplates s)
                                 (map json_item bots)
                   | None => Ok (map json_item bots
                                 ++ [botEntry (name_or "" (flowParam p))
                                       (currentTemplates s)])
                   end
              else match map json_item bots with
                   | _ :: _ => assignTemplatesAt 0 (currentTemplates s)
                                 (map json_item bots)
                   | [] => Ok (map json_item bots
                               ++ [botEntry (str_or (chatbot_name_of
                                                       (refetched p
                                                          (JSON_stringify (VObj M))))
                                               "Default Bot")
                                     (currentTemplates s)])
                   end)
             = Ok B' /\ map json_item B' = map json_item bots).
  { pose proof (picked_json_items p bots i Hbok Hp) as Hp'.
    unfold picked in Hp'. destruct (str_truthy (flowParam p)).
    - rewrite (findBotIndex_first _ _ _ i (bot_ok_json_items bots Hbok) Hp').
      cbn [bind]. now apply (assign_again i _ bots fs).
    - subst i. destruct bots as [|b0 bots']; [discriminate|].
      cbn [map]. now apply (assign_again 0 _ (b0 :: bots') fs). }
  destruct HB as (B' & HB' & Hsame).
  unfold getCurrentFlowJson, refetched.
  cbn [data flow_json text_truthy JSON_stringify JSON_parse]. fold M.
  rewrite (prop_jsonify_found M "chatbots" (VArr bots)
             (lookup_set_field_same _ _ _)) by discriminate.
  rewrite jsonify_arr. cbn [bind truthy isArray andb items_of].
  rewrite jsonify_obj. cbn [spread].
  unfold storeCurrentFlow. cbn [flowParam lower]. unfold refetched in HB'.
  rewrite HB'. cbn [bind]. unfold JSON_stringify. rewrite jsonify_obj.
  rewrite (json_fields_set_same "chatbots" (VArr B') (json_fields M)
             (VArr (map json_item bots)) (json_fields_clean M)).
  - reflexivity.
  - rewrite (lookup_json_fields_found "chatbots" (VArr bots) M
               (lookup_set_field_same _ _ _)) by discriminate.
    reflexivity.
  - discriminate.
  - now rewrite jsonify_arr, Hsame.
Qed.

Lemma saving_again_stores_the_same_text_witness :
  stored_ok support_props = true /\
  exists t,
    getCurrentFlowJson support_props Examples.loaded = Ok t /\
    getCurrentFlowJson (refetched support_props t) Examples.loaded = Ok t.
Proof.
  split; [reflexivity|].
  exact (saving_again_stores_the_same_text support_props Examples.loaded
           eq_refl).
Defined.

End SaveAgainFacts.

(** ** A connection that was deleted *)

Module DisconnectionFacts.
Import Index Shape Routes Editing JSFacts RunFacts EditingFacts ConnectionFacts.

Lemma mapM_In_inv {A B} (f : A -> result B) xs ys y :
  mapM f xs = Ok ys -> In y ys -> exists x, In x xs /\ f x = Ok y.
Proof.
  intros H. apply mapM_Ok_Forall2 in H.
  induction H as [|x0 y0 xs ys Hxy _ IH]; intros Hin; [destruct Hin|].
  destruct Hin as [->|Hin].
  - exists x0. split; [now left|exact Hxy].
  - destruct (IH Hin) as (x & Hx & Hfx). exists x. split; [now right|exact Hfx].
Qed.

(** The edges derived from a route carry the id of the route as their
    handle. *)
Lemma edgesOfRoute_handle et d r es e' :
  is_object r = true ->
  edgesOfRoute et d r = Ok es -> In e' es ->
  truthy (opt_prop r "connectedTo") = true /\
  Edge.sourceHandle e' = opt_prop r "id".
Proof.
  intros Hr H Hin. unfold edgesOfRoute in H.
  rewrite (object_prop r "connectedTo" Hr) in H. cbn [bind] in H.
  destruct (truthy (opt_prop r "connectedTo")); [|returned H; destruct Hin].
  split; [reflexivity|].
  rewrite !(object_prop r _ Hr) in H. cbn [bind] in H.
  apply bind_Ok in H as (tid & _ & H). returned H.
  destruct Hin as [<-|[]]. reflexivity.
Qed.

(** No edge is derived from the routes that a deletion has cleared. *)
Lemma cleared_routes_derive_no_edge et d h rs rs' ess e' :
  forallb is_object rs = true ->
  mapM (connectRoute h VUndefined) rs = Ok rs' ->
  mapM (edgesOfRoute et d) rs' = Ok ess ->
  In e' (List.concat ess) ->
  strict_eq (Edge.sourceHandle e') h = false.
Proof.
  intros Hobj Hrs' Hess Hin.
  apply in_concat in Hin as (es & Hes & Hin).
  destruct (mapM_In_inv _ _ _ es Hess Hes) as (r' & Hr' & Her').
  destruct (mapM_In_inv _ _ _ r' Hrs' Hr') as (r & Hr & Hrr').
  assert (Hro : is_object r = true).
  { rewrite forallb_forall in Hobj. now apply Hobj. }
  unfold connectRoute in Hrr'. rewrite (object_prop r "id" Hro) in Hrr'.
  cbn [bind] in Hrr'.
  destruct (strict_eq (opt_prop r "id") h) eqn:E; injection Hrr' as <-.
  - destruct (edgesOfRoute_handle et d
                (VObj (set_field "connectedTo" VUndefined (spread r))) es e'
                eq_refl Her' Hin) as [Hc _].
    unfold opt_prop in Hc. rewrite prop_set_same in Hc. discriminate.
  - destruct (edgesOfRoute_handle et d r es e' Hro Her' Hin) as [_ ->].
    exact E.
Qed.

(** X19.  A connection deleted at a route stays deleted.  On templates
    that carry a route array of objects (or none), after [onEdgesDelete] of
    one edge every node with the id of the edge's source derives, as the load
    effect and the import derive them, only edges from other handles than the
    deleted edge's: the deletion is in what a save stores.  (For an edge drawn
    from the "default" handle of a template without routes this says nothing
    about the route that holds the connection, whose id is another; see
    X9.) *)
Theorem deleted_route_connection_stays_deleted (e : Edge.t) (s : State) :
  templates_ok s ->
  exists s',
    onEdgesDelete [e] s = Ok s' /\
    forall n',
      In n' (nodes s') -> strict_eq (Node.id n') (Edge.source e) = true ->
      forall et, exists es,
        edgesOfTemplate et (Node.data n') = Ok es /\
        forall e', In e' es ->
                   strict_eq (Edge.sourceHandle e') (Edge.sourceHandle e) = false.
Proof.
  intros Hok.
  assert (Hsafe : nodes_safe (nodes s)).
  { revert Hok. apply Forall_impl. intros n. apply is_template_safe. }
  destruct (mapM_Forall (disconnectNode e) _ _ (nodes s)
              (disconnectNode_safe e) Hsafe) as (nds & Hnds & _).
  unfold onEdgesDelete. cbn [disconnectAll]. rewrite Hnds. cbn [bind].
  eexists. split; [reflexivity|].
  cbn [nodes saveToHistory setHistoryIndex setHistory setNodes].
  intros n' Hn' Hid et.
  destruct (mapM_In_inv _ _ _ n' Hnds Hn') as (n & Hn & Hdn).
  unfold templates_ok in Hok. rewrite Forall_forall in Hok.
  destruct (RoutesFacts.is_template_routes _ (Hok n Hn)) as [rs Hrs].
  destruct (RoutesFacts.routes_of_inv _ _ Hrs)
    as (fs & routes & Hdat & Hroutes & Hor & Hobj & _).
  unfold disconnectNode in Hdn.
  destruct (strict_eq (Node.id n) (Edge.source e)) eqn:E.
  - rewrite Hroutes in Hdn. cbn [bind] in Hdn. rewrite Hor in Hdn.
    cbn [items_of bind] in Hdn.
    apply bind_Ok in Hdn as (rs' & Hrs' & Hdn). returned Hdn.
    set (d' := Node.data (with_routes (VArr rs') n)).
    assert (Hobj' : Forall (fun r' => is_object r' = true) rs').
    { pose proof (mapM_Ok_Forall2 _ _ _ Hrs') as H2.
      apply RoutesFacts.forallb_Forall in Hobj. clear -H2 Hobj.
      induction H2 as [|r0 r0' rs0 rs0' H0 _ IH]; [constructor|].
      inversion Hobj as [|? ? Hr0 Hrs0]; subst.
      constructor; [|now apply IH].
      destruct (connectRoute_object (Edge.sourceHandle e) VUndefined r0 Hr0)
        as (r1 & Hr1 & Ho1).
      rewrite H0 in Hr1. now injection Hr1 as ->. }
    assert (Hd' : defined d' = true) by reflexivity.
    destruct (mapM_Forall (edgesOfRoute et d') _ (fun _ => True) rs'
                (fun r' Hr' =>
                   match edgesOfRoute_returns et d' r' Hd' Hr' with
                   | ex_intro _ es He => ex_intro _ es (conj He I)
                   end) Hobj') as (ess & Hess & _).
    exists (List.concat ess). split.
    + unfold edgesOfTemplate. unfold d', with_routes in *.
      cbn [Node.data Node.with_data] in *.
      rewrite prop_set_same. cbn [bind nullish items_of]. now rewrite Hess.
    + intros e' He'.
      exact (cleared_routes_derive_no_edge et d' _ rs rs' ess e' Hobj Hrs' Hess He').
  - returned Hdn. rewrite E in Hid. discriminate.
Qed.

Lemma deleted_route_connection_stays_deleted_witness :
  templates_ok Examples.loaded /\
  exists s',
    onEdgesDelete [r1_edge] Examples.loaded = Ok s' /\
    forall n',
      In n' (nodes s') -> strict_eq (Node.id n') (Edge.source r1_edge) = true ->
      forall et, exists es,
        edgesOfTemplate et (Node.data n') = Ok es /\
        forall e', In e' es ->
                   strict_eq (Edge.sourceHandle e') (Edge.sourceHandle r1_edge)
                   = false.
Proof.
  assert (H : templates_ok Examples.loaded) by repeat constructor.
  split; [exact H|].
  exact (deleted_route_connection_stays_deleted r1_edge Examples.loaded H).
Defined.

End DisconnectionFacts.

(** ** The names of the stored chatbots *)

Module NamesFacts.
Import Index Shape Wrapper Stored Reload JSFacts JsonFacts SerializeFacts
  ReloadFacts SaveAgainFacts.

Lemma name_key_named lower fp bot :
  bot_ok bot = true ->
  named lower fp bot = (name_key lower bot =? lower fp)%string.
Proof.
  intros H. destruct (bot_ok_name bot H) as (fs & n & -> & Hn).
  unfold named, name_key, opt_prop. cbn [prop]. now rewrite Hn.
Qed.

Lemma name_key_json_item lower bot :
  bot_ok bot = true -> name_key lower (json_item bot) = name_key lower bot.
Proof.
  intros H. destruct (bot_ok_name bot H) as (fs & n & -> & Hn).
  rewrite json_item_object. unfold name_key, opt_prop. cbn [prop].
  now rewrite (lookup_json_fields_found "name" (VStr n) fs Hn), Hn by discriminate.
Qed.

Lemma name_key_set_templates lower T fs :
  name_key lower (VObj (set_field "templates" T fs)) = name_key lower (VObj fs).
Proof.
  unfold name_key, opt_prop. now rewrite prop_set_other by discriminate.
Qed.

Lemma bot_ok_set_templates T fs :
  bot_ok (VObj fs) = true -> bot_ok (VObj (set_field "templates" T fs)) = true.
Proof.
  cbn [bot_ok]. now rewrite lookup_set_field_other by discriminate.
Qed.

(** [getCurrentFlowJson] is [storeCurrentFlow] on the stored chatbots, on
    the one chatbot made of a stored single flow, or on none. *)
Lemma save_base p s :
  stored_ok p = true -> stored_distinct p ->
  exists multi bots,
    getCurrentFlowJson p s = storeCurrentFlow p (currentTemplates s) multi bots /\
    forallb bot_ok bots = true /\ names_distinct (lower p) bots.
Proof.
  intros Hok Hdist. unfold stored_ok in Hok.
  assert (Hfresh : exists multi bots,
             Ok (fresh_document p s)
             = storeCurrentFlow p (currentTemplates s) multi bots /\
             forallb bot_ok bots = true /\ names_distinct (lower p) bots).
  { exists [("chatbots", VArr []); ("version", VStr "1.0")], [].
    split; [|split; [reflexivity|constructor]].
    unfold storeCurrentFlow, fresh_document.
    destruct (str_truthy (flowParam p)) eqn:E.
    - now rewrite (botName_of_param p E).
    - now rewrite (botName_without_param p E). }
  unfold getCurrentFlowJson. fold (fresh_document p s).
  destruct (data p) as [cfg|] eqn:Hdata; [|exact Hfresh].
  destruct (flow_json cfg) as [t|] eqn:Hjson; [|exact Hfresh].
  destruct t as [|msg|v]; try exact Hfresh.
  cbn [doc_ok] in Hok. apply andb_prop in Hok as [Hnull Hbots].
  apply negb_true_iff in Hnull.
  cbn [text_truthy JSON_parse].
  assert (Hholds : holds p v) by (exists cfg; auto).
  pose proof (StoredFacts.prop_opt_prop v "chatbots" Hnull) as Hc.
  rewrite Hc. unfold bind at 1.
  destruct (opt_prop v "chatbots") as [| | | | |bots|] eqn:Ec;
    try (cbn [truthy isArray andb]).
  6: { cbn [items_of bind]. exists (spread v), bots.
       split; [reflexivity|]. split; [exact Hbots|].
       now apply (Hdist v bots). }
  all: rewrite ?andb_false_r;
    rewrite (StoredFacts.prop_opt_prop v "templates" Hnull); unfold bind at 1;
    destruct (truthy (opt_prop v "templates") && isArray (opt_prop v "templates"));
    try exact Hfresh;
    rewrite (StoredFacts.prop_opt_prop v "version" Hnull); unfold bind at 1;
    match goal with
    | |- context [storeCurrentFlow _ _ ?multi ?bots] =>
        exists multi, bots; split; [reflexivity|];
        split; [reflexivity|]; repeat constructor; intros []
    end.
Qed.

(** [storeCurrentFlow] keeps the names apart. *)
Lemma storeCurrentFlow_names p T multi bots :
  forallb bot_ok bots = true -> names_distinct (lower p) bots ->
  exists bots',
    storeCurrentFlow p T multi bots
    = Ok (JSON_stringify (VObj (set_field "chatbots" (VArr bots') multi))) /\
    forallb bot_ok bots' = true /\ names_distinct (lower p) bots' /\
    (List.length bots <= List.length bots' <= List.length bots + 1)%nat.
Proof.
  intros Hok Hdist.
  destruct (storeCurrentFlow_frame p T multi bots Hok)
    as (bots' & i & Hs & Hp & Hother & Hcase).
  exists bots'. split; [exact Hs|].
  destruct Hcase as [(fs & Hi & Hi')|(-> & ->)].
  - assert (Hlen : List.length bots' = List.length bots).
    { destruct (Nat.lt_trichotomy (List.length bots') (List.length bots))
        as [Hlt|[Heq|Hgt]]; [|exact Heq|].
      - assert (Hj : nth_error bots' (List.length bots') = None)
          by now apply nth_error_None.
        destruct (Nat.eq_dec (List.length bots') i) as [E|Hne];
          [rewrite E in Hj; congruence|].
        rewrite (Hother _ Hne) in Hj. apply nth_error_None in Hj. lia.
      - assert (Hj : nth_error bots (List.length bots) = None)
          by now apply nth_error_None.
        destruct (Nat.eq_dec (List.length bots) i) as [E|Hne];
          [rewrite E in Hj; congruence|].
        rewrite <- (Hother _ Hne) in Hj. apply nth_error_None in Hj. lia. }
    assert (Hbi : bot_ok (VObj fs) = true).
    { rewrite forallb_forall in Hok. apply Hok. now apply nth_error_In with i. }
    split; [|split; [|lia]].
    + apply forallb_forall. intros b Hb.
      apply In_nth_error in Hb as (j & Hj).
      destruct (Nat.eq_dec j i) as [->|Hne].
      * rewrite Hi' in Hj. injection Hj as <-. now apply bot_ok_set_templates.
      * rewrite (Hother _ Hne) in Hj. rewrite forallb_forall in Hok.
        apply Hok. now apply nth_error_In with j.
    + unfold names_distinct in *.
      replace (map (name_key (lower p)) bots') with (map (name_key (lower p)) bots); [exact Hdist|].
      apply nth_error_ext. intros j. rewrite !nth_error_map.
      destruct (Nat.eq_dec j i) as [->|Hne].
      * rewrite Hi, Hi'. cbn [option_map]. now rewrite name_key_set_templates.
      * now rewrite (Hother _ Hne).
  - split; [now apply forallb_snoc|]. split; [|rewrite length_app; cbn; lia].
    unfold names_distinct in *. rewrite map_app. cbn [map].
    assert (Hnew : ~ In (name_key (lower p) (botEntry (botName p) T)) (map (name_key (lower p)) bots)).
    { intros Hin. apply in_map_iff in Hin as (b & Hb & Hinb).
      unfold picked in Hp. destruct (str_truthy (flowParam p)) eqn:E.
      - destruct Hp as [_ Hfirst].
        apply In_nth_error in Hinb as (j & Hj).
        assert (Hjlt : (j < List.length bots)%nat).
        { apply nth_error_Some. congruence. }
        assert (Hbok : bot_ok b = true).
        { rewrite forallb_forall in Hok. apply Hok.
          now apply nth_error_In with j. }
        specialize (Hfirst j b Hjlt).
        rewrite nth_error_app1 in Hfirst by exact Hjlt.
        specialize (Hfirst Hj).
        rewrite (name_key_named _ _ b Hbok), Hb in Hfirst.
        rewrite (botName_of_param p E) in Hfirst.
        unfold name_key, botEntry, opt_prop in Hfirst. cbn in Hfirst.
        now rewrite String.eqb_refl in Hfirst.
      - destruct bots; [destruct Hinb|discriminate]. }
    clear -Hdist Hnew. revert Hdist Hnew.
    generalize (name_key (lower p) (botEntry (botName p) T)).
    induction (map (name_key (lower p)) bots) as [|k ks IH]; intros x Hd Hx.
    + repeat constructor. intros [].
    + inversion Hd as [|? ? Hk Hks]; subst. cbn [app]. constructor.
      * intros Hin. apply in_app_or in Hin as [Hin|[<-|[]]]; [now apply Hk|].
        apply Hx. now left.
      * apply IH; [exact Hks|]. intros Hin. apply Hx. now right.
Qed.

(** X20.  A save never stores two chatbots under one name.  When the
    stored document is one the editor can extend and its [chatbots] array,
    if it has one, names no chatbot twice (no two names are lowered to the
    same string by the engine's [toLowerCase], whatever that function is),
    [getCurrentFlowJson] returns a document whose [chatbots] array names no
    chatbot twice either, and whose entries are again objects with a string
    name. *)
Theorem saving_keeps_the_names_apart (p : Props) (s : State) :
  stored_ok p = true -> stored_distinct p ->
  exists doc bots,
    getCurrentFlowJson p s = Ok (Json doc) /\
    prop doc "chatbots" = Ok (VArr bots) /\
    forallb bot_ok bots = true /\ names_distinct (lower p) bots.
Proof.
  intros Hok Hdist.
  destruct (save_base p s Hok Hdist) as (multi & bots0 & Hsave & Hbok & Hd0).
  destruct (storeCurrentFlow_names p (currentTemplates s) multi bots0 Hbok Hd0)
    as (bots' & Hs & Hbok' & Hd' & _).
  rewrite Hs in Hsave. eexists _, (map json_item bots').
  split; [exact Hsave|]. split.
  { rewrite (prop_jsonify_found _ "chatbots" (VArr bots')
               (lookup_set_field_same _ _ _)) by discriminate.
    reflexivity. }
  split; [now apply bot_ok_json_items|].
  unfold names_distinct in *. rewrite map_map.
  replace (map (fun b => name_key (lower p) (json_item b)) bots')
    with (map (name_key (lower p)) bots'); [exact Hd'|].
  apply map_ext_in. intros b Hb. symmetry. apply name_key_json_item.
  rewrite forallb_forall in Hbok'. now apply Hbok'.
Qed.

Lemma saving_keeps_the_names_apart_witness :
  stored_ok unknown_props = true /\ stored_distinct unknown_props /\
  exists doc bots,
    getCurrentFlowJson unknown_props Examples.loaded = Ok (Json doc) /\
    prop doc "chatbots" = Ok (VArr bots) /\
    forallb bot_ok bots = true /\ names_distinct (lower unknown_props) bots.
Proof.
  assert (H : stored_distinct unknown_props).
  { intros v bots (cfg & Hc & Hv) Hb.
    injection Hc as <-. injection Hv as <-. injection Hb as <-.
    repeat constructor; cbn; intuition discriminate. }
  split; [reflexivity|]. split; [exact H|].
  exact (saving_keeps_the_names_apart unknown_props Examples.loaded eq_refl H).
Defined.

End NamesFacts.

(** ** A chatbot name with an accented letter: checks *)

Module AccentedFacts.
Import Index Accented.

Example lowerLatin_lowers_the_accented_capital :
  lowerLatin ECOLE = ecole /\ lowerLatin "Shop Bot-2" = lowerASCII "Shop Bot-2".
Proof. split; reflexivity. Qed.

(** The entry is found under the capital spelling of its name: the save
    writes the canvas into it and appends nothing. *)
Example accented_name_is_saved_in_place :
  getCurrentFlowJson ecole_props Examples.loaded
  = Ok (Json (VObj [("chatbots",
                     VArr [VObj [("name", VStr "Shop"); ("templates", VArr [])];
                           VObj [("name", VStr ecole);
                                 ("templates",
                                  currentTemplates Examples.loaded)]]);
                    ("version", VStr "1.0")])).
Proof. reflexivity. Qed.

(** ... and the load shows that entry, without the warning of a name that
    was not found. *)
Example accented_name_is_loaded :
  exists s',
    loadFlow ecole_props initial = Ok s' /\
    map Node.id (nodes s') = [VStr "menu"] /\
    map kind (toasts s') = [success].
Proof. eexists. repeat split. Qed.

End AccentedFacts.
